(** * GeminiRAGAPI: the session controller and its gateway adapter

    A shallow embedding of [App.tsx] (the session state machine, the library
    cache and the chat driver), of [services/geminiService.ts] (the adapter
    over the remote document-store SDK) and of the delete path of
    [components/WelcomeScreen.tsx].

    React state is a record, a handler is a computation over that record
    and over the adapter's state, and a rejected promise is an exception
    that leaves the state as it was when it was raised.  The SDK and the
    JavaScript host are an interface: every statement below holds for every
    implementation of it. *)

From Stdlib Require Import String Ascii List Bool Arith ZArith Lia DecimalString Sorted.
From ExtLib Require Import Structures.Monad.
Import ListNotations.
Import MonadNotation.
Local Open Scope string_scope.
Local Open Scope monad_scope.

Set Implicit Arguments.
Set Warnings "-register-all".

(* ===================================================================== *)
(** ** JavaScript values *)
(* ===================================================================== *)

(** The service reads the SDK's list responses as [any].  Arrays and objects
    carry their reference, since [===] compares them by identity; an
    object's properties are listed in [Object.keys] order.  Numbers are
    integers here: the code only ever tests them for truthiness. *)
Inductive JsValue : Type :=
| JsUndefined
| JsNull
| JsBool (b : bool)
| JsNum (z : Z)
| JsStr (s : string)
| JsArr (ref : nat) (items : list JsValue)
| JsObj (ref : nat) (props : list (string * JsValue)).

(** [!!v] *)
Definition truthy (v : JsValue) : bool :=
  match v with
  | JsUndefined | JsNull => false
  | JsBool b => b
  | JsNum z => negb (Z.eqb z 0)
  | JsStr s => negb (String.eqb s "")
  | JsArr _ _ | JsObj _ _ => true
  end.

(** [a === b] *)
Definition strictEq (a b : JsValue) : bool :=
  match a, b with
  | JsUndefined, JsUndefined => true
  | JsNull, JsNull => true
  | JsBool x, JsBool y => Bool.eqb x y
  | JsNum x, JsNum y => Z.eqb x y
  | JsStr x, JsStr y => String.eqb x y
  | JsArr r _, JsArr r' _ => Nat.eqb r r'
  | JsObj r _, JsObj r' _ => Nat.eqb r r'
  | _, _ => false
  end.

(** [a || b] *)
Definition jsOr (a b : JsValue) : JsValue := if truthy a then a else b.

Fixpoint lookupKey (key : string) (props : list (string * JsValue)) : JsValue :=
  match props with
  | [] => JsUndefined
  | (k, v) :: rest => if String.eqb k key then v else lookupKey key rest
  end.

(** [v.key] for a non-nullish [v] and one of the data keys the service reads
    ([name], [displayName], [files], [questions], ...): an own property of an
    object, and undefined on arrays and primitives, which have no such
    member. *)
Definition prop (v : JsValue) (key : string) : JsValue :=
  match v with
  | JsObj _ props => lookupKey key props
  | _ => JsUndefined
  end.

Definition isNullish (v : JsValue) : bool :=
  match v with JsUndefined | JsNull => true | _ => false end.

(* ===================================================================== *)
(** ** Exceptions and outcomes *)
(* ===================================================================== *)

(** What a [catch (err)] clause of this program can observe of [err]:
    whether it is an [Error] (then its [message]), and otherwise its
    truthiness and its [String(err)] rendering. *)
Inductive JsError : Type :=
| ErrorObj (message : string)
| Thrown (isTruthy : bool) (asString : string).

(** The outcome of awaiting a computation: it returns, it throws (the
    promise rejects), or it never settles. *)
Inductive Res (A : Type) : Type :=
| Ok (a : A)
| Throw (e : JsError)
| Diverge.

Arguments Throw {A} e.
Arguments Diverge {A}.

Definition typeError (reading : string) (target : JsValue) : JsError :=
  ErrorObj ("Cannot read properties of "
            ++ (match target with JsNull => "null" | _ => "undefined" end)
            ++ " (reading '" ++ reading ++ "')").

(** [v.key], which throws a [TypeError] on [null] and [undefined]. *)
Definition getProp (v : JsValue) (key : string) : Res JsValue :=
  if isNullish v then Throw (typeError key v) else Ok (prop v key).

(* ===================================================================== *)
(** ** The declarations of [types.ts] *)
(* ===================================================================== *)

(** Modelled from the spec: [AppStatus] of [types.ts], which is not among
    the sources; section 4.3 of the specification lists its five states. *)
Inductive AppStatus : Type :=
| Initializing | Welcome | Uploading | Chatting | Error.

Definition AppStatus_eqb (a b : AppStatus) : bool :=
  match a, b with
  | Initializing, Initializing | Welcome, Welcome | Uploading, Uploading
  | Chatting, Chatting | Error, Error => true
  | _, _ => false
  end.

(** Modelled from the spec: [RagStore] of [types.ts] (an opaque remote
    identifier and a display name).  Both fields are declared strings; the
    values that [listRagStores] copies out of an [any] response are not
    checked at run time, so the model keeps them as JavaScript values. *)
Record RagStore : Type := {
  store_name : JsValue;
  store_displayName : JsValue
}.

(** Modelled from the spec: [CustomMetadata] of [types.ts], a key and a
    value. *)
Record CustomMetadata : Type := {
  meta_key : string;
  meta_value : JsValue
}.

(** Modelled from the spec: [Document] of [types.ts]. *)
Record Document : Type := {
  doc_name : JsValue;
  doc_displayName : JsValue;
  doc_customMetadata : list CustomMetadata
}.

(** Modelled from the spec: the role of a [ChatMessage]. *)
Inductive Role : Type := user | model.

(** Modelled from the spec: [ChatMessage] of [types.ts]: a role, text
    parts, and optional grounding chunks. *)
Record ChatMessage : Type := {
  role : Role;
  parts : list string;
  groundingChunks : option (list JsValue)
}.

(** Modelled from the spec: [QueryResult] of [types.ts]. *)
Record QueryResult : Type := {
  qr_text : string;
  qr_groundingChunks : list JsValue
}.

(** A browser [File]: the controller reads its [name] and hands the object
    to the SDK. *)
Record File : Type := {
  file_name : string;
  file_blob : nat
}.

(* ===================================================================== *)
(** ** State and exceptions *)
(* ===================================================================== *)

(** The adapter's computations: a state transformer whose exceptions keep
    the state reached when they were raised. *)
Definition ST (S A : Type) : Type := S -> Res A * S.

Definition retST {S A : Type} (a : A) : ST S A := fun s => (Ok a, s).

Definition bindST {S A B : Type} (m : ST S A) (k : A -> ST S B) : ST S B :=
  fun s =>
    match m s with
    | (Ok a, s') => k a s'
    | (Throw e, s') => (Throw e, s')
    | (Diverge, s') => (Diverge, s')
    end.

#[global] Instance Monad_ST (S : Type) : Monad (ST S) :=
  {| ret := @retST S; bind := @bindST S |}.

(** [throw e] *)
Definition throwST {S A : Type} (e : JsError) : ST S A := fun s => (Throw e, s).

(** [try { body } catch (err) { handler }] *)
Definition tryCatchST {S A : Type} (body : ST S A) (handler : JsError -> ST S A)
  : ST S A :=
  fun s =>
    match body s with
    | (Throw e, s') => handler e s'
    | other => other
    end.

(* ===================================================================== *)
(** ** JavaScript strings *)
(* ===================================================================== *)

(** [String(n)] for a non-negative integer. *)
Definition natStr (n : nat) : string := NilEmpty.string_of_uint (Nat.to_uint n).

(** A string is the sequence of the bytes of its UTF-8 encoding, so the
    characters of ASCII are the bytes below 128. *)
Fixpoint isAsciiText (s : string) : bool :=
  match s with
  | EmptyString => true
  | String c rest => Nat.ltb (nat_of_ascii c) 128 && isAsciiText rest
  end.

(** What [s.toLowerCase()] does to text in ASCII: the letters [A] to [Z]
    go to [a] to [z], and nothing else changes.  Outside ASCII the result
    is the runtime's, by its Unicode tables (the Kelvin sign, for one, goes
    to [k]); see [toLowerCase] of the host. *)
Definition lowerAscii (c : ascii) : ascii :=
  let n := nat_of_ascii c in
  if andb (Nat.leb 65 n) (Nat.leb n 90) then ascii_of_nat (n + 32) else c.

Fixpoint asciiLowerCase (s : string) : string :=
  match s with
  | EmptyString => EmptyString
  | String c rest => String (lowerAscii c) (asciiLowerCase rest)
  end.

(** [s.includes(sub)] *)
Fixpoint includes (s sub : string) : bool :=
  if String.prefix sub s then true
  else
    match s with
    | EmptyString => false
    | String _ rest => includes rest sub
    end.

(* ===================================================================== *)
(** ** The SDK and the host *)
(* ===================================================================== *)

(** [new GoogleGenAI({ apiKey })] *)
Record Client : Type := { apiKey : string }.

(** A long-running operation handle; [done] absent reads as [false]. *)
Record Operation : Type := {
  op_name : string;
  op_done : bool
}.

(** The two [generateContent] requests of the adapter: the model and the
    store are fixed by the caller, the prompt and the JSON response schema
    vary. *)
Record GenRequest : Type := {
  req_model : string;
  req_contents : string;
  req_fileSearchStoreNames : list JsValue;
  req_jsonSchema : bool
}.

(** What the adapter reads of a [GenerateContentResponse]: [text], and
    [candidates?.[0]?.groundingMetadata?.groundingChunks]. *)
Record GenResponse : Type := {
  resp_text : option string;
  resp_groundingChunks : option (list JsValue)
}.

(** The remote SDK and the JavaScript host, over a state [R] of their own.
    Each call may return, throw, or never settle.  The two members of
    [window.aistudio] are optional.  [toLowerCase] is
    [String.prototype.toLowerCase], which the runtime computes from its
    Unicode tables; on text in ASCII it lowers the letters [A] to [Z] and
    nothing else. *)
Class Host (R : Type) : Type := {
  sdk_create : Client -> string -> ST R (option string);
  sdk_list : Client -> nat -> ST R JsValue;
  sdk_listFiles : Client -> JsValue -> nat -> ST R JsValue;
  sdk_uploadToFileSearchStore : Client -> JsValue -> File -> ST R Operation;
  sdk_operations_get : Client -> Operation -> ST R Operation;
  sdk_files_delete : Client -> JsValue -> ST R unit;
  sdk_delete : Client -> JsValue -> bool -> ST R unit;
  sdk_generateContent : Client -> GenRequest -> ST R GenResponse;
  aistudio_hasSelectedApiKey : option (ST R bool);
  aistudio_openSelectKey : option (ST R unit);
  JSON_parse : string -> option JsValue;
  toLocaleDateString : R -> string;
  toLocaleTimeString : R -> string;
  toLowerCase : string -> string;
  toLowerCase_ascii :
    forall s : string, isAsciiText s = true -> toLowerCase s = asciiLowerCase s
}.

(* ===================================================================== *)
(** ** [services/geminiService.ts] *)
(* ===================================================================== *)

Section GeminiService.
Context {R : Type} {host : Host R}.

(** The module's state: the client [ai], [process.env.API_KEY], and the
    remote. *)
Record Backend : Type := {
  ai : option Client;
  API_KEY : option string;
  remote : R
}.

Definition G : Type -> Type := ST Backend.

Definition set_ai (c : option Client) (b : Backend) : Backend :=
  {| ai := c; API_KEY := API_KEY b; remote := remote b |}.

Definition set_remote (r : R) (b : Backend) : Backend :=
  {| ai := ai b; API_KEY := API_KEY b; remote := r |}.

Definition initialize : G unit :=
  fun b =>
    match API_KEY b with
    | Some key =>
        if negb (String.eqb key "")
        then (Ok tt, set_ai (Some {| apiKey := key |}) b)
        else (Ok tt, b)
    | None => (Ok tt, b)
    end.

Definition ensureInitialized : G unit :=
  fun b =>
    match ai b with
    | Some _ => (Ok tt, b)
    | None =>
        let b' := snd (initialize b) in
        match ai b' with
        | Some _ => (Ok tt, b')
        | None =>
            (Throw (ErrorObj "Gemini AI client not initialized. Please wait for the API key to load."), b')
        end
    end.

(** [await ai.method(...)]: reading a member of an unset [ai] throws. *)
Definition withClient {A : Type} (method : string) (call : Client -> ST R A)
  : G A :=
  fun b =>
    match ai b with
    | Some c => let (r, rem) := call c (remote b) in (r, set_remote rem b)
    | None => (Throw (typeError method JsUndefined), b)
    end.

(** The first array found in a list response. *)
Fixpoint firstArrayKey (response : JsValue) (keys : list string)
  : list JsValue :=
  match keys with
  | [] => []
  | key :: rest =>
      match prop response key with
      | JsArr _ items => items
      | _ => firstArrayKey response rest
      end
  end.

Definition findArrayInResponse (response : JsValue) : list JsValue :=
  if negb (truthy response) then []
  else
    match response with
    | JsArr _ items => items
    | _ =>
        match prop response "fileSearchStores" with
        | JsArr _ items => items
        | _ =>
        match prop response "file_search_stores" with
        | JsArr _ items => items
        | _ =>
        match prop response "files" with
        | JsArr _ items => items
        | _ =>
            match response with
            | JsObj _ props => firstArrayKey response (map fst props)
            | _ => []
            end
        end end end
    end.

Definition createRagStore (displayName : string) : G string :=
  ensureInitialized ;;
  ragStore_name <- withClient "fileSearchStores" (fun c => sdk_create c displayName) ;;
  match ragStore_name with
  | Some name =>
      if negb (String.eqb name "") then ret name
      else throwST (ErrorObj "Failed to create RAG store: name is missing.")
  | None => throwST (ErrorObj "Failed to create RAG store: name is missing.")
  end.

(** [xs.map(f)] for a callback that may throw. *)
Fixpoint mapRes {A B : Type} (f : A -> Res B) (xs : list A) : Res (list B) :=
  match xs with
  | [] => Ok []
  | x :: rest =>
      match f x with
      | Ok y =>
          match mapRes f rest with
          | Ok ys => Ok (y :: ys)
          | Throw e => Throw e
          | Diverge => Diverge
          end
      | Throw e => Throw e
      | Diverge => Diverge
      end
  end.

Definition liftRes {S A : Type} (r : Res A) : ST S A := fun s => (r, s).

(** The callback of [listRagStores]. *)
Definition toRagStore (store : JsValue) : Res RagStore :=
  if isNullish store then Throw (typeError "name" store)
  else Ok {| store_name := prop store "name";
             store_displayName :=
               jsOr (prop store "displayName")
                    (jsOr (prop store "display_name") (JsStr "Untitled Store")) |}.

Definition listRagStores : G (list RagStore) :=
  ensureInitialized ;;
  response <- withClient "fileSearchStores" (fun c => sdk_list c 100) ;;
  let stores := findArrayInResponse response in
  liftRes (mapRes toRagStore stores).

(** The callback of [listDocuments]. *)
Definition toDocument (f : JsValue) : Res Document :=
  if isNullish f then Throw (typeError "name" f)
  else Ok {| doc_name := prop f "name";
             doc_displayName :=
               jsOr (prop f "displayName")
                    (jsOr (prop f "display_name") (JsStr "Untitled Document"));
             doc_customMetadata := [] |}.

Definition listDocuments (ragStoreName : JsValue) : G (list Document) :=
  ensureInitialized ;;
  response <- withClient "fileSearchStores"
                (fun c => sdk_listFiles c ragStoreName 100) ;;
  let files := findArrayInResponse response in
  liftRes (mapRes toDocument files).

(** [while (!op.done) { await delay(3000); op = await ai.operations.get(...) }]:
    the source puts no bound on the number of polls; [fuel] does, and a
    loop that exhausts it has not settled. *)
Fixpoint pollUntilDone (fuel : nat) (op : Operation) : G unit :=
  if op_done op then ret tt
  else
    match fuel with
    | O => fun b => (Diverge, b)
    | S fuel' =>
        op' <- withClient "operations" (fun c => sdk_operations_get c op) ;;
        pollUntilDone fuel' op'
    end.

Definition uploadToRagStore (fuel : nat) (ragStoreName : JsValue) (file : File)
  : G unit :=
  ensureInitialized ;;
  op <- withClient "fileSearchStores"
          (fun c => sdk_uploadToFileSearchStore c ragStoreName file) ;;
  pollUntilDone fuel op.

Definition deleteFile (fileName : JsValue) : G unit :=
  ensureInitialized ;;
  withClient "files" (fun c => sdk_files_delete c fileName).

Definition fileSearch (ragStoreName : JsValue) (query : string) : G QueryResult :=
  ensureInitialized ;;
  response <- withClient "models" (fun c => sdk_generateContent c
    {| req_model := "gemini-2.5-flash";
       req_contents := query ++ "DO NOT ASK THE USER TO READ THE MANUAL, pinpoint the relevant sections in the response itself.";
       req_fileSearchStoreNames := [ragStoreName];
       req_jsonSchema := false |}) ;;
  let chunks := match resp_groundingChunks response with
                | Some cs => cs
                | None => []
                end in
  ret {| qr_text := match resp_text response with
                    | Some t => if String.eqb t "" then "No answer generated." else t
                    | None => "No answer generated."
                    end;
         qr_groundingChunks := chunks |}.

(** The callback of [flatMap]: [item.questions || []], flattened one
    level. *)
Definition questionsOf (item : JsValue) : Res (list JsValue) :=
  match getProp item "questions" with
  | Ok q =>
      match jsOr q (JsArr 0 []) with
      | JsArr _ items => Ok items
      | other => Ok [other]
      end
  | Throw e => Throw e
  | Diverge => Diverge
  end.

Definition stringsOf (vs : list JsValue) : list string :=
  flat_map (fun v => match v with JsStr s => [s] | _ => [] end) vs.

Definition generateExampleQuestions (ragStoreName : JsValue) : G (list string) :=
  ensureInitialized ;;
  tryCatchST
    (response <- withClient "models" (fun c => sdk_generateContent c
       {| req_model := "gemini-2.5-flash";
          req_contents := "Analyze the provided documents to identify the main product or topic. Then generate 4 short, practical questions a user might ask about it. If you cannot identify a specific product, generate generic questions about the document content.";
          req_fileSearchStoreNames := [ragStoreName];
          req_jsonSchema := true |}) ;;
     let jsonText := match resp_text response with
                     | Some t => if String.eqb t "" then "[]" else t
                     | None => "[]"
                     end in
     match JSON_parse jsonText with
     | None => ret []
     | Some (JsArr _ parsedData) =>
         items <- liftRes (mapRes questionsOf parsedData) ;;
         ret (stringsOf (concat items))
     | Some _ => ret []
     end)
    (fun _ => ret []).

Definition deleteRagStore (ragStoreName : JsValue) : G unit :=
  ensureInitialized ;;
  withClient "fileSearchStores" (fun c => sdk_delete c ragStoreName true).

End GeminiService.

Arguments Backend : clear implicits.

(* ===================================================================== *)
(** ** [App.tsx]: the state of the controller *)
(* ===================================================================== *)

(** The upload progress object.  [total] is optional because the loop's
    update spreads the previous object, which has none when the previous
    state is [null]. *)
Record UploadProgress : Type := {
  current : nat;
  total : option nat;
  message : option string;
  fileName : option string
}.

(** The [useState] cells of [App], in declaration order. *)
Record App : Type := {
  status : AppStatus;
  isApiKeySelected : bool;
  apiKeyError : option string;
  error : option string;
  uploadProgress : option UploadProgress;
  activeRagStoreName : JsValue;
  chatHistory : list ChatMessage;
  isQueryLoading : bool;
  exampleQuestions : list string;
  documentName : JsValue;
  files : list File;
  existingStores : list RagStore;
  isLoadingStores : bool;
  libraryError : option string
}.

Definition with_status (v : AppStatus) (a : App) : App :=
  {| status := v; isApiKeySelected := isApiKeySelected a;
     apiKeyError := apiKeyError a; error := error a;
     uploadProgress := uploadProgress a; activeRagStoreName := activeRagStoreName a;
     chatHistory := chatHistory a; isQueryLoading := isQueryLoading a;
     exampleQuestions := exampleQuestions a; documentName := documentName a;
     files := files a; existingStores := existingStores a;
     isLoadingStores := isLoadingStores a; libraryError := libraryError a |}.

Definition with_isApiKeySelected (v : bool) (a : App) : App :=
  {| status := status a; isApiKeySelected := v; apiKeyError := apiKeyError a;
     error := error a; uploadProgress := uploadProgress a;
     activeRagStoreName := activeRagStoreName a; chatHistory := chatHistory a;
     isQueryLoading := isQueryLoading a; exampleQuestions := exampleQuestions a;
     documentName := documentName a; files := files a;
     existingStores := existingStores a; isLoadingStores := isLoadingStores a;
     libraryError := libraryError a |}.

Definition with_apiKeyError (v : option string) (a : App) : App :=
  {| status := status a; isApiKeySelected := isApiKeySelected a; apiKeyError := v;
     error := error a; uploadProgress := uploadProgress a;
     activeRagStoreName := activeRagStoreName a; chatHistory := chatHistory a;
     isQueryLoading := isQueryLoading a; exampleQuestions := exampleQuestions a;
     documentName := documentName a; files := files a;
     existingStores := existingStores a; isLoadingStores := isLoadingStores a;
     libraryError := libraryError a |}.

Definition with_error (v : option string) (a : App) : App :=
  {| status := status a; isApiKeySelected := isApiKeySelected a;
     apiKeyError := apiKeyError a; error := v; uploadProgress := uploadProgress a;
     activeRagStoreName := activeRagStoreName a; chatHistory := chatHistory a;
     isQueryLoading := isQueryLoading a; exampleQuestions := exampleQuestions a;
     documentName := documentName a; files := files a;
     existingStores := existingStores a; isLoadingStores := isLoadingStores a;
     libraryError := libraryError a |}.

Definition with_uploadProgress (v : option UploadProgress) (a : App) : App :=
  {| status := status a; isApiKeySelected := isApiKeySelected a;
     apiKeyError := apiKeyError a; error := error a; uploadProgress := v;
     activeRagStoreName := activeRagStoreName a; chatHistory := chatHistory a;
     isQueryLoading := isQueryLoading a; exampleQuestions := exampleQuestions a;
     documentName := documentName a; files := files a;
     existingStores := existingStores a; isLoadingStores := isLoadingStores a;
     libraryError := libraryError a |}.

Definition with_activeRagStoreName (v : JsValue) (a : App) : App :=
  {| status := status a; isApiKeySelected := isApiKeySelected a;
     apiKeyError := apiKeyError a; error := error a;
     uploadProgress := uploadProgress a; activeRagStoreName := v;
     chatHistory := chatHistory a; isQueryLoading := isQueryLoading a;
     exampleQuestions := exampleQuestions a; documentName := documentName a;
     files := files a; existingStores := existingStores a;
     isLoadingStores := isLoadingStores a; libraryError := libraryError a |}.

Definition with_chatHistory (v : list ChatMessage) (a : App) : App :=
  {| status := status a; isApiKeySelected := isApiKeySelected a;
     apiKeyError := apiKeyError a; error := error a;
     uploadProgress := uploadProgress a; activeRagStoreName := activeRagStoreName a;
     chatHistory := v; isQueryLoading := isQueryLoading a;
     exampleQuestions := exampleQuestions a; documentName := documentName a;
     files := files a; existingStores := existingStores a;
     isLoadingStores := isLoadingStores a; libraryError := libraryError a |}.

Definition with_isQueryLoading (v : bool) (a : App) : App :=
  {| status := status a; isApiKeySelected := isApiKeySelected a;
     apiKeyError := apiKeyError a; error := error a;
     uploadProgress := uploadProgress a; activeRagStoreName := activeRagStoreName a;
     chatHistory := chatHistory a; isQueryLoading := v;
     exampleQuestions := exampleQuestions a; documentName := documentName a;
     files := files a; existingStores := existingStores a;
     isLoadingStores := isLoadingStores a; libraryError := libraryError a |}.

Definition with_exampleQuestions (v : list string) (a : App) : App :=
  {| status := status a; isApiKeySelected := isApiKeySelected a;
     apiKeyError := apiKeyError a; error := error a;
     uploadProgress := uploadProgress a; activeRagStoreName := activeRagStoreName a;
     chatHistory := chatHistory a; isQueryLoading := isQueryLoading a;
     exampleQuestions := v; documentName := documentName a; files := files a;
     existingStores := existingStores a; isLoadingStores := isLoadingStores a;
     libraryError := libraryError a |}.

Definition with_documentName (v : JsValue) (a : App) : App :=
  {| status := status a; isApiKeySelected := isApiKeySelected a;
     apiKeyError := apiKeyError a; error := error a;
     uploadProgress := uploadProgress a; activeRagStoreName := activeRagStoreName a;
     chatHistory := chatHistory a; isQueryLoading := isQueryLoading a;
     exampleQuestions := exampleQuestions a; documentName := v; files := files a;
     existingStores := existingStores a; isLoadingStores := isLoadingStores a;
     libraryError := libraryError a |}.

Definition with_files (v : list File) (a : App) : App :=
  {| status := status a; isApiKeySelected := isApiKeySelected a;
     apiKeyError := apiKeyError a; error := error a;
     uploadProgress := uploadProgress a; activeRagStoreName := activeRagStoreName a;
     chatHistory := chatHistory a; isQueryLoading := isQueryLoading a;
     exampleQuestions := exampleQuestions a; documentName := documentName a;
     files := v; existingStores := existingStores a;
     isLoadingStores := isLoadingStores a; libraryError := libraryError a |}.

Definition with_existingStores (v : list RagStore) (a : App) : App :=
  {| status := status a; isApiKeySelected := isApiKeySelected a;
     apiKeyError := apiKeyError a; error := error a;
     uploadProgress := uploadProgress a; activeRagStoreName := activeRagStoreName a;
     chatHistory := chatHistory a; isQueryLoading := isQueryLoading a;
     exampleQuestions := exampleQuestions a; documentName := documentName a;
     files := files a; existingStores := v; isLoadingStores := isLoadingStores a;
     libraryError := libraryError a |}.

Definition with_isLoadingStores (v : bool) (a : App) : App :=
  {| status := status a; isApiKeySelected := isApiKeySelected a;
     apiKeyError := apiKeyError a; error := error a;
     uploadProgress := uploadProgress a; activeRagStoreName := activeRagStoreName a;
     chatHistory := chatHistory a; isQueryLoading := isQueryLoading a;
     exampleQuestions := exampleQuestions a; documentName := documentName a;
     files := files a; existingStores := existingStores a; isLoadingStores := v;
     libraryError := libraryError a |}.

Definition with_libraryError (v : option string) (a : App) : App :=
  {| status := status a; isApiKeySelected := isApiKeySelected a;
     apiKeyError := apiKeyError a; error := error a;
     uploadProgress := uploadProgress a; activeRagStoreName := activeRagStoreName a;
     chatHistory := chatHistory a; isQueryLoading := isQueryLoading a;
     exampleQuestions := exampleQuestions a; documentName := documentName a;
     files := files a; existingStores := existingStores a;
     isLoadingStores := isLoadingStores a; libraryError := v |}.

(* ===================================================================== *)
(** ** [components/WelcomeScreen.tsx]: the state of the delete path *)
(* ===================================================================== *)

(** The state of [WelcomeScreen] that its delete path reads and writes. *)
Inductive TargetKind : Type := store | file.

Record ConfirmState : Type := {
  isOpen : bool;
  confirm_type : TargetKind;
  targetId : JsValue;
  confirm_displayName : JsValue
}.

Record Screen : Type := {
  confirmState : ConfirmState;
  managingStore : option RagStore;
  storeDocuments : list Document;
  isLoadingDocs : bool
}.

Definition with_confirmState (v : ConfirmState) (s : Screen) : Screen :=
  {| confirmState := v; managingStore := managingStore s;
     storeDocuments := storeDocuments s; isLoadingDocs := isLoadingDocs s |}.

Definition with_managingStore (v : option RagStore) (s : Screen) : Screen :=
  {| confirmState := confirmState s; managingStore := v;
     storeDocuments := storeDocuments s; isLoadingDocs := isLoadingDocs s |}.

Definition with_storeDocuments (v : list Document) (s : Screen) : Screen :=
  {| confirmState := confirmState s; managingStore := managingStore s;
     storeDocuments := v; isLoadingDocs := isLoadingDocs s |}.

Definition with_isLoadingDocs (v : bool) (s : Screen) : Screen :=
  {| confirmState := confirmState s; managingStore := managingStore s;
     storeDocuments := storeDocuments s; isLoadingDocs := v |}.

(* ===================================================================== *)
(** ** What a run does that the state does not keep *)
(* ===================================================================== *)

(** The adapter functions the controller calls. *)
Inductive GatewayCall : Type :=
| CreateRagStore (displayName : string)
| UploadToRagStore (ragStoreName : JsValue) (f : File)
| ListRagStores
| ListDocuments (ragStoreName : JsValue)
| DeleteFile (fileName : JsValue)
| DeleteRagStore (ragStoreName : JsValue)
| FileSearch (ragStoreName : JsValue) (query : string)
| GenerateExampleQuestions (ragStoreName : JsValue).

Inductive CallOutcome : Type :=
| Returned
| Rejected (e : JsError)
| Pending.

(** The observable steps of a run, in order: every [setUploadProgress],
    every call of the adapter with how it settled, and every [alert]. *)
Inductive Event : Type :=
| EvProgress (p : option UploadProgress)
| EvCall (c : GatewayCall) (o : CallOutcome)
| EvAlert (text : string).

Definition outcomeOf {A : Type} (r : Res A) : CallOutcome :=
  match r with
  | Ok _ => Returned
  | Throw e => Rejected e
  | Diverge => Pending
  end.

(** An event that is not a call left rejected or pending. *)
Definition settledWell (ev : Event) : bool :=
  match ev with
  | EvCall _ Returned => true
  | EvCall _ _ => false
  | _ => true
  end.

(** The progress objects of a trace, in order. *)
Definition progressUpdates (t : list Event) : list (option UploadProgress) :=
  flat_map (fun ev => match ev with EvProgress p => [p] | _ => [] end) t.

(** The adapter calls of a trace, in order. *)
Definition gatewayCalls (t : list Event) : list GatewayCall :=
  flat_map (fun ev => match ev with EvCall c _ => [c] | _ => [] end) t.

(* ===================================================================== *)
(** ** Runs of the controller *)
(* ===================================================================== *)

Section Controller.
Context {R : Type} {host : Host R}.

Record World : Type := {
  app : App;
  screen : Screen;
  backend : Backend R
}.

(** A run from a world: how it settled, the world it left, and the events
    it produced.  An exception keeps the world and the events reached when
    it was raised. *)
Record Out (A : Type) : Type := {
  res : Res A;
  world : World;
  emitted : list Event
}.

Definition M (A : Type) : Type := World -> Out A.

Definition retM {A : Type} (a : A) : M A :=
  fun w => {| res := Ok a; world := w; emitted := [] |}.

(** The events [evs], then the run [o]. *)
Definition after {A : Type} (evs : list Event) (o : Out A) : Out A :=
  match o with
  | {| res := r; world := w; emitted := evs' |} =>
      {| res := r; world := w; emitted := evs ++ evs' |}
  end.

Definition bindM {A B : Type} (m : M A) (k : A -> M B) : M B :=
  fun w =>
    match m w with
    | {| res := Ok a; world := w1; emitted := evs |} => after evs (k a w1)
    | {| res := Throw e; world := w1; emitted := evs |} =>
        {| res := Throw e; world := w1; emitted := evs |}
    | {| res := Diverge; world := w1; emitted := evs |} =>
        {| res := Diverge; world := w1; emitted := evs |}
    end.

#[global] Instance Monad_M : Monad M := {| ret := @retM; bind := @bindM |}.

Definition throwM {A : Type} (e : JsError) : M A :=
  fun w => {| res := Throw e; world := w; emitted := [] |}.

(** [try { body } catch (err) { handler }] *)
Definition tryCatch {A : Type} (body : M A) (handler : JsError -> M A) : M A :=
  fun w =>
    match body w with
    | {| res := Throw e; world := w1; emitted := evs |} =>
        after evs (handler e w1)
    | settled => settled
    end.

(** [try { body } finally { fin }]: [fin] runs once [body] has settled, and
    the outcome of [body] stands unless [fin] itself fails. *)
Definition tryFinally {A : Type} (body : M A) (fin : M unit) : M A :=
  fun w =>
    match body w with
    | {| res := Diverge; world := w1; emitted := evs |} =>
        {| res := Diverge; world := w1; emitted := evs |}
    | {| res := r; world := w1; emitted := evs |} =>
        match fin w1 with
        | {| res := Ok _; world := w2; emitted := evs' |} =>
            {| res := r; world := w2; emitted := evs ++ evs' |}
        | {| res := Throw e; world := w2; emitted := evs' |} =>
            {| res := Throw e; world := w2; emitted := evs ++ evs' |}
        | {| res := Diverge; world := w2; emitted := evs' |} =>
            {| res := Diverge; world := w2; emitted := evs ++ evs' |}
        end
    end.

(** A call that is not awaited: the caller goes on whatever becomes of
    it.  Its effects are placed right after the call, which is the
    schedule in which no other event comes in between. *)
Definition detached {A : Type} (m : M A) : M unit :=
  fun w =>
    match m w with
    | {| res := _; world := w1; emitted := evs |} =>
        {| res := Ok tt; world := w1; emitted := evs |}
    end.

Definition emit (ev : Event) : M unit :=
  fun w => {| res := Ok tt; world := w; emitted := [ev] |}.

(** [await geminiService.f(...)] *)
Definition call {A : Type} (c : GatewayCall) (g : G A) : M A :=
  fun w =>
    let (r, b) := g (backend w) in
    {| res := r;
       world := {| app := app w; screen := screen w; backend := b |};
       emitted := [EvCall c (outcomeOf r)] |}.

(** A call of the service or of the host that the trace does not record. *)
Definition liftG {A : Type} (g : G A) : M A :=
  fun w =>
    let (r, b) := g (backend w) in
    {| res := r;
       world := {| app := app w; screen := screen w; backend := b |};
       emitted := [] |}.

Definition liftHost {A : Type} (h : ST R A) : M A :=
  liftG (fun b => let (r, rem) := h (remote b) in (r, set_remote rem b)).

Definition getApp : M App :=
  fun w => {| res := Ok (app w); world := w; emitted := [] |}.

Definition getBackend : M (Backend R) :=
  fun w => {| res := Ok (backend w); world := w; emitted := [] |}.

Definition getScreen : M Screen :=
  fun w => {| res := Ok (screen w); world := w; emitted := [] |}.

Definition modifyApp (f : App -> App) : M unit :=
  fun w =>
    {| res := Ok tt;
       world := {| app := f (app w); screen := screen w; backend := backend w |};
       emitted := [] |}.

Definition modifyScreen (f : Screen -> Screen) : M unit :=
  fun w =>
    {| res := Ok tt;
       world := {| app := app w; screen := f (screen w); backend := backend w |};
       emitted := [] |}.

(** The state setters.  A setter given a function applies it to the
    latest state. *)
Definition setStatus (v : AppStatus) : M unit := modifyApp (with_status v).
Definition setIsApiKeySelected (v : bool) : M unit :=
  modifyApp (with_isApiKeySelected v).
Definition setApiKeyError (v : option string) : M unit :=
  modifyApp (with_apiKeyError v).
Definition setError (v : option string) : M unit := modifyApp (with_error v).
Definition setActiveRagStoreName (v : JsValue) : M unit :=
  modifyApp (with_activeRagStoreName v).
Definition setChatHistory (f : list ChatMessage -> list ChatMessage) : M unit :=
  modifyApp (fun a => with_chatHistory (f (chatHistory a)) a).
Definition setIsQueryLoading (v : bool) : M unit :=
  modifyApp (with_isQueryLoading v).
Definition setExampleQuestions (v : list string) : M unit :=
  modifyApp (with_exampleQuestions v).
Definition setDocumentName (v : JsValue) : M unit :=
  modifyApp (with_documentName v).
Definition setFiles (f : list File -> list File) : M unit :=
  modifyApp (fun a => with_files (f (files a)) a).
Definition setExistingStores (f : list RagStore -> list RagStore) : M unit :=
  modifyApp (fun a => with_existingStores (f (existingStores a)) a).
Definition setIsLoadingStores (v : bool) : M unit :=
  modifyApp (with_isLoadingStores v).
Definition setLibraryError (v : option string) : M unit :=
  modifyApp (with_libraryError v).

(** [setUploadProgress], which the trace records. *)
Definition setUploadProgress
  (f : option UploadProgress -> option UploadProgress) : M unit :=
  fun w =>
    let p := f (uploadProgress (app w)) in
    {| res := Ok tt;
       world := {| app := with_uploadProgress p (app w);
                   screen := screen w; backend := backend w |};
       emitted := [EvProgress p] |}.

Definition setConfirmState (f : ConfirmState -> ConfirmState) : M unit :=
  modifyScreen (fun s => with_confirmState (f (confirmState s)) s).
Definition setManagingStore (v : option RagStore) : M unit :=
  modifyScreen (with_managingStore v).
Definition setStoreDocuments (f : list Document -> list Document) : M unit :=
  modifyScreen (fun s => with_storeDocuments (f (storeDocuments s)) s).
Definition setIsLoadingDocs (v : bool) : M unit :=
  modifyScreen (with_isLoadingDocs v).

(* ------------------------------------------------------------------- *)
(** *** The handlers of [App] *)
(* ------------------------------------------------------------------- *)

Definition checkApiKey : M unit :=
  match aistudio_hasSelectedApiKey with
  | Some hasSelectedApiKey =>
      tryCatch
        (hasKey <- liftHost hasSelectedApiKey ;;
         setIsApiKeySelected hasKey)
        (fun e => setIsApiKeySelected false)
  | None => ret tt
  end.

(** [status] is the value the enclosing render captured, which the caller
    passes. *)
Definition loadExistingStores (status : AppStatus) : M unit :=
  setIsLoadingStores true ;;
  setLibraryError None ;;
  tryFinally
    (tryCatch
       (stores <- call ListRagStores listRagStores ;;
        setExistingStores (fun _ => stores))
       (fun err =>
          setLibraryError
            (Some "Failed to load your library. Please check your network or API key.")))
    (setIsLoadingStores false ;;
     if AppStatus_eqb status Initializing then setStatus Welcome else ret tt).

(** The effect on [isApiKeySelected], which runs at mount and after every
    render that changed it. *)
Definition apiKeyEffect : M unit :=
  a <- getApp ;;
  if isApiKeySelected a then
    liftG initialize ;;
    detached (loadExistingStores (status a))
  else setStatus Welcome.

(** [`${message}${err ? `: ${...}` : ''}`] *)
Definition errorText (message : string) (err : JsError) : string :=
  message ++
  match err with
  | ErrorObj m => ": " ++ m
  | Thrown true s => ": " ++ s
  | Thrown false _ => ""
  end.

Definition handleError (message : string) (err : JsError) : M unit :=
  setError (Some (errorText message err)) ;;
  setStatus Error.

Definition clearError : M unit :=
  setError None ;;
  setStatus Welcome.

Definition handleSelectKey : M unit :=
  match aistudio_openSelectKey with
  | Some openSelectKey =>
      tryCatch
        (liftHost openSelectKey ;;
         checkApiKey)
        (fun err => ret tt)
  | None => emit (EvAlert "API key selection is not available in this environment.")
  end.

(** [`Session ${new Date().toLocaleDateString()} ${new Date().toLocaleTimeString()}`] *)
Definition sessionLabel (b : Backend R) : string :=
  "Session " ++ toLocaleDateString (remote b) ++ " "
  ++ toLocaleTimeString (remote b).

(** The display name of a new store; [now] is the session label, which
    only an empty staging set would keep. *)
Definition friendlyNameOf (now : string) (files : list File) : string :=
  match files with
  | [] => now
  | [f] => file_name f
  | f :: _ => file_name f ++ " + " ++ natStr (length files - 1) ++ " others"
  end.

(** The [for] loop of [handleUploadAndStartChat], from index [i] on;
    [n] is [files.length] and [rest] the files from [i] on. *)
Fixpoint uploadEach (fuel : nat) (ragStoreName : string) (n : nat)
    (rest : list File) (i : nat) : M unit :=
  match rest with
  | [] => ret tt
  | f :: rest' =>
      setUploadProgress (fun prev =>
        Some {| current := i + 1;
                total := match prev with Some p => total p | None => None end;
                message := Some "Generating embeddings...";
                fileName := Some ("(" ++ natStr (i + 1) ++ "/" ++ natStr n ++ ") "
                                  ++ file_name f) |}) ;;
      call (UploadToRagStore (JsStr ragStoreName) f)
           (uploadToRagStore fuel (JsStr ragStoreName) f) ;;
      uploadEach fuel ragStoreName n rest' (S i)
  end.

Definition isCredentialError (err : JsError) : bool :=
  let errorMessage :=
    match err with
    | ErrorObj m => toLowerCase m
    | Thrown _ s => toLowerCase s
    end in
  includes errorMessage "api key not valid"
  || includes errorMessage "requested entity was not found".

Definition handleUploadAndStartChat (fuel : nat) : M unit :=
  a <- getApp ;;
  let files := files a in
  if negb (isApiKeySelected a) then
    setApiKeyError (Some "Please select your Gemini API Key first.") ;;
    throwM (ErrorObj "API Key is required.")
  else if Nat.eqb (length files) 0 then ret tt
  else
    setApiKeyError None ;;
    setStatus Uploading ;;
    let totalSteps := length files + 2 in
    setUploadProgress (fun _ =>
      Some {| current := 0; total := Some totalSteps;
              message := Some "Creating document index..."; fileName := None |}) ;;
    tryFinally
      (tryCatch
         (b <- getBackend ;;
          let friendlyName := friendlyNameOf (sessionLabel b) files in
          ragStoreName <- call (CreateRagStore friendlyName)
                               (createRagStore friendlyName) ;;
          setUploadProgress (fun _ =>
            Some {| current := 1; total := Some totalSteps;
                    message := Some "Generating embeddings..."; fileName := None |}) ;;
          uploadEach fuel ragStoreName (length files) files 0 ;;
          setUploadProgress (fun _ =>
            Some {| current := length files + 1; total := Some totalSteps;
                    message := Some "Registered! updating library...";
                    fileName := Some "" |}) ;;
          (* await new Promise(resolve => setTimeout(resolve, 800)) *)
          let newStore := {| store_name := JsStr ragStoreName;
                             store_displayName := JsStr friendlyName |} in
          setExistingStores (fun prev => newStore :: prev) ;;
          setFiles (fun _ => []) ;;
          setStatus Welcome)
         (fun err =>
            (if isCredentialError err then
               setApiKeyError (Some "The selected API key is invalid. Please select a different one and try again.") ;;
               setIsApiKeySelected false ;;
               setStatus Welcome
             else handleError "Failed to upload files" err) ;;
            throwM err))
      (setUploadProgress (fun _ => None)).

(** The state a failed create run leaves, from the state it started in:
    the catch clause's classification, then the progress cleared. *)
Definition afterFailedCreate (e : JsError) (a : App) : App :=
  with_uploadProgress None
    (if isCredentialError e
     then with_status Welcome
            (with_isApiKeySelected false
               (with_apiKeyError
                  (Some "The selected API key is invalid. Please select a different one and try again.")
                  a))
     else with_status Error
            (with_error (Some (errorText "Failed to upload files" e))
               (with_apiKeyError None a))).


Definition handleSelectExistingStore (store : RagStore) : M unit :=
  setApiKeyError None ;;
  setStatus Uploading ;;
  setUploadProgress (fun _ =>
    Some {| current := 1; total := Some 1;
            message := Some "Loading existing session..."; fileName := None |}) ;;
  tryFinally
    (tryCatch
       (setActiveRagStoreName (store_name store) ;;
        setDocumentName (store_displayName store) ;;
        questions <- call (GenerateExampleQuestions (store_name store))
                          (generateExampleQuestions (store_name store)) ;;
        setExampleQuestions questions ;;
        setChatHistory (fun _ => []) ;;
        setStatus Chatting)
       (fun err => handleError "Failed to load existing session" err))
    (setUploadProgress (fun _ => None)).

Definition handleDeleteStore (storeName : JsValue) : M unit :=
  a <- getApp ;;
  tryCatch
    (call (DeleteRagStore storeName) (deleteRagStore storeName) ;;
     setExistingStores
       (filter (fun s => negb (strictEq (store_name s) storeName))) ;;
     detached (loadExistingStores (status a)))
    (fun err => emit (EvAlert "Failed to delete the document set.")).

Definition handleGetDocuments (storeName : JsValue) : M (list Document) :=
  call (ListDocuments storeName) (listDocuments storeName).

Definition handleAddFileToStore (fuel : nat) (storeName : JsValue) (f : File)
    (metadata : list CustomMetadata) : M unit :=
  call (UploadToRagStore storeName f) (uploadToRagStore fuel storeName f).

Definition handleDeleteFile (fileName : JsValue) : M unit :=
  call (DeleteFile fileName) (deleteFile fileName).

Definition handleEndChat : M unit :=
  a <- getApp ;;
  setActiveRagStoreName JsNull ;;
  setChatHistory (fun _ => []) ;;
  setExampleQuestions [] ;;
  setDocumentName (JsStr "") ;;
  setFiles (fun _ => []) ;;
  setStatus Welcome ;;
  detached (loadExistingStores (status a)).

Definition userMessage (text : string) : ChatMessage :=
  {| role := user; parts := [text]; groundingChunks := None |}.

Definition modelMessage (result : QueryResult) : ChatMessage :=
  {| role := model; parts := [qr_text result];
     groundingChunks := Some (qr_groundingChunks result) |}.

Definition errorMessage : ChatMessage :=
  {| role := model;
     parts := ["Sorry, I encountered an error. Please try again."];
     groundingChunks := None |}.

Definition handleSendMessage (text : string) : M unit :=
  a <- getApp ;;
  let activeRagStoreName := activeRagStoreName a in
  if negb (truthy activeRagStoreName) then ret tt
  else
    setChatHistory (fun prev => (prev ++ [userMessage text])%list) ;;
    setIsQueryLoading true ;;
    tryFinally
      (tryCatch
         (result <- call (FileSearch activeRagStoreName text)
                         (fileSearch activeRagStoreName text) ;;
          setChatHistory (fun prev => (prev ++ [modelMessage result])%list))
         (fun err =>
            setChatHistory (fun prev => (prev ++ [errorMessage])%list) ;;
            handleError "Failed to get response" err))
      (setIsQueryLoading false).

(* ------------------------------------------------------------------- *)
(** *** The handlers of [WelcomeScreen] *)
(* ------------------------------------------------------------------- *)

(** The three entries of a store's menu.  [onSelectStore] is not awaited;
    the menu's own open state is left out. *)
Inductive MenuAction : Type := menuChat | menuDelete | menuFiles.

Definition handleMenuAction (action : MenuAction) (s : RagStore) : M unit :=
  match action with
  | menuChat => detached (handleSelectExistingStore s)
  | menuDelete =>
      setConfirmState (fun _ =>
        {| isOpen := true; confirm_type := store; targetId := store_name s;
           confirm_displayName := store_displayName s |})
  | menuFiles =>
      setManagingStore (Some s) ;;
      setIsLoadingDocs true ;;
      tryFinally
        (tryCatch
           (docs <- handleGetDocuments (store_name s) ;;
            setStoreDocuments (fun _ => docs))
           (fun err => setManagingStore None))
        (setIsLoadingDocs false)
  end.

Definition handleModalDeleteClick (fileName : JsValue) : M unit :=
  sc <- getScreen ;;
  match managingStore sc with
  | None => ret tt
  | Some _ =>
      setConfirmState (fun _ =>
        {| isOpen := true; confirm_type := file; targetId := fileName;
           confirm_displayName := fileName |})
  end.

Definition handleRemoveFile (indexToRemove : nat) : M unit :=
  setFiles (fun prevFiles =>
    map snd (filter (fun p => negb (Nat.eqb (fst p) indexToRemove))
                    (combine (seq 0 (length prevFiles)) prevFiles))).

Definition handleFileChange (picked : list File) : M unit :=
  setFiles (fun prev => (prev ++ picked)%list).

(** The confirmation's [onConfirm].  [onDeleteStore] is not awaited. *)
Definition executeDelete : M unit :=
  sc <- getScreen ;;
  let type := confirm_type (confirmState sc) in
  let target := targetId (confirmState sc) in
  setConfirmState (fun prev =>
    {| isOpen := false; confirm_type := confirm_type prev;
       targetId := targetId prev; confirm_displayName := confirm_displayName prev |}) ;;
  match type with
  | store => detached (handleDeleteStore target)
  | file =>
      match managingStore sc with
      | None => ret tt
      | Some _ =>
          let prevDocs := storeDocuments sc in
          setStoreDocuments
            (filter (fun d => negb (strictEq (doc_name d) target))) ;;
          tryCatch
            (handleDeleteFile target)
            (fun err => setStoreDocuments (fun _ => prevDocs))
      end
  end.

(* ------------------------------------------------------------------- *)
(** *** The session state machine *)
(* ------------------------------------------------------------------- *)

(** What the user and the browser can trigger. *)
Inductive Action : Type :=
| DoFocus
| DoSelectKey
| DoUpload (fuel : nat)
| DoMenu (action : MenuAction) (s : RagStore)
| DoConfirmDelete
| DoRefreshStores
| DoStageFiles (picked : list File)
| DoRemoveFile (index : nat)
| DoSendMessage (text : string)
| DoNewChat
| DoTryAgain.

(** [renderContent]: which screen, hence which handlers, each status
    offers.  The window's focus and visibility events come in every
    status. *)
Definition offered (st : AppStatus) (act : Action) : bool :=
  match st, act with
  | _, DoFocus => true
  | Welcome, (DoSelectKey | DoUpload _ | DoMenu _ _ | DoConfirmDelete
             | DoRefreshStores | DoStageFiles _ | DoRemoveFile _) => true
  | Chatting, (DoSendMessage _ | DoNewChat) => true
  | Error, DoTryAgain => true
  | _, _ => false
  end.

(** The handler behind each action.  [handleConfirmUpload] logs and drops
    what [onUpload] throws. *)
Definition handlerOf (act : Action) : M unit :=
  match act with
  | DoFocus => checkApiKey
  | DoSelectKey => handleSelectKey
  | DoUpload fuel => tryCatch (handleUploadAndStartChat fuel) (fun _ => ret tt)
  | DoMenu action s => handleMenuAction action s
  | DoConfirmDelete => executeDelete
  | DoRefreshStores => a <- getApp ;; loadExistingStores (status a)
  | DoStageFiles picked => handleFileChange picked
  | DoRemoveFile index => handleRemoveFile index
  | DoSendMessage text => handleSendMessage text
  | DoNewChat => handleEndChat
  | DoTryAgain => clearError
  end.

(** An action runs its handler, and then the effect on [isApiKeySelected]
    if the handler changed it. *)
Definition perform (act : Action) : M unit :=
  before <- getApp ;;
  handlerOf act ;;
  now <- getApp ;;
  if Bool.eqb (isApiKeySelected before) (isApiKeySelected now) then ret tt
  else apiKeyEffect.

(** The mount of [App]: both effects run once. *)
Definition mount : M unit :=
  apiKeyEffect ;;
  perform DoFocus.

(** One transition of the session. *)
Definition step (w : World) (act : Action) (w' : World) : Prop :=
  offered (status (app w)) act = true /\ world (perform act w) = w'.

End Controller.

Arguments World : clear implicits.

(* ===================================================================== *)
(** ** A scripted remote, for concrete runs *)
(* ===================================================================== *)

(** A remote that answers from a script: one canned answer per kind of
    call, and a queue of answers for the upload call and its polls. *)
Record Script : Type := {
  on_create : Res (option string);
  on_upload : list (Res Operation);
  on_list : Res JsValue;
  on_listFiles : Res JsValue;
  on_delete : Res unit;
  on_filesDelete : Res unit;
  on_generate : Res GenResponse;
  on_hasSelectedApiKey : Res bool
}.

Definition nextUpload (s : Script) : Res Operation * Script :=
  match on_upload s with
  | [] => (Diverge, s)
  | r :: rest =>
      (r, {| on_create := on_create s; on_upload := rest; on_list := on_list s;
             on_listFiles := on_listFiles s; on_delete := on_delete s;
             on_filesDelete := on_filesDelete s; on_generate := on_generate s;
     on_hasSelectedApiKey := on_hasSelectedApiKey s |})
  end.

(** The scripted host.  Its [JSON_parse] reads the empty array only, and
    its [toLowerCase] is the one of ASCII. *)
#[global] Instance ScriptHost : Host Script := {|
  sdk_create := fun _ _ s => (on_create s, s);
  sdk_list := fun _ _ s => (on_list s, s);
  sdk_listFiles := fun _ _ _ s => (on_listFiles s, s);
  sdk_uploadToFileSearchStore := fun _ _ _ s => nextUpload s;
  sdk_operations_get := fun _ _ s => nextUpload s;
  sdk_files_delete := fun _ _ s => (on_filesDelete s, s);
  sdk_delete := fun _ _ _ s => (on_delete s, s);
  sdk_generateContent := fun _ _ s => (on_generate s, s);
  aistudio_hasSelectedApiKey := Some (fun s => (on_hasSelectedApiKey s, s));
  aistudio_openSelectKey := Some (fun s => (Ok tt, s));
  JSON_parse := fun text => if String.eqb text "[]" then Some (JsArr 0 []) else None;
  toLocaleDateString := fun _ => "11/3/2026";
  toLocaleTimeString := fun _ => "10:00:00 AM";
  toLowerCase := asciiLowerCase;
  toLowerCase_ascii := fun _ _ => eq_refl
|}.

Definition doneOp : Res Operation := Ok {| op_name := "operations/1"; op_done := true |}.
Definition busyOp : Res Operation := Ok {| op_name := "operations/1"; op_done := false |}.

(** A remote on which every call succeeds: the store is created as
    [store/42], and each upload is done at its first poll. *)
Definition happyScript (uploads : nat) : Script :=
  {| on_create := Ok (Some "store/42");
     on_upload := concat (repeat [busyOp; doneOp] uploads);
     on_list := Ok (JsObj 1 [("fileSearchStores",
                   JsArr 2 [JsObj 3 [("name", JsStr "store/7");
                                     ("displayName", JsStr "Washer")]])]);
     on_listFiles := Ok (JsObj 4 [("files",
                   JsArr 5 [JsObj 6 [("name", JsStr "files/a")];
                            JsObj 7 [("name", JsStr "files/b");
                                     ("display_name", JsStr "b.pdf")]])]);
     on_delete := Ok tt;
     on_filesDelete := Ok tt;
     on_generate := Ok {| resp_text := Some "It is on page 3.";
                          resp_groundingChunks := None |};
     on_hasSelectedApiKey := Ok true |}.

Definition initialApp : App :=
  {| status := Initializing; isApiKeySelected := false; apiKeyError := None;
     error := None; uploadProgress := None; activeRagStoreName := JsNull;
     chatHistory := []; isQueryLoading := false; exampleQuestions := [];
     documentName := JsStr ""; files := []; existingStores := [];
     isLoadingStores := false; libraryError := None |}.

Definition initialScreen : Screen :=
  {| confirmState := {| isOpen := false; confirm_type := store;
                        targetId := JsStr ""; confirm_displayName := JsStr "" |};
     managingStore := None; storeDocuments := []; isLoadingDocs := false |}.

Definition manual : File := {| file_name := "manual.pdf"; file_blob := 1 |}.
Definition guide : File := {| file_name := "guide.txt"; file_blob := 2 |}.

Definition washer : RagStore :=
  {| store_name := JsStr "store/7"; store_displayName := JsStr "Washer" |}.

(** The welcome screen with a credential, the given staging set and the
    given library, over the given remote. *)
Definition welcomeWorld (staged : list File) (library : list RagStore)
    (key : option string) (s : Script) : World Script :=
  {| app := with_existingStores library
              (with_files staged
                 (with_isApiKeySelected true (with_status Welcome initialApp)));
     screen := initialScreen;
     backend := {| ai := None; API_KEY := key; remote := s |} |}.

(** A chat in progress against [store/7]. *)
Definition chattingWorld (history : list ChatMessage) (s : Script)
    : World Script :=
  {| app := with_chatHistory history
              (with_activeRagStoreName (JsStr "store/7")
                 (with_isApiKeySelected true (with_status Chatting initialApp)));
     screen := initialScreen;
     backend := {| ai := None; API_KEY := Some "k"; remote := s |} |}.

Definition failing {A : Type} (text : string) : Res A := Throw (ErrorObj text).

Definition with_on_upload (q : list (Res Operation)) (s : Script) : Script :=
  {| on_create := on_create s; on_upload := q; on_list := on_list s;
     on_listFiles := on_listFiles s; on_delete := on_delete s;
     on_filesDelete := on_filesDelete s; on_generate := on_generate s;
     on_hasSelectedApiKey := on_hasSelectedApiKey s |}.

Definition with_on_delete (r : Res unit) (s : Script) : Script :=
  {| on_create := on_create s; on_upload := on_upload s; on_list := on_list s;
     on_listFiles := on_listFiles s; on_delete := r;
     on_filesDelete := on_filesDelete s; on_generate := on_generate s;
     on_hasSelectedApiKey := on_hasSelectedApiKey s |}.

Definition with_on_generate (r : Res GenResponse) (s : Script) : Script :=
  {| on_create := on_create s; on_upload := on_upload s; on_list := on_list s;
     on_listFiles := on_listFiles s; on_delete := on_delete s;
     on_filesDelete := on_filesDelete s; on_generate := r;
     on_hasSelectedApiKey := on_hasSelectedApiKey s |}.

Definition with_on_hasSelectedApiKey (r : Res bool) (s : Script) : Script :=
  {| on_create := on_create s; on_upload := on_upload s; on_list := on_list s;
     on_listFiles := on_listFiles s; on_delete := on_delete s;
     on_filesDelete := on_filesDelete s; on_generate := on_generate s;
     on_hasSelectedApiKey := r |}.

Definition with_on_list (r : Res JsValue) (s : Script) : Script :=
  {| on_create := on_create s; on_upload := on_upload s; on_list := r;
     on_listFiles := on_listFiles s; on_delete := on_delete s;
     on_filesDelete := on_filesDelete s; on_generate := on_generate s;
     on_hasSelectedApiKey := on_hasSelectedApiKey s |}.

(** The current values that a trace sets, clears left out. *)
Definition currentValues (t : list Event) : list nat :=
  flat_map (fun p => match p with Some q => [current q] | None => [] end)
           (progressUpdates t).

(** The scenarios of the concrete runs below. *)
Definition oneFileWorld : World Script :=
  welcomeWorld [manual] [washer] (Some "k") (happyScript 1).

Definition twoFilesWorld : World Script :=
  welcomeWorld [manual; guide] [washer] (Some "k") (happyScript 2).

Definition secondUploadFailsWorld : World Script :=
  welcomeWorld [manual; guide] [washer] (Some "k")
    (with_on_upload [busyOp; doneOp; failing "quota exceeded"] (happyScript 0)).

Definition emptyStagingWorld : World Script :=
  welcomeWorld [] [washer] (Some "k") (happyScript 0).

Definition noCredentialWorld : World Script :=
  {| app := with_isApiKeySelected false (app oneFileWorld);
     screen := screen oneFileWorld;
     backend := backend oneFileWorld |}.

Definition noKeyWorld : World Script :=
  welcomeWorld [] [washer] None (happyScript 0).

(** The confirmation for deleting [store/7] is open. *)
Definition confirmingDelete (s : Script) : World Script :=
  {| app := app (welcomeWorld [] [washer] (Some "k") s);
     screen := {| confirmState :=
                    {| isOpen := true; confirm_type := store;
                       targetId := JsStr "store/7";
                       confirm_displayName := JsStr "Washer" |};
                  managingStore := None; storeDocuments := [];
                  isLoadingDocs := false |};
     backend := backend (welcomeWorld [] [washer] (Some "k") s) |}.

Definition deleteFailsWorld : World Script :=
  confirmingDelete (with_on_delete (failing "permission denied") (happyScript 0)).

Definition deleteWorksWorld : World Script :=
  confirmingDelete (with_on_list (Ok (JsArr 9 [])) (happyScript 0)).

Definition question : ChatMessage := userMessage "Where is the filter?".

Definition chatWorld : World Script := chattingWorld [question] (happyScript 0).

Definition chatFailsWorld : World Script :=
  chattingWorld [question] (with_on_generate (failing "unavailable") (happyScript 0)).

(* ===================================================================== *)
(** ** Notions for the statements *)
(* ===================================================================== *)

(** [`(${i + 1}/${files.length}) ${files[i].name}`], the file name of the
    progress object that the upload loop sets for the file numbered
    [fst p], counted from one, of [n]. *)
Definition uploadLabel (n : nat) (p : nat * File) : string :=
  "(" ++ natStr (fst p) ++ "/" ++ natStr n ++ ") " ++ file_name (snd p).

(** The adapter calls of a trace with their outcomes, in order. *)
Definition gatewayOutcomes (t : list Event) : list (GatewayCall * CallOutcome) :=
  flat_map (fun ev => match ev with EvCall c r => [(c, r)] | _ => [] end) t.

(** The updates that advance the progress: those that set [current] above
    the value showing, and the first one when nothing is showing.  An
    update that sets the value showing once more, as the label update of
    the first file does, is not one of them. *)
Fixpoint advancements (showing : option UploadProgress)
    (updates : list (option UploadProgress)) : list UploadProgress :=
  match updates with
  | [] => []
  | None :: rest => advancements None rest
  | Some p :: rest =>
      match showing with
      | Some q =>
          if Nat.ltb (current q) (current p)
          then p :: advancements (Some p) rest
          else advancements (Some p) rest
      | None => p :: advancements (Some p) rest
      end
  end.

(** One turn of the upload loop in a trace: the progress object for the
    file numbered [fst p] of [n], then the upload of that file into the
    store [name], with its outcome. *)
Definition uploadStep (shown : option nat) (n : nat) (name : string)
    (outcome : CallOutcome) (p : nat * File) : list Event :=
  [EvProgress (Some {| current := fst p; total := shown;
                       message := Some "Generating embeddings...";
                       fileName := Some ("(" ++ natStr (fst p) ++ "/" ++ natStr n
                                         ++ ") " ++ file_name (snd p)) |});
   EvCall (UploadToRagStore (JsStr name) (snd p)) outcome].

Section Polling.
Context {R : Type} {host : Host R}.

(** [Polled c k op r op' r']: the loop of [uploadToRagStore], entered with
    the operation [op] on the remote [r], makes [k] calls of
    [operations.get], each on an operation that is not done and each
    returning, and is then at [op'] on [r']. *)
Inductive Polled (c : Client) : nat -> Operation -> R -> Operation -> R -> Prop :=
| Polled_none (op : Operation) (r : R) : Polled c 0 op r op r
| Polled_again (k : nat) (op op1 op2 : Operation) (r r1 r2 : R) :
    op_done op = false ->
    sdk_operations_get c op r = (Ok op1, r1) ->
    Polled c k op1 r1 op2 r2 ->
    Polled c (S k) op r op2 r2.

End Polling.

Section ManageModal.
Context {R : Type} {host : Host R}.

(** [handleModalUpload] of [WelcomeScreen]: the upload of one more file
    into the store whose files are shown, and the refresh of the shown
    list.  [managingStore] is the value the render captured; the name of
    the file in progress, which only the modal displays, is left out. *)
Definition handleModalUpload (fuel : nat) (f : File)
    (metadata : list CustomMetadata) : M unit :=
  sc <- getScreen ;;
  match managingStore sc with
  | None => ret tt
  | Some managing =>
      tryCatch
        (handleAddFileToStore fuel (store_name managing) f metadata ;;
         docs <- handleGetDocuments (store_name managing) ;;
         setStoreDocuments (fun _ => docs))
        (fun err => ret tt)
  end.

End ManageModal.

(** A store's files are shown, and the confirmation for removing
    [files/a] is open. *)
Definition confirmingFileDelete (s : Script) : World Script :=
  {| app := app (welcomeWorld [] [washer] (Some "k") s);
     screen := {| confirmState :=
                    {| isOpen := true; confirm_type := file;
                       targetId := JsStr "files/a";
                       confirm_displayName := JsStr "files/a" |};
                  managingStore := Some washer;
                  storeDocuments :=
                    [ {| doc_name := JsStr "files/a";
                         doc_displayName := JsStr "Untitled Document";
                         doc_customMetadata := [] |};
                      {| doc_name := JsStr "files/b";
                         doc_displayName := JsStr "b.pdf";
                         doc_customMetadata := [] |} ];
                  isLoadingDocs := false |};
     backend := backend (welcomeWorld [] [washer] (Some "k") s) |}.

Definition with_on_filesDelete (r : Res unit) (s : Script) : Script :=
  {| on_create := on_create s; on_upload := on_upload s; on_list := on_list s;
     on_listFiles := on_listFiles s; on_delete := on_delete s;
     on_filesDelete := r; on_generate := on_generate s;
     on_hasSelectedApiKey := on_hasSelectedApiKey s |}.

Definition with_on_create (r : Res (option string)) (s : Script) : Script :=
  {| on_create := r; on_upload := on_upload s; on_list := on_list s;
     on_listFiles := on_listFiles s; on_delete := on_delete s;
     on_filesDelete := on_filesDelete s; on_generate := on_generate s;
     on_hasSelectedApiKey := on_hasSelectedApiKey s |}.

(** A backend whose client has been built. *)
Definition readyBackend (s : Script) : Backend Script :=
  {| ai := Some {| apiKey := "k" |}; API_KEY := Some "k"; remote := s |}.

(** The state at mount. *)
Definition mountWorld (s : Script) : World Script :=
  {| app := initialApp; screen := initialScreen;
     backend := {| ai := None; API_KEY := Some "k"; remote := s |} |}.

(** A listing with a [null] among its entries. *)
Definition nullEntryScript : Script :=
  with_on_list (Ok (JsArr 9 [JsObj 3 [("name", JsStr "store/7")]; JsNull]))
               (happyScript 0).

(** The creation of the store is rejected for the credential. *)
Definition createRejectedWorld : World Script :=
  welcomeWorld [manual] [washer] (Some "k")
    (with_on_create (failing "API key not valid. Please pass a valid API key.")
                    (happyScript 0)).

(** The removal of [files/a] is rejected by the remote. *)
Definition fileDeleteFailsWorld : World Script :=
  confirmingFileDelete (with_on_filesDelete (failing "permission denied")
                                            (happyScript 0)).

(** The confirmation for a file is open, but no store is being managed. *)
Definition strayFileConfirmWorld : World Script :=
  {| app := app (confirmingFileDelete (happyScript 0));
     screen := with_managingStore None (screen (confirmingFileDelete (happyScript 0)));
     backend := backend (confirmingFileDelete (happyScript 0)) |}.

(* ===================================================================== *)
(** ** Properties of the adapter *)
(* ===================================================================== *)

Section AdapterProperties.
Context {R : Type} {host : Host R}.

Lemma mapRes_Forall2 {A B : Type} (f : A -> Res B) (xs : list A) (ys : list B) :
  mapRes f xs = Ok ys -> Forall2 (fun x y => f x = Ok y) xs ys.
Proof.
  revert ys; induction xs as [|x xs IH]; intros ys H; simpl in H.
  - injection H as <-. constructor.
  - destruct (f x) as [y| |] eqn:Fx; try discriminate.
    destruct (mapRes f xs) as [ys'| |]; try discriminate.
    injection H as <-. constructor; auto.
Qed.

(** A list whose entries are all objects or primitives maps without a
    throw. *)
Lemma mapRes_toDocument_total (fs : list JsValue) :
  Forall (fun f => isNullish f = false) fs ->
  exists docs : list Document, mapRes toDocument fs = Ok docs.
Proof.
  induction 1 as [|f fs Hf _ [docs IH]]; simpl.
  - eexists; reflexivity.
  - unfold toDocument at 1. rewrite Hf, IH. eexists; reflexivity.
Qed.

Lemma ensureInitialized_remote (b : Backend R) :
  remote (snd (ensureInitialized b)) = remote b.
Proof.
  unfold ensureInitialized, initialize.
  destruct b as [[c|] [key|] r]; simpl; try reflexivity.
  destruct (key =? ""); reflexivity.
Qed.

Lemma ensureInitialized_throws (b : Backend R) (e : JsError) (b' : Backend R) :
  ensureInitialized b = (Throw e, b') ->
  ai b = None /\ (API_KEY b = None \/ API_KEY b = Some "") /\ b' = b.
Proof.
  unfold ensureInitialized, initialize.
  destruct b as [c key r]; simpl.
  destruct c; [discriminate|].
  destruct key as [key|]; simpl.
  - destruct (key =? "") eqn:K; simpl; [|discriminate].
    apply String.eqb_eq in K; subst. intros H; injection H as _ <-. auto.
  - intros H; injection H as _ <-. auto.
Qed.

(** Without a client and without a key, every adapter call fails before
    it reaches the remote. *)
Lemma ensureInitialized_without_key (b : Backend R) :
  ai b = None -> API_KEY b = None ->
  ensureInitialized b =
    (Throw (ErrorObj "Gemini AI client not initialized. Please wait for the API key to load."), b).
Proof.
  intros Hai Hkey. unfold ensureInitialized, initialize.
  rewrite Hai, Hkey. simpl. rewrite Hai. reflexivity.
Qed.

(** With a client, a response whose entries are neither [null] nor
    [undefined] is listed without a throw. *)
Lemma listDocuments_returns
    (ragStoreName : JsValue) (b : Backend R) (c : Client)
    (response : JsValue) (r' : R) :
  ai b = Some c ->
  sdk_listFiles c ragStoreName 100 (remote b) = (Ok response, r') ->
  Forall (fun f => isNullish f = false) (findArrayInResponse response) ->
  exists docs : list Document,
    listDocuments ragStoreName b = (Ok docs, set_remote r' b).
Proof.
  intros Hai Hsdk Hentries.
  destruct (mapRes_toDocument_total Hentries) as [docs Hdocs].
  exists docs. unfold listDocuments. cbn [bind Monad_ST].
  unfold bindST, ensureInitialized. rewrite Hai.
  unfold withClient. rewrite Hai, Hsdk. unfold liftRes. rewrite Hdocs.
  reflexivity.
Qed.

(** C10.  Whatever the remote answers, every document that
    [listDocuments] returns has an empty [customMetadata], and the
    document made from an entry that has neither a [displayName] nor a
    [display_name] is named ["Untitled Document"]: the returned list is the
    entry-wise image of the array found in the response. *)
Theorem listDocuments_metadata_and_default_name
    (ragStoreName : JsValue) (b b' : Backend R) (docs : list Document) :
  listDocuments ragStoreName b = (Ok docs, b') ->
  Forall (fun d => doc_customMetadata d = []) docs /\
  exists (c : Client) (response : JsValue) (r' : R),
    sdk_listFiles c ragStoreName 100 (remote b) = (Ok response, r') /\
    Forall2 (fun f d =>
               doc_name d = prop f "name" /\
               (prop f "displayName" = JsUndefined ->
                prop f "display_name" = JsUndefined ->
                doc_displayName d = JsStr "Untitled Document"))
            (findArrayInResponse response) docs.
Proof.
  unfold listDocuments. cbn [bind Monad_ST]. unfold bindST at 1.
  pose proof (ensureInitialized_remote b) as Hrem.
  destruct (ensureInitialized b) as [[[]| |] b1]; try discriminate.
  simpl in Hrem. unfold bindST, withClient.
  destruct (ai b1) as [c|]; try discriminate.
  rewrite Hrem.
  destruct (sdk_listFiles c ragStoreName 100 (remote b)) as [[response| |] r']
    eqn:Hsdk; try discriminate.
  unfold liftRes. intros H.
  destruct (mapRes toDocument (findArrayInResponse response)) as [ds| |] eqn:Hmap;
    try discriminate.
  injection H as -> _.
  apply mapRes_Forall2 in Hmap.
  assert (Hall : Forall2 (fun f d =>
             doc_customMetadata d = [] /\
             doc_name d = prop f "name" /\
             (prop f "displayName" = JsUndefined ->
              prop f "display_name" = JsUndefined ->
              doc_displayName d = JsStr "Untitled Document"))
            (findArrayInResponse response) docs).
  { induction Hmap as [|f d fs ds Hfd _ IH]; constructor; auto.
    unfold toDocument in Hfd. destruct (isNullish f); [discriminate|].
    injection Hfd as <-. simpl. repeat split.
    intros -> ->. reflexivity. }
  split.
  - clear Hmap. induction Hall as [|f d fs ds [Hm _] _ IH]; constructor; auto.
  - exists c, response, r'. split; [exact Hsdk|].
    clear Hmap. induction Hall as [|f d fs ds [_ Hd] _ IH]; constructor; auto.
Qed.

(** The bound on polling is not observable once a poll loop settles: more
    fuel gives the same outcome and the same state. *)
Lemma pollUntilDone_more_fuel (fuel : nat) :
  forall (fuel' : nat) (op : Operation) (b : Backend R),
    fuel <= fuel' ->
    fst (pollUntilDone fuel op b) <> Diverge ->
    pollUntilDone fuel' op b = pollUntilDone fuel op b.
Proof.
  induction fuel as [|fuel IH]; intros fuel' op b Hle Hsettled.
  - destruct fuel'; cbn in *; destruct (op_done op); try reflexivity;
      exfalso; apply Hsettled; reflexivity.
  - destruct fuel' as [|fuel']; [lia|].
    cbn in *. destruct (op_done op); [reflexivity|].
    unfold bindST in *.
    destruct (withClient "operations" (fun c => sdk_operations_get c op) b)
      as [[op'| |] b1]; try reflexivity.
    apply IH; [lia|assumption].
Qed.

Lemma uploadToRagStore_more_fuel
    (fuel fuel' : nat) (ragStoreName : JsValue) (f : File) (b : Backend R) :
  fuel <= fuel' ->
  fst (uploadToRagStore fuel ragStoreName f b) <> Diverge ->
  uploadToRagStore fuel' ragStoreName f b = uploadToRagStore fuel ragStoreName f b.
Proof.
  intros Hle. unfold uploadToRagStore. cbn [bind Monad_ST]. unfold bindST.
  destruct (ensureInitialized b) as [[[]| |] b1]; try reflexivity.
  destruct (withClient "fileSearchStores"
              (fun c => sdk_uploadToFileSearchStore c ragStoreName f) b1)
    as [[op| |] b2]; try reflexivity.
  intros Hsettled. apply pollUntilDone_more_fuel; assumption.
Qed.

End AdapterProperties.

(** [listDocuments] on the scripted remote. *)
Lemma listDocuments_metadata_and_default_name_witness :
  Forall (fun d => doc_customMetadata d = [])
         [ {| doc_name := JsStr "files/a";
              doc_displayName := JsStr "Untitled Document";
              doc_customMetadata := [] |};
           {| doc_name := JsStr "files/b"; doc_displayName := JsStr "b.pdf";
              doc_customMetadata := [] |} ] /\
  exists (c : Client) (response : JsValue) (r' : Script),
    sdk_listFiles c (JsStr "store/7") 100 (happyScript 0) = (Ok response, r') /\
    Forall2 (fun f d =>
               doc_name d = prop f "name" /\
               (prop f "displayName" = JsUndefined ->
                prop f "display_name" = JsUndefined ->
                doc_displayName d = JsStr "Untitled Document"))
            (findArrayInResponse response)
            [ {| doc_name := JsStr "files/a";
                 doc_displayName := JsStr "Untitled Document";
                 doc_customMetadata := [] |};
              {| doc_name := JsStr "files/b"; doc_displayName := JsStr "b.pdf";
                 doc_customMetadata := [] |} ].
Proof.
  apply (@listDocuments_metadata_and_default_name Script ScriptHost
           (JsStr "store/7")
           {| ai := None; API_KEY := Some "k"; remote := happyScript 0 |}
           {| ai := Some {| apiKey := "k" |}; API_KEY := Some "k";
              remote := happyScript 0 |}).
  reflexivity.
Defined.

(* ===================================================================== *)
(** ** Properties of the controller *)
(* ===================================================================== *)

(** The adapter's functions stay folded while a handler is run: their
    outcome is case-split, not computed. *)
#[local] Arguments createRagStore : simpl never.
#[local] Arguments listRagStores : simpl never.
#[local] Arguments listDocuments : simpl never.
#[local] Arguments uploadToRagStore : simpl never.
#[local] Arguments deleteFile : simpl never.
#[local] Arguments fileSearch : simpl never.
#[local] Arguments generateExampleQuestions : simpl never.
#[local] Arguments deleteRagStore : simpl never.
#[local] Arguments uploadEach : simpl never.
#[local] Arguments friendlyNameOf : simpl never.
#[local] Arguments errorText : simpl never.
#[local] Arguments isCredentialError : simpl never.
#[local] Arguments natStr : simpl never.
#[local] Arguments sessionLabel : simpl never.
#[local] Arguments apiKeyEffect : simpl never.
#[local] Arguments handlerOf : simpl never.
#[local] Arguments loadExistingStores : simpl never.
#[local] Arguments initialize : simpl never.

(** Unfolds the run of a handler down to the adapter calls. *)
Ltac run_unfold :=
  unfold bind, ret, Monad_M, bindM, retM, throwM, tryCatch, tryFinally,
    detached, emit, call, getApp, getScreen, getBackend,
    setStatus, setIsApiKeySelected, setApiKeyError, setError,
    setActiveRagStoreName, setChatHistory, setIsQueryLoading,
    setExampleQuestions, setDocumentName, setFiles, setExistingStores,
    setIsLoadingStores, setLibraryError, setUploadProgress, setConfirmState,
    setManagingStore, setStoreDocuments, setIsLoadingDocs,
    modifyApp, modifyScreen;
  cbn [res world emitted app screen backend after].

Section ControllerProperties.
Context {R : Type} {host : Host R}.

Lemma res_after {A : Type} (evs : list Event) (o : @Out R A) :
  res (after evs o) = res o.
Proof. destruct o; reflexivity. Qed.

Lemma world_after {A : Type} (evs : list Event) (o : @Out R A) :
  world (after evs o) = world o.
Proof. destruct o; reflexivity. Qed.

Lemma emitted_after {A : Type} (evs : list Event) (o : @Out R A) :
  emitted (after evs o) = (evs ++ emitted o)%list.
Proof. destruct o; reflexivity. Qed.

(** C8.  A refresh whose fetch returns replaces the cache by the fetched
    list and leaves no library error; a refresh whose fetch fails keeps the
    cache and records the error; a refresh never throws, and it leaves the
    status as it was or, from [Initializing], at [Welcome]: never at
    [Error] unless it was there already. *)
Theorem refresh_replaces_or_retains (captured : AppStatus) (w : World R) :
  let o := loadExistingStores captured w in
  match fst (listRagStores (backend w)) with
  | Ok stores =>
      res o = Ok tt /\
      existingStores (app (world o)) = stores /\
      libraryError (app (world o)) = None
  | Throw _ =>
      res o = Ok tt /\
      existingStores (app (world o)) = existingStores (app w) /\
      libraryError (app (world o)) =
        Some "Failed to load your library. Please check your network or API key."
  | Diverge =>
      res o = Diverge /\
      existingStores (app (world o)) = existingStores (app w)
  end /\
  (status (app (world o)) = status (app w) \/
   captured = Initializing /\ status (app (world o)) = Welcome).
Proof.
  unfold loadExistingStores. run_unfold.
  destruct (listRagStores (backend w)) as [[stores|e|] b1]; cbn;
    destruct captured; cbn; auto 6.
Qed.

(** C5.  With an active store, a send whose query returns appends two
    messages, in this order: one of role [user] with the text sent, and one
    of role [model] with the text and the grounding of the result.  A send
    whose query fails appends two messages too: the same user message, and
    one of role [model] that says "Sorry, I encountered an error. Please
    try again."; and it puts the session in [Error] with the failure in the
    error text.  Either way the handler returns and the in-flight flag is
    off. *)
Theorem send_appends_two_messages (text : string) (w : World R) :
  truthy (activeRagStoreName (app w)) = true ->
  let o := handleSendMessage text w in
  match fst (fileSearch (activeRagStoreName (app w)) text (backend w)) with
  | Ok result =>
      res o = Ok tt /\
      chatHistory (app (world o)) =
        (chatHistory (app w) ++
         [ {| role := user; parts := [text]; groundingChunks := None |};
           {| role := model; parts := [qr_text result];
              groundingChunks := Some (qr_groundingChunks result) |} ])%list /\
      length (chatHistory (app (world o))) = length (chatHistory (app w)) + 2 /\
      status (app (world o)) = status (app w) /\
      isQueryLoading (app (world o)) = false
  | Throw e =>
      res o = Ok tt /\
      chatHistory (app (world o)) =
        (chatHistory (app w) ++
         [ {| role := user; parts := [text]; groundingChunks := None |};
           {| role := model;
              parts := ["Sorry, I encountered an error. Please try again."];
              groundingChunks := None |} ])%list /\
      length (chatHistory (app (world o))) = length (chatHistory (app w)) + 2 /\
      status (app (world o)) = Error /\
      error (app (world o)) =
        Some ("Failed to get response"
              ++ match e with
                 | ErrorObj m => ": " ++ m
                 | Thrown true s => ": " ++ s
                 | Thrown false _ => ""
                 end)%string /\
      isQueryLoading (app (world o)) = false
  | Diverge => res o = Diverge
  end.
Proof.
  intros Hactive. unfold handleSendMessage, handleError. run_unfold.
  rewrite Hactive. cbn.
  destruct (fileSearch (activeRagStoreName (app w)) text (backend w))
    as [[result|e|] b1]; cbn; rewrite <- ?app_assoc; auto;
    repeat split; auto; rewrite length_app; reflexivity.
Qed.

(** The only way [generateExampleQuestions] rejects: there is no client
    and no key to build one from. *)
Lemma generateExampleQuestions_throws
    (ragStoreName : JsValue) (b b' : Backend R) (e : JsError) :
  generateExampleQuestions ragStoreName b = (Throw e, b') ->
  ai b = None /\ (API_KEY b = None \/ API_KEY b = Some "").
Proof.
  unfold generateExampleQuestions. cbn [bind Monad_ST]. unfold bindST at 1.
  destruct (ensureInitialized b) as [[[]|e0|] b1] eqn:Hinit.
  - unfold tryCatchST.
    match goal with
    | |- context [match ?body b1 with _ => _ end] =>
        destruct (body b1) as [[qs|e1|] b2]
    end; cbn; discriminate.
  - intros _. apply ensureInitialized_throws in Hinit. tauto.
  - discriminate.
Qed.

(** C9.  When the question fetch of a selection rejects, the handler
    swallows the failure and leaves the session in [Error] with the
    selected store still active; [clearError] then returns to [Welcome]
    without clearing it. *)
Theorem failed_selection_keeps_store_active
    (s : RagStore) (w : World R) (e : JsError) (b' : Backend R) :
  generateExampleQuestions (store_name s) (backend w) = (Throw e, b') ->
  let o := handleSelectExistingStore s w in
  let o' := clearError (world o) in
  res o = Ok tt /\
  status (app (world o)) = Error /\
  activeRagStoreName (app (world o)) = store_name s /\
  status (app (world o')) = Welcome /\
  activeRagStoreName (app (world o')) = store_name s.
Proof.
  intros Hq. unfold handleSelectExistingStore, clearError, handleError.
  run_unfold. rewrite Hq. cbn. auto.
Qed.

(** C4, as the code has it.  Without a credential the create handler
    throws after setting the field-level key error, and changes nothing
    else; with a credential and an empty staging set it returns at once
    and changes nothing at all, raising no error.  Either way the status,
    the staging set and the library cache are as before and the adapter is
    not called. *)
Theorem create_guard_leaves_state (fuel : nat) (w : World R) :
  isApiKeySelected (app w) = false \/ files (app w) = [] ->
  let o := handleUploadAndStartChat fuel w in
  emitted o = [] /\
  backend (world o) = backend w /\
  screen (world o) = screen w /\
  status (app (world o)) = status (app w) /\
  files (app (world o)) = files (app w) /\
  existingStores (app (world o)) = existingStores (app w) /\
  (if isApiKeySelected (app w)
   then res o = Ok tt /\ app (world o) = app w
   else res o = Throw (ErrorObj "API Key is required.") /\
        app (world o) =
          with_apiKeyError (Some "Please select your Gemini API Key first.")
                           (app w)).
Proof.
  intros Hguard. unfold handleUploadAndStartChat. run_unfold.
  destruct (isApiKeySelected (app w)) eqn:Hkey; cbn.
  - destruct Hguard as [Hguard|Hguard]; [discriminate|].
    rewrite Hguard. cbn. destruct w; cbn; auto 10.
  - auto 10.
Qed.

(** C3, as the code has it.  A confirmed store deletion calls the remote
    delete first.  If that returns, the entry is filtered out of the cache
    and a refresh is started, whose list, when it arrives, replaces the
    cache.  If the remote delete rejects, nothing is removed: the cache is
    as before, no refresh is started, and an alert is raised.  The handler
    itself never throws. *)
Theorem delete_store_calls_remote_first (w : World R) :
  confirm_type (confirmState (screen w)) = store ->
  let name := targetId (confirmState (screen w)) in
  let kept := filter (fun s => negb (strictEq (store_name s) name))
                     (existingStores (app w)) in
  let o := executeDelete w in
  res o = Ok tt /\
  match deleteRagStore name (backend w) with
  | (Ok _, b1) =>
      gatewayCalls (emitted o) = [DeleteRagStore name; ListRagStores] /\
      existingStores (app (world o)) =
        match fst (listRagStores b1) with
        | Ok stores => stores
        | _ => kept
        end
  | (Throw e, _) =>
      emitted o = [EvCall (DeleteRagStore name) (Rejected e);
                   EvAlert "Failed to delete the document set."] /\
      existingStores (app (world o)) = existingStores (app w)
  | (Diverge, _) =>
      gatewayCalls (emitted o) = [DeleteRagStore name] /\
      existingStores (app (world o)) = existingStores (app w)
  end.
Proof.
  intros Hkind. unfold executeDelete, handleDeleteStore, loadExistingStores.
  run_unfold. rewrite Hkind. cbn.
  destruct (deleteRagStore (targetId (confirmState (screen w))) (backend w))
    as [[[]|e|] b1]; cbn; auto.
  destruct (listRagStores b1) as [[stores|e|] b2]; cbn;
    destruct (AppStatus_eqb (status (app w)) Initializing); cbn; auto.
Qed.

(** The state an action leaves: that of its handler, and then of the
    effect when the handler returned with [isApiKeySelected] changed. *)
Lemma perform_world (act : Action) (w : World R) :
  world (perform act w) =
    match res (handlerOf act w) with
    | Ok _ =>
        if Bool.eqb (isApiKeySelected (app w))
                    (isApiKeySelected (app (world (handlerOf act w))))
        then world (handlerOf act w)
        else world (apiKeyEffect (world (handlerOf act w)))
    | _ => world (handlerOf act w)
    end.
Proof.
  unfold perform. run_unfold.
  destruct (handlerOf act w) as [[[]|e|] w1 evs]; cbn; try reflexivity.
  rewrite !world_after.
  destruct (Bool.eqb (isApiKeySelected (app w)) (isApiKeySelected (app w1)));
    reflexivity.
Qed.

(** A refresh leaves the chat and the credential flag alone, and the status
    too unless it was started from [Initializing]. *)
Lemma loadExistingStores_chat (captured : AppStatus) (w : World R) :
  chatHistory (app (world (loadExistingStores captured w))) = chatHistory (app w) /\
  (status (app (world (loadExistingStores captured w))) = status (app w) \/
   captured = Initializing /\
   status (app (world (loadExistingStores captured w))) = Welcome) /\
  isApiKeySelected (app (world (loadExistingStores captured w))) =
    isApiKeySelected (app w).
Proof.
  unfold loadExistingStores. run_unfold.
  destruct (listRagStores (backend w)) as [[stores|e|] b1]; cbn;
    destruct captured; cbn; auto.
Qed.

(** The credential check changes [isApiKeySelected] only. *)
Lemma checkApiKey_chat (w : World R) :
  chatHistory (app (world (checkApiKey w))) = chatHistory (app w) /\
  status (app (world (checkApiKey w))) = status (app w).
Proof.
  unfold checkApiKey, liftHost, liftG.
  destruct aistudio_hasSelectedApiKey as [hasSelectedApiKey|]; [|auto].
  run_unfold.
  destruct (hasSelectedApiKey (remote (backend w))) as [[hasKey|e|] r1]; cbn; auto.
Qed.

(** The effect leaves the chat alone, and the status too unless it goes to
    [Welcome]. *)
Lemma apiKeyEffect_chat (w : World R) :
  chatHistory (app (world (apiKeyEffect w))) = chatHistory (app w) /\
  (status (app (world (apiKeyEffect w))) = status (app w) \/
   status (app (world (apiKeyEffect w))) = Welcome).
Proof.
  unfold apiKeyEffect, liftG. run_unfold.
  destruct (isApiKeySelected (app w)); [|cbn; auto].
  destruct (initialize (backend w)) as [r b1] eqn:Hinit.
  assert (Hr : r = Ok tt).
  { unfold initialize in Hinit. destruct (API_KEY (backend w)) as [key|];
      [destruct (negb (key =? ""))|]; congruence. }
  subst r. cbn. rewrite !world_after. unfold detached.
  match goal with
  | |- context [loadExistingStores ?st ?w1] =>
      pose proof (loadExistingStores_chat st w1) as (Hchat & Hstatus & Hflag);
      destruct (loadExistingStores st w1) as [r2 w2 evs2]
  end.
  cbn in *. split; [assumption|]. tauto.
Qed.

(** C7, as the code has it.  A step taken from [Chatting] either stays in
    [Chatting] with the history extended, or is the end of the chat, which
    goes to [Welcome] with the history emptied, or is a focus event that
    finds the credential gone, which goes to [Welcome] with the history as
    it was, or is a failed send, which goes to [Error] with the user message
    and the apology appended to the history.  A step taken from [Error]
    keeps the history, and the recovery goes to [Welcome]. *)
Theorem chat_history_across_steps (w : World R) (act : Action) (w' : World R) :
  step w act w' ->
  (status (app w) = Chatting ->
     (status (app w') = Chatting /\
      exists suffix, chatHistory (app w') = (chatHistory (app w) ++ suffix)%list) \/
     (act = DoNewChat /\ status (app w') = Welcome /\ chatHistory (app w') = []) \/
     (act = DoFocus /\ status (app w') = Welcome /\
      chatHistory (app w') = chatHistory (app w)) \/
     (status (app w') = Error /\
      exists text,
        act = DoSendMessage text /\
        chatHistory (app w') =
          (chatHistory (app w) ++ [userMessage text; errorMessage])%list)) /\
  (status (app w) = Error ->
     chatHistory (app w') = chatHistory (app w) /\
     (act = DoTryAgain -> status (app w') = Welcome)).
Proof.
  intros [Hoffered <-]. rewrite perform_world.
  split; intros Hst; rewrite Hst in Hoffered;
    destruct act; try discriminate Hoffered; unfold handlerOf.
  - (* focus, while chatting *)
    destruct (checkApiKey_chat w) as [Hchat Hstatus].
    destruct (apiKeyEffect_chat (world (checkApiKey w))) as [Hchat' Hstatus'].
    rewrite Hchat in Hchat'. rewrite Hstatus, Hst in Hstatus'.
    rewrite Hst in Hstatus.
    assert (Hstay : status (app (world (checkApiKey w))) = Chatting /\
                    exists suffix,
                      chatHistory (app (world (checkApiKey w))) =
                        (chatHistory (app w) ++ suffix)%list).
    { split; [exact Hstatus|]. exists []. now rewrite Hchat, app_nil_r. }
    destruct (res (checkApiKey w)) as [[]|e|];
      [destruct (Bool.eqb _ _)|..]; auto.
    destruct Hstatus' as [Hstatus'|Hstatus'].
    + left. split; [exact Hstatus'|]. exists []. now rewrite Hchat', app_nil_r.
    + right; right; left. auto.
  - (* a send *)
    unfold handleSendMessage, handleError. run_unfold.
    destruct (truthy (activeRagStoreName (app w))); cbn.
    + destruct (fileSearch (activeRagStoreName (app w)) text (backend w))
        as [[result|e|] b1]; cbn; rewrite ?Bool.eqb_reflx, <- ?app_assoc.
      * left. split; [assumption|]. eexists; reflexivity.
      * right; right; right. split; [reflexivity|]. exists text; auto.
      * left. split; [assumption|]. eexists; reflexivity.
    + rewrite Bool.eqb_reflx.
      left. split; [assumption|]. exists []. now rewrite app_nil_r.
  - (* a new chat *)
    right; left.
    unfold handleEndChat. run_unfold. unfold detached.
    match goal with
    | |- context [loadExistingStores ?st ?w1] =>
        pose proof (loadExistingStores_chat st w1) as (Hchat & Hstatus & Hflag);
        destruct (loadExistingStores st w1) as [r2 w2 evs2]
    end.
    cbn in *. rewrite Hflag, Bool.eqb_reflx.
    repeat split; [|assumption].
    destruct Hstatus as [Hstatus|[Hinit _]]; [assumption|congruence].
  - (* focus, in the error state *)
    destruct (checkApiKey_chat w) as [Hchat Hstatus].
    destruct (apiKeyEffect_chat (world (checkApiKey w))) as [Hchat' _].
    split; [|discriminate].
    destruct (res (checkApiKey w)) as [[]|e|];
      [destruct (Bool.eqb _ _)|..]; congruence.
  - (* try again *)
    unfold clearError. run_unfold. rewrite Bool.eqb_reflx. auto.
Qed.

End ControllerProperties.

Section CreateStoreProperties.
Context {R : Type} {host : Host R}.

Lemma progressUpdates_app (t1 t2 : list Event) :
  progressUpdates (t1 ++ t2) = (progressUpdates t1 ++ progressUpdates t2)%list.
Proof. apply flat_map_app. Qed.

Lemma gatewayCalls_app (t1 t2 : list Event) :
  gatewayCalls (t1 ++ t2) = (gatewayCalls t1 ++ gatewayCalls t2)%list.
Proof. apply flat_map_app. Qed.

(** What the upload loop does, from any index and any world: it touches
    only the progress cell and the adapter, calls nothing but the upload,
    stops with the error of the first upload that rejects, and, when it
    returns, has set one progress object per file, numbered from [i + 1]. *)
Lemma uploadEach_run (fuel : nat) (name : string) (n : nat) (rest : list File) :
  forall (i : nat) (w : World R),
    let o := uploadEach fuel name n rest i w in
    screen (world o) = screen w /\
    app (world o) = with_uploadProgress (uploadProgress (app (world o))) (app w) /\
    Forall (fun c => exists f, c = UploadToRagStore (JsStr name) f)
           (gatewayCalls (emitted o)) /\
    (forall s f e,
        In (EvCall (UploadToRagStore s f) (Rejected e)) (emitted o) ->
        res o = Throw e) /\
    (forallb settledWell (emitted o) = true -> res o = Ok tt) /\
    (res o = Ok tt ->
     exists during : list UploadProgress,
       progressUpdates (emitted o) = map Some during /\
       map current during = seq (i + 1) (length rest) /\
       (forall p, uploadProgress (app w) = Some p ->
                  Forall (fun q => total q = total p) during)).
Proof.
  unfold progressUpdates, gatewayCalls.
  induction rest as [|f rest IH]; intros i w.
  - cbn. repeat split; auto.
    + destruct w as [[] ? ?]; reflexivity.
    + intros s f e [].
    + intros _. exists []. repeat split; auto.
  - unfold uploadEach; fold uploadEach. run_unfold.
    destruct (uploadToRagStore fuel (JsStr name) f (backend w))
      as [[[]|e|] b1]; cbn.
    + match goal with
      | |- context [uploadEach fuel name n rest (S i) ?w1] =>
          specialize (IH (S i) w1); set (o1 := uploadEach fuel name n rest (S i) w1) in *
      end.
      rewrite !res_after, !world_after, !emitted_after.
      cbn in IH |- *. destruct IH as (Hscr & Happ & Hcalls & Hrej & Hok & Hprog).
      repeat split.
      * assumption.
      * rewrite Happ at 1. reflexivity.
      * constructor; [eexists; reflexivity | assumption].
      * intros s f0 e [Heq|[Heq|Hin]]; try discriminate. eauto.
      * assumption.
      * intros Hres. destruct (Hprog Hres) as (during & Hupd & Hcur & Htot).
        eexists (_ :: during). cbn. rewrite Hupd. split; [reflexivity|].
        split.
        -- cbn. rewrite Hcur. replace (S i + 1) with (S (i + 1)) by lia.
           reflexivity.
        -- intros p Hp. specialize (Htot _ eq_refl). cbn in Htot.
           rewrite Hp in Htot |- *. constructor; [reflexivity|exact Htot].
    + repeat split; auto.
      * repeat constructor. eexists; reflexivity.
      * intros s f0 e0 [Heq|[Heq|[]]]; try discriminate.
        injection Heq as _ _ ->. reflexivity.
      * discriminate.
      * discriminate.
    + repeat split; auto.
      * repeat constructor. eexists; reflexivity.
      * intros s f0 e0 [Heq|[Heq|[]]]; discriminate.
      * discriminate.
      * discriminate.
Qed.

(** The same for the upload loop. *)
Lemma uploadEach_more_fuel (fuel fuel' : nat) (name : string) (n : nat)
    (rest : list File) :
  fuel <= fuel' ->
  forall (i : nat) (w : World R),
    res (uploadEach fuel name n rest i w) <> Diverge ->
    uploadEach fuel' name n rest i w = uploadEach fuel name n rest i w.
Proof.
  intros Hle. induction rest as [|f rest IH]; intros i w Hsettled.
  - reflexivity.
  - revert Hsettled. unfold uploadEach; fold uploadEach. run_unfold.
    pose proof (uploadToRagStore_more_fuel (JsStr name) f (backend w) Hle) as Hmore.
    destruct (uploadToRagStore fuel (JsStr name) f (backend w)) as [[[]|e|] b1];
      cbn [fst] in Hmore.
    + rewrite Hmore by discriminate.
      cbn [res world emitted app screen backend after].
      rewrite !res_after. intros Hsettled. rewrite (IH _ _ Hsettled). reflexivity.
    + rewrite Hmore by discriminate. reflexivity.
    + cbn [res world emitted app screen backend after]. intros Hsettled.
      exfalso. apply Hsettled. reflexivity.
Qed.

(** The create handler past its guard, outcome by outcome: what it
    returns, what it emits and the state it leaves, in terms of the outcome
    of the store creation and of the events [evs] and outcome [r] of the
    upload loop. *)
Lemma create_run (fuel : nat) (w : World R) :
  isApiKeySelected (app w) = true ->
  files (app w) <> [] ->
  let n := length (files (app w)) in
  let friendlyName := friendlyNameOf (sessionLabel (backend w)) (files (app w)) in
  let creating :=
    {| current := 0; total := Some (n + 2);
       message := Some "Creating document index..."; fileName := None |} in
  let embedding :=
    {| current := 1; total := Some (n + 2);
       message := Some "Generating embeddings..."; fileName := None |} in
  let registered :=
    {| current := n + 1; total := Some (n + 2);
       message := Some "Registered! updating library..."; fileName := Some "" |} in
  let o := handleUploadAndStartChat fuel w in
  screen (world o) = screen w /\
  match createRagStore friendlyName (backend w) with
  | (Ok id, _) =>
      exists (evs : list Event),
        (forall s f e,
            In (EvCall (UploadToRagStore s f) (Rejected e)) evs ->
            res o = Throw e) /\
        (forallb settledWell evs = true -> res o = Ok tt) /\
        Forall (fun c => exists f, c = UploadToRagStore (JsStr id) f)
               (gatewayCalls evs) /\
        match res o with
        | Ok _ =>
            emitted o =
              EvProgress (Some creating)
              :: EvCall (CreateRagStore friendlyName) Returned
              :: EvProgress (Some embedding)
              :: (evs ++ [EvProgress (Some registered); EvProgress None])%list /\
            (exists during : list UploadProgress,
                progressUpdates evs = map Some during /\
                map current during = seq 1 n /\
                Forall (fun q => total q = Some (n + 2)) during) /\
            app (world o) =
              with_uploadProgress None
                (with_status Welcome
                   (with_files []
                      (with_existingStores
                         ({| store_name := JsStr id;
                             store_displayName := JsStr friendlyName |}
                          :: existingStores (app w))
                         (with_apiKeyError None (app w)))))
        | Throw e =>
            emitted o =
              EvProgress (Some creating)
              :: EvCall (CreateRagStore friendlyName) Returned
              :: EvProgress (Some embedding)
              :: (evs ++ [EvProgress None])%list /\
            app (world o) = afterFailedCreate e (app w)
        | Diverge =>
            emitted o =
              EvProgress (Some creating)
              :: EvCall (CreateRagStore friendlyName) Returned
              :: EvProgress (Some embedding) :: evs
        end
  | (Throw e, _) =>
      res o = Throw e /\
      emitted o = [EvProgress (Some creating);
                   EvCall (CreateRagStore friendlyName) (Rejected e);
                   EvProgress None] /\
      app (world o) = afterFailedCreate e (app w)
  | (Diverge, _) =>
      res o = Diverge /\
      emitted o = [EvProgress (Some creating);
                   EvCall (CreateRagStore friendlyName) Pending]
  end.
Proof.
  intros Hkey Hfiles.
  unfold handleUploadAndStartChat, handleError, afterFailedCreate. run_unfold.
  rewrite Hkey. cbn [negb].
  destruct (Nat.eqb_spec (length (files (app w))) 0) as [Hlen|_].
  { exfalso. apply Hfiles. apply length_zero_iff_nil. exact Hlen. }
  cbn [res world emitted app screen backend after].
  destruct (createRagStore 
              (friendlyNameOf (sessionLabel (backend w)) (files (app w)))
              (backend w)) as [[id|e|] b1];
    cbn [res world emitted app screen backend after].
  - match goal with
    | |- context [uploadEach fuel id ?n ?fs 0 ?w1] =>
        pose proof (uploadEach_run fuel id n fs 0 w1) as Hloop;
        destruct (uploadEach fuel id n fs 0 w1) as [r1 w2 evs1]
    end.
    cbn [res world emitted app screen backend uploadProgress with_uploadProgress] in Hloop.
    destruct Hloop as (Hscr & Happ & Hcalls & Hrej & Hok & Hprog).
    destruct r1 as [[]|e|]; cbn [res world emitted app screen backend after].
    + cbn. split; [assumption|]. exists evs1. repeat split; auto.
      * rewrite ?app_nil_r, <- ?app_assoc. reflexivity.
      * destruct (Hprog eq_refl) as (during & Hupd & Hcur & Htot).
        exists during. repeat split; auto.
        exact (Htot _ eq_refl).
      * rewrite Happ. reflexivity.
    + destruct (isCredentialError e) eqn:Hcred; cbn;
        (split; [assumption|]); exists evs1; repeat split; auto;
        try (rewrite ?app_nil_r, <- ?app_assoc; reflexivity);
        rewrite ?Hcred, Happ; reflexivity.
    + cbn. split; [assumption|]. exists evs1. repeat split; auto.
  - destruct (isCredentialError e); cbn; destruct w as [a sc b]; cbn; auto.
  - auto.
Qed.

(** And for the create handler: a run that settles with some fuel is the
    run with any more fuel. *)
Lemma handleUploadAndStartChat_more_fuel (fuel fuel' : nat) (w : World R) :
  fuel <= fuel' ->
  res (handleUploadAndStartChat fuel w) <> Diverge ->
  handleUploadAndStartChat fuel' w = handleUploadAndStartChat fuel w.
Proof.
  intros Hle. unfold handleUploadAndStartChat, handleError. run_unfold.
  destruct (isApiKeySelected (app w)); cbn [negb]; [|reflexivity].
  destruct (Nat.eqb (length (files (app w))) 0); [reflexivity|].
  cbn [res world emitted app screen backend after].
  destruct (createRagStore _ (backend w)) as [[id|e|] b1];
    cbn [res world emitted app screen backend after]; try reflexivity.
  match goal with
  | |- context [uploadEach fuel id ?n ?fs 0 ?w1] =>
      pose proof (uploadEach_more_fuel id n fs Hle 0 w1) as Hmore;
      destruct (uploadEach fuel id n fs 0 w1) as [r1 w2 evs1]
  end.
  cbn [res] in Hmore.
  destruct r1 as [[]|e|].
  - rewrite Hmore by discriminate. reflexivity.
  - rewrite Hmore by discriminate. reflexivity.
  - cbn [res world emitted app screen backend after]. rewrite ?res_after.
    cbn [res world emitted app screen backend after]. intros Hsettled.
    exfalso. apply Hsettled. reflexivity.
Qed.

(** A create run stopped by its guard emits nothing and does not return
    normally unless the staging set is empty. *)
Lemma create_guard_run (fuel : nat) (w : World R) :
  isApiKeySelected (app w) = false \/ files (app w) = [] ->
  let o := handleUploadAndStartChat fuel w in
  emitted o = [] /\
  (res o = Ok tt -> isApiKeySelected (app w) = true /\ files (app w) = []).
Proof.
  intros Hguard. unfold handleUploadAndStartChat. run_unfold.
  destruct (isApiKeySelected (app w)) eqn:Hkey; cbn.
  - destruct Hguard as [Hguard|Hguard]; [discriminate|].
    rewrite Hguard. cbn. auto.
  - split; [reflexivity|discriminate].
Qed.

(** The trace of the upload loop, from any index: a turn with a returned
    upload for each file of a prefix of the files, in order, and then, when
    the loop did not return, the turn of the next file, whose upload is the
    one that was rejected or is pending. *)
Lemma uploadEach_trace (fuel : nat) (name : string) (n : nat) (rest : list File) :
  forall (i : nat) (w : World R) (shown : option nat),
    match uploadProgress (app w) with Some p => total p | None => None end = shown ->
    let o := uploadEach fuel name n rest i w in
    exists (done : list File) (stopped : list Event),
      emitted o =
        (flat_map (uploadStep shown n name Returned)
                  (combine (seq (i + 1) (length done)) done) ++ stopped)%list /\
      match res o with
      | Ok _ => done = rest /\ stopped = []
      | Throw e =>
          exists f later,
            rest = (done ++ f :: later)%list /\
            stopped = uploadStep shown n name (Rejected e) (i + length done + 1, f)
      | Diverge =>
          exists f later,
            rest = (done ++ f :: later)%list /\
            stopped = uploadStep shown n name Pending (i + length done + 1, f)
      end.
Proof.
  induction rest as [|f rest IH]; intros i w shown Hshown.
  - exists [], []. cbn. split; [reflexivity|split; reflexivity].
  - unfold uploadEach; fold uploadEach. run_unfold.
    destruct (uploadToRagStore fuel (JsStr name) f (backend w))
      as [[[]|e|] b1]; cbn [res world emitted app screen backend after outcomeOf].
    + match goal with
      | |- context [uploadEach fuel name n rest (S i) ?w1] =>
          destruct (IH (S i) w1 shown) as (done & stopped & Hemitted & Hres);
          [cbn; exact Hshown|];
          set (o1 := uploadEach fuel name n rest (S i) w1) in *
      end.
      rewrite !res_after, !emitted_after. cbn [Datatypes.app].
      exists (f :: done), stopped. split.
      * rewrite Hemitted, Hshown. cbn [length seq combine flat_map uploadStep fst snd Datatypes.app].
        replace (S (i + 1)) with (S i + 1) by lia. reflexivity.
      * destruct (res o1) as [[]|e|].
        -- destruct Hres as [-> ->]. auto.
        -- destruct Hres as (f' & later & -> & ->). exists f', later.
           cbn [length Datatypes.app]. replace (i + S (length done) + 1)
             with (S i + length done + 1) by lia. auto.
        -- destruct Hres as (f' & later & -> & ->). exists f', later.
           cbn [length Datatypes.app]. replace (i + S (length done) + 1)
             with (S i + length done + 1) by lia. auto.
    + exists [], (uploadStep shown n name (Rejected e) (i + 1, f)). split.
      * rewrite Hshown. reflexivity.
      * exists f, rest. cbn [length Datatypes.app]. rewrite Nat.add_0_r. auto.
    + exists [], (uploadStep shown n name Pending (i + 1, f)). split.
      * rewrite Hshown. reflexivity.
      * exists f, rest. cbn [length Datatypes.app]. rewrite Nat.add_0_r. auto.
Qed.

(** The create handler once the store exists: it is the upload loop run
    from the state in which the second progress object shows, between the
    three events before the loop and the one or two after it. *)
Lemma create_loop (fuel : nat) (w : World R) (id : string) (b1 : Backend R) :
  isApiKeySelected (app w) = true ->
  files (app w) <> [] ->
  let n := length (files (app w)) in
  let friendlyName := friendlyNameOf (sessionLabel (backend w)) (files (app w)) in
  createRagStore friendlyName (backend w) = (Ok id, b1) ->
  let creating :=
    {| current := 0; total := Some (n + 2);
       message := Some "Creating document index..."; fileName := None |} in
  let embedding :=
    {| current := 1; total := Some (n + 2);
       message := Some "Generating embeddings..."; fileName := None |} in
  let registered :=
    {| current := n + 1; total := Some (n + 2);
       message := Some "Registered! updating library..."; fileName := Some "" |} in
  let w1 :=
    {| app := with_uploadProgress (Some embedding)
                (with_uploadProgress (Some creating)
                   (with_status Uploading (with_apiKeyError None (app w))));
       screen := screen w; backend := b1 |} in
  let o1 := uploadEach fuel id n (files (app w)) 0 w1 in
  let o := handleUploadAndStartChat fuel w in
  res o = res o1 /\
  emitted o =
    EvProgress (Some creating)
    :: EvCall (CreateRagStore friendlyName) Returned
    :: EvProgress (Some embedding)
    :: (emitted o1 ++
        match res o1 with
        | Ok _ => [EvProgress (Some registered); EvProgress None]
        | Throw _ => [EvProgress None]
        | Diverge => []
        end)%list /\
  (res o1 = Diverge -> world o = world o1).
Proof.
  intros Hkey Hfiles n friendlyName Hcreate creating embedding registered w1 o1 o.
  subst o. unfold handleUploadAndStartChat, handleError. run_unfold.
  rewrite Hkey. cbn [negb].
  destruct (Nat.eqb_spec (length (files (app w))) 0) as [Hlen|_].
  { exfalso. apply Hfiles. apply length_zero_iff_nil. exact Hlen. }
  cbn [res world emitted app screen backend after].
  fold friendlyName. rewrite Hcreate.
  cbn [res world emitted app screen backend after].
  fold n creating embedding. fold w1. fold o1.
  destruct o1 as [[[]|e|] w2 evs1]; cbn [res world emitted app screen backend after].
  - cbn. rewrite ?app_nil_r, <- ?app_assoc. repeat split; auto. discriminate.
  - destruct (isCredentialError e); cbn; rewrite ?app_nil_r, <- ?app_assoc;
      repeat split; auto; discriminate.
  - cbn. rewrite ?app_nil_r. auto.
Qed.

(** The trace of a create run once the store exists, event by event: the
    progress at 0, the creation, the progress at 1, a turn of the loop with
    a returned upload for each file of a prefix of the staging set, and
    then either the registration and the clearing, when the run returns, or
    the turn of the file whose upload was rejected, and the clearing, or
    the turn of the file whose upload is pending. *)
Lemma create_trace (fuel : nat) (w : World R) (id : string) (b1 : Backend R) :
  isApiKeySelected (app w) = true ->
  files (app w) <> [] ->
  let n := length (files (app w)) in
  let friendlyName := friendlyNameOf (sessionLabel (backend w)) (files (app w)) in
  createRagStore friendlyName (backend w) = (Ok id, b1) ->
  let o := handleUploadAndStartChat fuel w in
  exists (done : list File) (stopped : list Event),
    emitted o =
      EvProgress (Some {| current := 0; total := Some (n + 2);
                          message := Some "Creating document index...";
                          fileName := None |})
      :: EvCall (CreateRagStore friendlyName) Returned
      :: EvProgress (Some {| current := 1; total := Some (n + 2);
                             message := Some "Generating embeddings...";
                             fileName := None |})
      :: (flat_map (uploadStep (Some (n + 2)) n id Returned)
                   (combine (seq 1 (length done)) done) ++ stopped)%list /\
    match res o with
    | Ok _ =>
        done = files (app w) /\
        stopped =
          [EvProgress (Some {| current := n + 1; total := Some (n + 2);
                               message := Some "Registered! updating library...";
                               fileName := Some "" |});
           EvProgress None]
    | Throw e =>
        exists f later,
          files (app w) = (done ++ f :: later)%list /\
          stopped =
            (uploadStep (Some (n + 2)) n id (Rejected e) (length done + 1, f)
             ++ [EvProgress None])%list
    | Diverge =>
        exists f later,
          files (app w) = (done ++ f :: later)%list /\
          stopped = uploadStep (Some (n + 2)) n id Pending (length done + 1, f)
    end.
Proof.
  intros Hkey Hfiles n friendlyName Hcreate o.
  destruct (create_loop fuel w Hkey Hfiles Hcreate) as (Hres & Hemitted & _).
  fold o n friendlyName in Hres, Hemitted.
  match type of Hres with
  | _ = res (uploadEach ?fu ?nm ?m ?rest ?i ?w1) =>
      destruct (uploadEach_trace fu nm m rest i w1 (shown := Some (n + 2)) eq_refl)
        as (done & stopped & Htrace & Hstopped);
      set (o1 := uploadEach fu nm m rest i w1) in *
  end.
  rewrite Hemitted, Hres, Htrace. clear Hemitted Htrace Hres.
  exists done.
  destruct (res o1) as [[]|e|].
  - destruct Hstopped as [-> ->]. eexists. split; [|split; reflexivity].
    rewrite app_nil_r. reflexivity.
  - destruct Hstopped as (f & later & Hsplit & ->). eexists.
    split; [rewrite <- app_assoc; reflexivity|].
    exists f, later. auto.
  - destruct Hstopped as (f & later & Hsplit & ->). eexists.
    split; [rewrite app_nil_r; reflexivity|].
    exists f, later. auto.
Qed.

(** A run of updates that each set [current] one above the one before, up
    to [q], and the clearing: every one of them advances the progress. *)
Lemma advancements_rising (ps : list UploadProgress) :
  forall (showing q : UploadProgress),
    map current ps = seq (S (current showing)) (length ps) ->
    current q = S (current showing + length ps) ->
    advancements (Some showing) (map Some ps ++ [Some q; None]) = (ps ++ [q])%list.
Proof.
  induction ps as [|p ps IH]; intros showing q Hrun Hq.
  - cbn [map Datatypes.app advancements length] in *.
    replace (Nat.ltb (current showing) (current q)) with true
      by (symmetry; apply Nat.ltb_lt; lia).
    reflexivity.
  - cbn [map length seq] in Hrun. injection Hrun as Hp Hrun.
    cbn [map Datatypes.app advancements].
    replace (Nat.ltb (current showing) (current p)) with true
      by (symmetry; apply Nat.ltb_lt; lia).
    rewrite (IH p q); [reflexivity|rewrite Hp; exact Hrun|].
    rewrite Hq, Hp. cbn [length]. lia.
Qed.

Lemma map_fst_combine (A B : Type) (xs : list A) :
  forall ys : list B,
    length xs = length ys -> map fst (combine xs ys) = xs.
Proof.
  induction xs as [|x xs IH]; intros [|y ys] Hlen; try discriminate; [reflexivity|].
  cbn. rewrite IH; [reflexivity|]. cbn in Hlen. lia.
Qed.

Lemma map_snd_combine (A B : Type) (xs : list A) :
  forall ys : list B,
    length xs = length ys -> map snd (combine xs ys) = ys.
Proof.
  induction xs as [|x xs IH]; intros [|y ys] Hlen; try discriminate; [reflexivity|].
  cbn. rewrite IH; [reflexivity|]. cbn in Hlen. lia.
Qed.

Lemma seq_increasing (len : nat) :
  forall start, StronglySorted lt (seq start len).
Proof.
  induction len as [|len IH]; intros start; cbn; constructor.
  - apply IH.
  - apply Forall_forall. intros x Hin. apply in_seq in Hin. lia.
Qed.

Lemma progressUpdates_uploadSteps
    (shown : option nat) (n : nat) (name : string) (numbered : list (nat * File)) :
  progressUpdates (flat_map (uploadStep shown n name Returned) numbered) =
    map (fun p => Some {| current := fst p; total := shown;
                          message := Some "Generating embeddings...";
                          fileName := Some (uploadLabel n p) |}) numbered.
Proof.
  induction numbered as [|p numbered IH]; [reflexivity|].
  cbn [flat_map map]. rewrite progressUpdates_app, IH. reflexivity.
Qed.

Lemma gatewayOutcomes_app (t1 t2 : list Event) :
  gatewayOutcomes (t1 ++ t2) = (gatewayOutcomes t1 ++ gatewayOutcomes t2)%list.
Proof. apply flat_map_app. Qed.

Lemma gatewayOutcomes_uploadSteps
    (shown : option nat) (n : nat) (name : string) (numbered : list (nat * File)) :
  gatewayOutcomes (flat_map (uploadStep shown n name Returned) numbered) =
    map (fun p => (UploadToRagStore (JsStr name) (snd p), Returned)) numbered.
Proof.
  induction numbered as [|p numbered IH]; [reflexivity|].
  cbn [flat_map map]. rewrite gatewayOutcomes_app, IH. reflexivity.
Qed.

(** C1.  A create run over [n >= 1] staged files that returns.  Its trace,
    event by event, is the progress at 0, the creation of the store, the
    progress at 1, then for each staged file in order the progress with the
    file's label and the file's upload, then the progress at [n + 1] with
    the registered message, and the clearing.  So [current] advances
    [n + 2] times, through 0, 1, ..., [n + 1], strictly increasing, and the
    last advancement, which is the last update before the clearing, is the
    one with the registered message.  The label update of the first file
    sets 1 once more, with no call since the update that set it, and is no
    advancement. *)
Theorem create_progress_sequence (fuel : nat) (w : World R) :
  files (app w) <> [] ->
  let n := length (files (app w)) in
  let friendlyName := friendlyNameOf (sessionLabel (backend w)) (files (app w)) in
  let registered :=
    {| current := n + 1; total := Some (n + 2);
       message := Some "Registered! updating library..."; fileName := Some "" |} in
  let o := handleUploadAndStartChat fuel w in
  let updates := progressUpdates (emitted o) in
  let advanced := advancements None updates in
  res o = Ok tt ->
  length advanced = n + 2 /\
  map current advanced = seq 0 (n + 2) /\
  StronglySorted lt (map current advanced) /\
  (exists earlier, advanced = (earlier ++ [registered])%list) /\
  (exists before, updates = (before ++ [Some registered; None])%list) /\
  uploadProgress (app (world o)) = None /\
  exists id : string,
    emitted o =
      EvProgress (Some {| current := 0; total := Some (n + 2);
                          message := Some "Creating document index...";
                          fileName := None |})
      :: EvCall (CreateRagStore friendlyName) Returned
      :: EvProgress (Some {| current := 1; total := Some (n + 2);
                             message := Some "Generating embeddings...";
                             fileName := None |})
      :: (flat_map
            (fun p : nat * File =>
               [EvProgress
                  (Some {| current := fst p; total := Some (n + 2);
                           message := Some "Generating embeddings...";
                           fileName :=
                             Some (("(" ++ natStr (fst p) ++ "/" ++ natStr n
                                    ++ ") " ++ file_name (snd p))%string) |});
                EvCall (UploadToRagStore (JsStr id) (snd p)) Returned])
            (combine (seq 1 n) (files (app w)))
          ++ [EvProgress (Some registered); EvProgress None])%list.
Proof.
  intros Hfiles n friendlyName registered o updates advanced Hres.
  assert (Hkey : isApiKeySelected (app w) = true).
  { destruct (isApiKeySelected (app w)) eqn:Hkey; [reflexivity|].
    destruct (create_guard_run fuel w (or_introl Hkey)) as [_ Hg].
    destruct (Hg Hres) as [Hk _]. congruence. }
  pose proof (create_run fuel w Hkey Hfiles) as Hrun.
  cbv zeta in Hrun. fold n o in Hrun. destruct Hrun as [_ Hrun].
  destruct (createRagStore _ (backend w)) as [[id|e|] b1] eqn:Hcreate;
    [|destruct Hrun as [Hrun _]; congruence..].
  destruct Hrun as (evs & _ & _ & _ & Hrun). rewrite Hres in Hrun.
  destruct Hrun as (_ & _ & Happ).
  destruct (create_trace fuel w Hkey Hfiles Hcreate) as (done & stopped & Htrace & Hend).
  fold n friendlyName o in Htrace, Hend. rewrite Hres in Hend.
  destruct Hend as [-> ->]. fold n in Htrace.
  set (numbered := combine (seq 1 n) (files (app w))) in *.
  set (during := map (fun p => {| current := fst p; total := Some (n + 2);
                                  message := Some "Generating embeddings...";
                                  fileName := Some (uploadLabel n p) |}) numbered).
  assert (Hupdates : updates =
            (Some {| current := 0; total := Some (n + 2);
                     message := Some "Creating document index...";
                     fileName := None |}
             :: Some {| current := 1; total := Some (n + 2);
                        message := Some "Generating embeddings...";
                        fileName := None |}
             :: map Some during ++ [Some registered; None])%list).
  { unfold updates. rewrite Htrace.
    change (EvProgress ?p :: EvCall ?c ?r :: EvProgress ?q :: ?t)
      with ([EvProgress p; EvCall c r; EvProgress q] ++ t)%list.
    rewrite !progressUpdates_app, progressUpdates_uploadSteps.
    unfold during. rewrite map_map. reflexivity. }
  assert (Hcur : map current during = seq 1 n).
  { unfold during, numbered. rewrite map_map. cbn [current].
    change (fun x : nat * File => fst x) with (@fst nat File).
    rewrite map_fst_combine; [reflexivity|]. rewrite length_seq. reflexivity. }
  assert (Hlen : length during = n).
  { rewrite <- (length_map current), Hcur. apply length_seq. }
  assert (Hpos : n <> 0).
  { unfold n. intros Hzero. apply Hfiles. apply length_zero_iff_nil. exact Hzero. }
  destruct during as [|first later] eqn:Hduring; [cbn in Hlen; lia|].
  cbn [length] in Hlen. rewrite <- Hlen in Hcur.
  cbn [map length seq] in Hcur. injection Hcur as Hfirst Hlater.
  assert (Hadvanced : advanced =
            ({| current := 0; total := Some (n + 2);
                message := Some "Creating document index..."; fileName := None |}
             :: {| current := 1; total := Some (n + 2);
                   message := Some "Generating embeddings..."; fileName := None |}
             :: later ++ [registered])%list).
  { unfold advanced. rewrite Hupdates.
    cbn [advancements current map Datatypes.app].
    rewrite Hfirst. change (Nat.ltb 0 1) with true. change (Nat.ltb 1 1) with false.
    cbv iota.
    rewrite (advancements_rising later first registered);
      [reflexivity|rewrite Hfirst; exact Hlater|].
    rewrite Hfirst. cbn [current registered]. lia. }
  assert (Hvalues : map current advanced = seq 0 (n + 2)).
  { rewrite Hadvanced. cbn [map current]. rewrite map_app, Hlater.
    cbn [map current registered].
    replace (n + 2) with (S (S (length later + 1))) by lia.
    cbn [seq]. rewrite seq_app. cbn [seq]. do 3 f_equal. f_equal. lia. }
  repeat split.
  - rewrite <- (length_map current), Hvalues. apply length_seq.
  - exact Hvalues.
  - rewrite Hvalues. apply seq_increasing.
  - rewrite Hadvanced. eexists (_ :: _ :: later). reflexivity.
  - rewrite Hupdates. eexists (_ :: _ :: map Some (first :: later)).
    cbn [Datatypes.app map]. reflexivity.
  - rewrite Happ. reflexivity.
  - exists id. rewrite Htrace. reflexivity.
Qed.

(** C6.  A create run with a credential and a non-empty staging set in
    which every adapter call returns: the handler returns, the status is
    [Welcome], the staging set is empty, and the store under the id that the
    creation returned, with the derived display name, is the head of the
    cache, in front of the previous entries; the run has not called
    [listRagStores]. *)
Theorem create_success_inserts_first (fuel : nat) (w : World R) :
  isApiKeySelected (app w) = true ->
  files (app w) <> [] ->
  let friendlyName := friendlyNameOf (sessionLabel (backend w)) (files (app w)) in
  let o := handleUploadAndStartChat fuel w in
  forallb settledWell (emitted o) = true ->
  res o = Ok tt /\
  status (app (world o)) = Welcome /\
  files (app (world o)) = [] /\
  (exists (id : string) (b1 : Backend R),
      createRagStore friendlyName (backend w) = (Ok id, b1) /\
      existingStores (app (world o)) =
        {| store_name := JsStr id; store_displayName := JsStr friendlyName |}
        :: existingStores (app w)) /\
  ~ In ListRagStores (gatewayCalls (emitted o)).
Proof.
  intros Hkey Hfiles friendlyName o Hall.
  pose proof (create_run fuel w Hkey Hfiles) as Hrun.
  cbv zeta in Hrun. fold friendlyName o in Hrun.
  destruct Hrun as [_ Hrun].
  destruct (createRagStore friendlyName (backend w)) as [[id|e|] b1] eqn:Hcreate.
  - destruct Hrun as (evs & _ & Hok & Hcalls & Hrun).
    assert (Hres : res o = Ok tt).
    { apply Hok. destruct (res o) as [[]|e|].
      - destruct Hrun as (Hem & _). rewrite Hem in Hall. cbn in Hall.
        rewrite forallb_app in Hall. apply andb_prop in Hall. tauto.
      - destruct Hrun as (Hem & _). rewrite Hem in Hall. cbn in Hall.
        rewrite forallb_app in Hall. apply andb_prop in Hall. tauto.
      - rewrite Hrun in Hall. cbn in Hall. exact Hall. }
    rewrite Hres in Hrun. destruct Hrun as (Hem & _ & Happ).
    rewrite Happ. repeat split.
    + assumption.
    + exists id, b1. split; reflexivity.
    + rewrite Hem.
      change (EvProgress ?p :: EvCall ?c ?r :: EvProgress ?q :: ?t)
        with ([EvProgress p; EvCall c r; EvProgress q] ++ t)%list.
      rewrite !gatewayCalls_app. cbn. rewrite app_nil_r.
      intros [Heq|Hin]; [discriminate|].
      rewrite Forall_forall in Hcalls. destruct (Hcalls _ Hin) as [f Hf].
      discriminate.
  - destruct Hrun as (_ & Hem & _). rewrite Hem in Hall. discriminate.
  - destruct Hrun as (_ & Hem). rewrite Hem in Hall. discriminate.
Qed.

(** C2.  A create run in which an upload is rejected throws that upload's
    error, and leaves the staging set, the library cache and the active
    store as they were and the progress cleared; the status is [Error], or
    [Welcome] for an error that reads as a credential error. *)
Theorem failed_upload_aborts_create
    (fuel : nat) (w : World R) (s : JsValue) (f : File) (e : JsError) :
  let o := handleUploadAndStartChat fuel w in
  In (EvCall (UploadToRagStore s f) (Rejected e)) (emitted o) ->
  res o = Throw e /\
  files (app (world o)) = files (app w) /\
  existingStores (app (world o)) = existingStores (app w) /\
  activeRagStoreName (app (world o)) = activeRagStoreName (app w) /\
  uploadProgress (app (world o)) = None /\
  status (app (world o)) = (if isCredentialError e then Welcome else Error).
Proof.
  intros o Hin.
  destruct (isApiKeySelected (app w)) eqn:Hkey.
  2: { destruct (create_guard_run fuel w (or_introl Hkey)) as [Hem _].
       fold o in Hem. rewrite Hem in Hin. destruct Hin. }
  destruct (files (app w)) as [|f0 fs] eqn:Hfs.
  { destruct (create_guard_run fuel w (or_intror Hfs)) as [Hem _].
    fold o in Hem. rewrite Hem in Hin. destruct Hin. }
  assert (Hfiles : files (app w) <> []) by (rewrite Hfs; discriminate).
  rewrite <- Hfs.
  pose proof (create_run fuel w Hkey Hfiles) as Hrun.
  cbv zeta in Hrun. fold o in Hrun.
  destruct Hrun as [_ Hrun].
  destruct (createRagStore _ (backend w)) as [[id|e0|] b1].
  - destruct Hrun as (evs & Hrej & _ & _ & Hrun).
    assert (Hevs : In (EvCall (UploadToRagStore s f) (Rejected e)) evs).
    { destruct (res o) as [[]|e0|].
      - destruct Hrun as (Hem & _). rewrite Hem in Hin.
        destruct Hin as [Heq|[Heq|[Heq|Hin]]]; try discriminate.
        apply in_app_or in Hin. destruct Hin as [Hin|Hin]; [assumption|].
        destruct Hin as [Heq|[Heq|[]]]; discriminate.
      - destruct Hrun as (Hem & _). rewrite Hem in Hin.
        destruct Hin as [Heq|[Heq|[Heq|Hin]]]; try discriminate.
        apply in_app_or in Hin. destruct Hin as [Hin|Hin]; [assumption|].
        destruct Hin as [Heq|[]]; discriminate.
      - rewrite Hrun in Hin.
        destruct Hin as [Heq|[Heq|[Heq|Hin]]]; try discriminate.
        assumption. }
    pose proof (Hrej _ _ _ Hevs) as Hres. rewrite Hres in Hrun.
    destruct Hrun as (_ & Happ). rewrite Happ. unfold afterFailedCreate.
    destruct (isCredentialError e); repeat split; assumption.
  - destruct Hrun as (_ & Hem & _). rewrite Hem in Hin.
    destruct Hin as [Heq|[Heq|[Heq|[]]]]; discriminate.
  - destruct Hrun as (_ & Hem). rewrite Hem in Hin.
    destruct Hin as [Heq|[Heq|[]]]; discriminate.
Qed.

End CreateStoreProperties.

(* ===================================================================== *)
(** ** Concrete runs *)
(* ===================================================================== *)

(** The refresh on the scripted remote, which lists [store/7]. *)
Example refresh_replaces_cache :
  existingStores
    (app (world (loadExistingStores Welcome emptyStagingWorld))) = [washer].
Proof. reflexivity. Qed.

(** The setter calls of the run over one file carry 0, 1, 1, 2: the
    second 1 is the label update of the file, which follows the first with
    no call in between, so that the value advances three times, through
    0, 1, 2. *)
Example create_updates_one_file :
  currentValues (emitted (handleUploadAndStartChat 5 oneFileWorld)) = [0; 1; 1; 2] /\
  map current
      (advancements None
         (progressUpdates (emitted (handleUploadAndStartChat 5 oneFileWorld)))) =
    [0; 1; 2].
Proof. split; reflexivity. Qed.

(** The run over [manual.pdf] and [guide.txt]: four advancements, and the
    trace. *)
Lemma create_progress_sequence_witness :
  files (app twoFilesWorld) <> [] /\
  res (handleUploadAndStartChat 5 twoFilesWorld) = Ok tt /\
  length (advancements None
            (progressUpdates (emitted (handleUploadAndStartChat 5 twoFilesWorld)))) =
    4 /\
  map current
      (advancements None
         (progressUpdates (emitted (handleUploadAndStartChat 5 twoFilesWorld)))) =
    [0; 1; 2; 3] /\
  exists id : string,
    emitted (handleUploadAndStartChat 5 twoFilesWorld) =
      [EvProgress (Some {| current := 0; total := Some 4;
                           message := Some "Creating document index...";
                           fileName := None |});
       EvCall (CreateRagStore "manual.pdf + 1 others") Returned;
       EvProgress (Some {| current := 1; total := Some 4;
                           message := Some "Generating embeddings...";
                           fileName := None |});
       EvProgress (Some {| current := 1; total := Some 4;
                           message := Some "Generating embeddings...";
                           fileName := Some "(1/2) manual.pdf" |});
       EvCall (UploadToRagStore (JsStr id) manual) Returned;
       EvProgress (Some {| current := 2; total := Some 4;
                           message := Some "Generating embeddings...";
                           fileName := Some "(2/2) guide.txt" |});
       EvCall (UploadToRagStore (JsStr id) guide) Returned;
       EvProgress (Some {| current := 3; total := Some 4;
                           message := Some "Registered! updating library...";
                           fileName := Some "" |});
       EvProgress None].
Proof.
  assert (Hfiles : files (app twoFilesWorld) <> []) by discriminate.
  split; [exact Hfiles|]. split; [reflexivity|].
  pose proof (@create_progress_sequence Script ScriptHost 5 twoFilesWorld
                Hfiles eq_refl) as Hrun.
  cbv zeta in Hrun.
  destruct Hrun as (Hlen & Hvalues & _ & _ & _ & _ & Htrace).
  split; [exact Hlen|]. split; [exact Hvalues|]. exact Htrace.
Defined.

(** The second of two uploads is rejected. *)
Lemma failed_upload_aborts_create_witness :
  In (EvCall (UploadToRagStore (JsStr "store/42") guide)
             (Rejected (ErrorObj "quota exceeded")))
     (emitted (handleUploadAndStartChat 5 secondUploadFailsWorld)) /\
  res (handleUploadAndStartChat 5 secondUploadFailsWorld) =
    Throw (ErrorObj "quota exceeded") /\
  files (app (world (handleUploadAndStartChat 5 secondUploadFailsWorld))) =
    [manual; guide] /\
  existingStores (app (world (handleUploadAndStartChat 5 secondUploadFailsWorld))) =
    [washer] /\
  activeRagStoreName (app (world (handleUploadAndStartChat 5 secondUploadFailsWorld))) =
    JsNull /\
  uploadProgress (app (world (handleUploadAndStartChat 5 secondUploadFailsWorld))) =
    None /\
  status (app (world (handleUploadAndStartChat 5 secondUploadFailsWorld))) = Error.
Proof.
  assert (Hin : In (EvCall (UploadToRagStore (JsStr "store/42") guide)
                           (Rejected (ErrorObj "quota exceeded")))
                   (emitted (handleUploadAndStartChat 5 secondUploadFailsWorld))).
  { vm_compute. repeat (try (left; reflexivity); right). }
  split; [exact Hin|].
  exact (@failed_upload_aborts_create Script ScriptHost 5 secondUploadFailsWorld
           _ _ _ Hin).
Defined.

(** C3, as stated, fails when the remote delete is rejected: nothing was
    removed, so the store is in the cache after the run, and no refresh has
    been started that could have put it back. *)
Lemma delete_store_counterexample :
  emitted (executeDelete deleteFailsWorld) =
    [EvCall (DeleteRagStore (JsStr "store/7"))
            (Rejected (ErrorObj "permission denied"));
     EvAlert "Failed to delete the document set."] /\
  existingStores (app deleteFailsWorld) = [washer] /\
  In washer (existingStores (app (world (executeDelete deleteFailsWorld)))).
Proof.
  repeat split; try reflexivity. left. reflexivity.
Qed.

(** A confirmed deletion that the remote accepts, followed by a refresh
    that lists no store. *)
Lemma delete_store_calls_remote_first_witness :
  confirm_type (confirmState (screen deleteWorksWorld)) = store /\
  res (executeDelete deleteWorksWorld) = Ok tt /\
  gatewayCalls (emitted (executeDelete deleteWorksWorld)) =
    [DeleteRagStore (JsStr "store/7"); ListRagStores] /\
  existingStores (app (world (executeDelete deleteWorksWorld))) = [].
Proof.
  split; [reflexivity|].
  exact (@delete_store_calls_remote_first Script ScriptHost deleteWorksWorld
           eq_refl).
Defined.

(** C4, as stated, fails on an empty staging set with a credential: the
    handler returns normally and raises no error of any kind. *)
Lemma create_guard_counterexample :
  isApiKeySelected (app emptyStagingWorld) = true /\
  files (app emptyStagingWorld) = [] /\
  res (handleUploadAndStartChat 5 emptyStagingWorld) = Ok tt /\
  apiKeyError (app (world (handleUploadAndStartChat 5 emptyStagingWorld))) = None /\
  error (app (world (handleUploadAndStartChat 5 emptyStagingWorld))) = None.
Proof. repeat split. Qed.

(** The create handler without a credential. *)
Lemma create_guard_leaves_state_witness :
  isApiKeySelected (app noCredentialWorld) = false /\
  emitted (handleUploadAndStartChat 5 noCredentialWorld) = [] /\
  backend (world (handleUploadAndStartChat 5 noCredentialWorld)) =
    backend noCredentialWorld /\
  screen (world (handleUploadAndStartChat 5 noCredentialWorld)) =
    screen noCredentialWorld /\
  status (app (world (handleUploadAndStartChat 5 noCredentialWorld))) = Welcome /\
  files (app (world (handleUploadAndStartChat 5 noCredentialWorld))) = [manual] /\
  existingStores (app (world (handleUploadAndStartChat 5 noCredentialWorld))) =
    [washer] /\
  res (handleUploadAndStartChat 5 noCredentialWorld) =
    Throw (ErrorObj "API Key is required.") /\
  app (world (handleUploadAndStartChat 5 noCredentialWorld)) =
    with_apiKeyError (Some "Please select your Gemini API Key first.")
                     (app noCredentialWorld).
Proof.
  split; [reflexivity|].
  exact (@create_guard_leaves_state Script ScriptHost 5 noCredentialWorld
           (or_introl eq_refl)).
Defined.

(** A send that the remote answers. *)
Lemma send_appends_two_messages_witness :
  truthy (activeRagStoreName (app chatWorld)) = true /\
  res (handleSendMessage "How do I reset it?" chatWorld) = Ok tt /\
  chatHistory (app (world (handleSendMessage "How do I reset it?" chatWorld))) =
    [ {| role := user; parts := ["Where is the filter?"]; groundingChunks := None |};
      {| role := user; parts := ["How do I reset it?"]; groundingChunks := None |};
      {| role := model; parts := ["It is on page 3."];
         groundingChunks := Some [] |} ] /\
  length (chatHistory (app (world (handleSendMessage "How do I reset it?" chatWorld)))) =
    3 /\
  status (app (world (handleSendMessage "How do I reset it?" chatWorld))) = Chatting /\
  isQueryLoading (app (world (handleSendMessage "How do I reset it?" chatWorld))) =
    false.
Proof.
  split; [reflexivity|].
  exact (@send_appends_two_messages Script ScriptHost "How do I reset it?"
           chatWorld eq_refl).
Defined.

(** The end-to-end scenario of the specification: [manual.pdf] is staged
    and the remote names the store [store/42]. *)
Lemma create_success_inserts_first_witness :
  isApiKeySelected (app oneFileWorld) = true /\
  files (app oneFileWorld) <> [] /\
  forallb settledWell (emitted (handleUploadAndStartChat 5 oneFileWorld)) = true /\
  res (handleUploadAndStartChat 5 oneFileWorld) = Ok tt /\
  status (app (world (handleUploadAndStartChat 5 oneFileWorld))) = Welcome /\
  files (app (world (handleUploadAndStartChat 5 oneFileWorld))) = [] /\
  (exists (id : string) (b1 : Backend Script),
      createRagStore "manual.pdf" (backend oneFileWorld) = (Ok id, b1) /\
      existingStores (app (world (handleUploadAndStartChat 5 oneFileWorld))) =
        {| store_name := JsStr id; store_displayName := JsStr "manual.pdf" |}
        :: [washer]) /\
  ~ In ListRagStores (gatewayCalls (emitted (handleUploadAndStartChat 5 oneFileWorld))).
Proof.
  split; [reflexivity|]. split; [discriminate|]. split; [reflexivity|].
  refine (@create_success_inserts_first Script ScriptHost 5 oneFileWorld
            eq_refl _ eq_refl).
  discriminate.
Defined.

(** The store of the end-to-end scenario is at position 0. *)
Example create_success_end_to_end :
  nth_error (existingStores (app (world (handleUploadAndStartChat 5 oneFileWorld)))) 0 =
    Some {| store_name := JsStr "store/42"; store_displayName := JsStr "manual.pdf" |}.
Proof. reflexivity. Qed.

(** C7, as stated, fails on a send that the remote rejects: the session
    goes from [Chatting] to [Error] and the history is not reset, it holds
    the earlier message, the user message and the apology. *)
Lemma chat_history_counterexample :
  step chatFailsWorld (DoSendMessage "How do I reset it?")
       (world (perform (DoSendMessage "How do I reset it?") chatFailsWorld)) /\
  status (app chatFailsWorld) = Chatting /\
  status (app (world (perform (DoSendMessage "How do I reset it?") chatFailsWorld))) =
    Error /\
  chatHistory (app (world (perform (DoSendMessage "How do I reset it?") chatFailsWorld))) =
    [question; userMessage "How do I reset it?"; errorMessage] /\
  chatHistory (app (world (perform (DoSendMessage "How do I reset it?") chatFailsWorld)))
    <> [].
Proof.
  repeat split; try reflexivity. discriminate.
Qed.

(** Ending a chat. *)
Lemma chat_history_across_steps_witness :
  step chatWorld DoNewChat (world (perform DoNewChat chatWorld)) /\
  (status (app chatWorld) = Chatting ->
     (status (app (world (perform DoNewChat chatWorld))) = Chatting /\
      exists suffix,
        chatHistory (app (world (perform DoNewChat chatWorld))) =
          (chatHistory (app chatWorld) ++ suffix)%list) \/
     (DoNewChat = DoNewChat /\
      status (app (world (perform DoNewChat chatWorld))) = Welcome /\
      chatHistory (app (world (perform DoNewChat chatWorld))) = []) \/
     (DoNewChat = DoFocus /\
      status (app (world (perform DoNewChat chatWorld))) = Welcome /\
      chatHistory (app (world (perform DoNewChat chatWorld))) =
        chatHistory (app chatWorld)) \/
     (status (app (world (perform DoNewChat chatWorld))) = Error /\
      exists text,
        DoNewChat = DoSendMessage text /\
        chatHistory (app (world (perform DoNewChat chatWorld))) =
          (chatHistory (app chatWorld) ++ [userMessage text; errorMessage])%list)) /\
  (status (app chatWorld) = Error ->
     chatHistory (app (world (perform DoNewChat chatWorld))) =
       chatHistory (app chatWorld) /\
     (DoNewChat = DoTryAgain ->
      status (app (world (perform DoNewChat chatWorld))) = Welcome)).
Proof.
  assert (Hstep : step chatWorld DoNewChat (world (perform DoNewChat chatWorld))).
  { split; reflexivity. }
  split; [exact Hstep|].
  exact (@chat_history_across_steps Script ScriptHost chatWorld DoNewChat _ Hstep).
Defined.

(** A focus event that finds the credential gone leaves the chat for the
    welcome screen with the history in place. *)
Example focus_without_credential_keeps_history :
  status (app (world (perform DoFocus
     {| app := app chatWorld; screen := screen chatWorld;
        backend := {| ai := None; API_KEY := Some "k";
                      remote := with_on_hasSelectedApiKey (Ok false) (happyScript 0) |} |})))
    = Welcome /\
  chatHistory (app (world (perform DoFocus
     {| app := app chatWorld; screen := screen chatWorld;
        backend := {| ai := None; API_KEY := Some "k";
                      remote := with_on_hasSelectedApiKey (Ok false) (happyScript 0) |} |})))
    = [question].
Proof. split; reflexivity. Qed.

(** Selecting [store/7] with no client and no key to build one from. *)
Lemma failed_selection_keeps_store_active_witness :
  generateExampleQuestions (store_name washer) (backend noKeyWorld) =
    (Throw (ErrorObj "Gemini AI client not initialized. Please wait for the API key to load."),
     backend noKeyWorld) /\
  res (handleSelectExistingStore washer noKeyWorld) = Ok tt /\
  status (app (world (handleSelectExistingStore washer noKeyWorld))) = Error /\
  activeRagStoreName (app (world (handleSelectExistingStore washer noKeyWorld))) =
    JsStr "store/7" /\
  status (app (world (clearError (world (handleSelectExistingStore washer noKeyWorld))))) =
    Welcome /\
  activeRagStoreName
    (app (world (clearError (world (handleSelectExistingStore washer noKeyWorld))))) =
    JsStr "store/7".
Proof.
  split; [reflexivity|].
  exact (@failed_selection_keeps_store_active Script ScriptHost washer noKeyWorld
           _ _ eq_refl).
Defined.

(* ===================================================================== *)
(** ** More on the adapter *)
(* ===================================================================== *)

Lemma firstArrayKey_sound (response : JsValue) (keys : list string) :
  firstArrayKey response keys = [] \/
  exists key ref, prop response key = JsArr ref (firstArrayKey response keys).
Proof.
  induction keys as [|key keys IH]; [left; reflexivity|].
  cbn [firstArrayKey].
  destruct (prop response key) as [| | | | |ref items|] eqn:Hkey; try exact IH.
  right. exists key, ref. exact Hkey.
Qed.

(** X1.  [findArrayInResponse] never invents a list: what it returns is
    empty, or the response itself when that is an array, or the array held
    by one of the response's properties. *)
Theorem findArrayInResponse_sound (response : JsValue) :
  findArrayInResponse response = [] \/
  (exists ref, response = JsArr ref (findArrayInResponse response)) \/
  (exists key ref, prop response key = JsArr ref (findArrayInResponse response)).
Proof.
  unfold findArrayInResponse.
  destruct (truthy response); cbn [negb]; [|left; reflexivity].
  destruct response as [| | | | |ref items|ref props];
    try (left; reflexivity).
  - right; left. exists ref. reflexivity.
  - destruct (prop (JsObj ref props) "fileSearchStores")
      as [| | | | |r1 xs1|] eqn:H1;
      try (right; right; exists "fileSearchStores", r1; exact H1);
    destruct (prop (JsObj ref props) "file_search_stores")
      as [| | | | |r2 xs2|] eqn:H2;
      try (right; right; exists "file_search_stores", r2; exact H2);
    destruct (prop (JsObj ref props) "files")
      as [| | | | |r3 xs3|] eqn:H3;
      try (right; right; exists "files", r3; exact H3);
    (destruct (firstArrayKey_sound (JsObj ref props) (map fst props))
       as [Hnone|Hsome]; [left; exact Hnone | right; right; exact Hsome]).
Qed.





Lemma jsOr_truthy (a b : JsValue) : truthy b = true -> truthy (jsOr a b) = true.
Proof. intros Hb. unfold jsOr. destruct (truthy a) eqn:Ha; assumption. Qed.

Section AdapterMore.
Context {R : Type} {host : Host R}.

(** X3.  [listRagStores] returns one store per entry of the array found in
    the response, in order, with the entry's [name] and a display name that
    is never blank: the entry's [displayName], else its [display_name], else
    ["Untitled Store"]. *)
Theorem listRagStores_entries (b b' : Backend R) (stores : list RagStore) :
  listRagStores b = (Ok stores, b') ->
  exists (c : Client) (response : JsValue) (r' : R),
    sdk_list c 100 (remote b) = (Ok response, r') /\
    Forall2 (fun entry s =>
               store_name s = prop entry "name" /\
               truthy (store_displayName s) = true /\
               (truthy (prop entry "displayName") = true ->
                store_displayName s = prop entry "displayName"))
            (findArrayInResponse response) stores.
Proof.
  unfold listRagStores. cbn [bind Monad_ST]. unfold bindST at 1.
  pose proof (ensureInitialized_remote b) as Hrem.
  destruct (ensureInitialized b) as [[[]| |] b1]; try discriminate.
  cbn [snd] in Hrem. unfold bindST, withClient.
  destruct (ai b1) as [c|]; try discriminate.
  rewrite Hrem.
  destruct (sdk_list c 100 (remote b)) as [[response| |] r'] eqn:Hsdk;
    try discriminate.
  unfold liftRes. intros H.
  destruct (mapRes toRagStore (findArrayInResponse response)) as [ss| |] eqn:Hmap;
    try discriminate.
  injection H as -> _.
  exists c, response, r'. split; [exact Hsdk|].
  apply mapRes_Forall2 in Hmap.
  induction Hmap as [|entry s entries ss Hs _ IH]; constructor; auto.
  unfold toRagStore in Hs. destruct (isNullish entry); [discriminate|].
  injection Hs as <-. cbn [store_name store_displayName]. repeat split.
  - apply jsOr_truthy, jsOr_truthy. reflexivity.
  - intros Hname. unfold jsOr at 1. rewrite Hname. reflexivity.
Qed.

Lemma mapRes_toRagStore_nullish (entries : list JsValue) :
  Exists (fun v => isNullish v = true) entries ->
  exists e, mapRes toRagStore entries = Throw e.
Proof.
  induction entries as [|v entries IH]; intros Hex; [inversion Hex|].
  cbn [mapRes]. unfold toRagStore at 1.
  destruct (isNullish v) eqn:Hv; [eexists; reflexivity|].
  inversion Hex as [? ? Hhead|? ? Htail]; subst; [congruence|].
  destruct (IH Htail) as [e He]. rewrite He. eexists; reflexivity.
Qed.

(** X4.  One [null] or [undefined] entry in the listed array makes the whole
    listing reject: the other entries are not returned. *)
Theorem listRagStores_rejects_null_entry
    (b : Backend R) (c : Client) (response : JsValue) (r' : R) :
  ai b = Some c ->
  sdk_list c 100 (remote b) = (Ok response, r') ->
  Exists (fun v => isNullish v = true) (findArrayInResponse response) ->
  exists e, listRagStores b = (Throw e, set_remote r' b).
Proof.
  intros Hai Hsdk Hnull.
  destruct (mapRes_toRagStore_nullish Hnull) as [e He].
  exists e. unfold listRagStores. cbn [bind Monad_ST].
  unfold bindST, ensureInitialized. rewrite Hai.
  unfold withClient. rewrite Hai, Hsdk. unfold liftRes. rewrite He.
  reflexivity.
Qed.

(** X5.  A name that [createRagStore] returns is never empty, and is the
    name the SDK gave to the store it created under the requested display
    name; a store created without a name is a rejection. *)
Theorem createRagStore_name (displayName : string) (b b' : Backend R)
    (name : string) :
  createRagStore displayName b = (Ok name, b') ->
  name <> "" /\
  exists (c : Client) (r' : R),
    sdk_create c displayName (remote b) = (Ok (Some name), r') /\
    ai b' = Some c /\ remote b' = r'.
Proof.
  unfold createRagStore. cbn [bind Monad_ST]. unfold bindST at 1.
  pose proof (ensureInitialized_remote b) as Hrem.
  destruct (ensureInitialized b) as [[[]| |] b1]; try discriminate.
  cbn [snd] in Hrem. unfold bindST, withClient.
  destruct (ai b1) as [c|] eqn:Hai; try discriminate.
  rewrite Hrem.
  destruct (sdk_create c displayName (remote b)) as [[[n|]| |] r'] eqn:Hsdk;
    try discriminate.
  destruct (String.eqb_spec n "") as [->|Hn]; cbn [negb]; try discriminate.
  intros H. injection H as -> <-.
  split; [exact Hn|]. exists c, r'. cbn. auto.
Qed.

(** X6.  Without a client and without a key to build one from, every
    function of the adapter rejects with the same error before it reaches
    the SDK: the remote is left as it was. *)
Theorem adapter_rejects_without_client
    (b : Backend R) (fuel : nat) (name : JsValue) (text : string) (f : File) :
  ai b = None ->
  API_KEY b = None \/ API_KEY b = Some "" ->
  let notInitialized : JsError :=
    ErrorObj "Gemini AI client not initialized. Please wait for the API key to load." in
  createRagStore text b = (Throw notInitialized, b) /\
  listRagStores b = (Throw notInitialized, b) /\
  listDocuments name b = (Throw notInitialized, b) /\
  uploadToRagStore fuel name f b = (Throw notInitialized, b) /\
  deleteFile name b = (Throw notInitialized, b) /\
  fileSearch name text b = (Throw notInitialized, b) /\
  generateExampleQuestions name b = (Throw notInitialized, b) /\
  deleteRagStore name b = (Throw notInitialized, b).
Proof.
  intros Hai Hkey notInitialized.
  assert (Hinit : ensureInitialized b = (Throw notInitialized, b)).
  { unfold ensureInitialized, initialize. rewrite Hai.
    destruct Hkey as [Hkey|Hkey]; rewrite Hkey; cbn; rewrite Hai;
      destruct b; reflexivity. }
  unfold createRagStore, listRagStores, listDocuments, uploadToRagStore,
    deleteFile, fileSearch, generateExampleQuestions, deleteRagStore.
  cbn [bind Monad_ST]. unfold bindST. rewrite Hinit. repeat split.
Qed.

(** X7.  [initialize] rebuilds the client from the key of the environment
    whenever there is one, whatever client there was; [ensureInitialized]
    keeps a client that is there, and builds one only when there is none. *)
Theorem initialize_rebuilds_ensureInitialized_keeps
    (b : Backend R) (key : string) :
  API_KEY b = Some key ->
  key <> "" ->
  initialize b = (Ok tt, set_ai (Some {| apiKey := key |}) b) /\
  (forall c, ai b = Some c -> ensureInitialized b = (Ok tt, b)) /\
  (ai b = None ->
   ensureInitialized b = (Ok tt, set_ai (Some {| apiKey := key |}) b)).
Proof.
  intros Hkey Hne.
  assert (Hinit : initialize b = (Ok tt, set_ai (Some {| apiKey := key |}) b)).
  { unfold initialize. rewrite Hkey.
    destruct (String.eqb_spec key ""); [contradiction|reflexivity]. }
  split; [exact Hinit|]. split.
  - intros c Hc. unfold ensureInitialized. rewrite Hc. reflexivity.
  - intros Hnone. unfold ensureInitialized. rewrite Hnone, Hinit. reflexivity.
Qed.

(** X8.  An answer that [fileSearch] returns is never the empty text, and
    comes from one request: the query with the fixed instruction appended,
    against the one store given; absent grounding reads as no citation. *)
Theorem fileSearch_answer
    (ragStoreName : JsValue) (query : string) (b b' : Backend R)
    (result : QueryResult) :
  fileSearch ragStoreName query b = (Ok result, b') ->
  qr_text result <> "" /\
  exists (c : Client) (response : GenResponse) (r' : R),
    sdk_generateContent c
      {| req_model := "gemini-2.5-flash";
         req_contents := query ++ "DO NOT ASK THE USER TO READ THE MANUAL, pinpoint the relevant sections in the response itself.";
         req_fileSearchStoreNames := [ragStoreName];
         req_jsonSchema := false |} (remote b) = (Ok response, r') /\
    remote b' = r' /\
    (resp_groundingChunks response = None -> qr_groundingChunks result = []) /\
    (forall t, resp_text response = Some t -> t <> "" -> qr_text result = t).
Proof.
  unfold fileSearch. cbn [bind ret Monad_ST]. unfold bindST at 1.
  pose proof (ensureInitialized_remote b) as Hrem.
  destruct (ensureInitialized b) as [[[]| |] b1]; try discriminate.
  cbn [snd] in Hrem. unfold bindST, withClient, retST.
  destruct (ai b1) as [c|]; try discriminate.
  rewrite Hrem.
  match goal with
  | |- context [sdk_generateContent c ?req (remote b)] =>
      destruct (sdk_generateContent c req (remote b)) as [[response| |] r'] eqn:Hsdk
  end; try discriminate.
  intros [= <- <-]. cbn [qr_text qr_groundingChunks]. split.
  - destruct (resp_text response) as [t|]; [|discriminate].
    destruct (String.eqb_spec t ""); [discriminate|assumption].
  - exists c, response, r'. split; [exact Hsdk|]. split; [reflexivity|]. split.
    + intros ->. reflexivity.
    + intros t -> Ht. destruct (String.eqb_spec t ""); [contradiction|reflexivity].
Qed.

Lemma mapRes_questionsOf_settles (items : list JsValue) :
  mapRes questionsOf items <> Diverge.
Proof.
  induction items as [|item items IH]; [discriminate|].
  cbn [mapRes]. unfold questionsOf at 1, getProp.
  destruct (isNullish item); [discriminate|].
  destruct (jsOr (prop item "questions") (JsArr 0 []));
    destruct (mapRes questionsOf items); congruence.
Qed.

(** X9.  With a client, [generateExampleQuestions] never rejects: a request
    that the SDK rejects, and an answer that is not JSON, both give the empty
    list. *)
Theorem generateExampleQuestions_best_effort
    (ragStoreName : JsValue) (b : Backend R) (c : Client) :
  ai b = Some c ->
  match sdk_generateContent c
          {| req_model := "gemini-2.5-flash";
             req_contents := "Analyze the provided documents to identify the main product or topic. Then generate 4 short, practical questions a user might ask about it. If you cannot identify a specific product, generate generic questions about the document content.";
             req_fileSearchStoreNames := [ragStoreName];
             req_jsonSchema := true |} (remote b) with
  | (Ok response, r') =>
      exists questions,
        generateExampleQuestions ragStoreName b = (Ok questions, set_remote r' b) /\
        (JSON_parse (match resp_text response with
                     | Some t => if String.eqb t "" then "[]" else t
                     | None => "[]"
                     end) = None -> questions = [])
  | (Throw _, r') =>
      generateExampleQuestions ragStoreName b = (Ok [], set_remote r' b)
  | (Diverge, r') =>
      generateExampleQuestions ragStoreName b = (Diverge, set_remote r' b)
  end.
Proof.
  intros Hai.
  match goal with
  | |- context [sdk_generateContent c ?req (remote b)] =>
      destruct (sdk_generateContent c req (remote b)) as [[response| |] r'] eqn:Hsdk
  end;
    unfold generateExampleQuestions; cbn [bind ret Monad_ST];
    unfold bindST at 1; unfold ensureInitialized; rewrite Hai;
    unfold tryCatchST, bindST, withClient, retST, liftRes; rewrite Hai, Hsdk;
    try reflexivity.
  destruct (JSON_parse _) as [[| | | | |ref parsedData|]|];
    try (eexists; split; [reflexivity|]; intros; try reflexivity; discriminate).
  pose proof (mapRes_questionsOf_settles parsedData) as Hsettles.
  destruct (mapRes questionsOf parsedData) as [items| |];
    [| |contradiction]; eexists; (split; [reflexivity|discriminate]).
Qed.

End AdapterMore.

(* ===================================================================== *)
(** ** More on the controller *)
(* ===================================================================== *)

Section ControllerMore.
Context {R : Type} {host : Host R}.

(** X10.  Ending a chat never throws; it clears the active store, the
    history, the questions, the document name and the staging set, goes to
    [Welcome], and its only call of the adapter is the refresh: the store is
    not deleted. *)
Theorem handleEndChat_resets (w : World R) :
  let o := handleEndChat w in
  res o = Ok tt /\
  activeRagStoreName (app (world o)) = JsNull /\
  chatHistory (app (world o)) = [] /\
  exampleQuestions (app (world o)) = [] /\
  documentName (app (world o)) = JsStr "" /\
  files (app (world o)) = [] /\
  status (app (world o)) = Welcome /\
  gatewayCalls (emitted o) = [ListRagStores] /\
  screen (world o) = screen w.
Proof.
  unfold handleEndChat, loadExistingStores. run_unfold.
  destruct (listRagStores (backend w)) as [[stores|e|] b1]; cbn;
    destruct (AppStatus_eqb (status (app w)) Initializing); cbn; auto 10.
Qed.

(** X11.  Without an active store (a [null] or an empty name) a send does
    nothing at all: the world is unchanged and the adapter is not called. *)
Theorem handleSendMessage_without_store (text : string) (w : World R) :
  truthy (activeRagStoreName (app w)) = false ->
  handleSendMessage text w = {| res := Ok tt; world := w; emitted := [] |}.
Proof.
  intros Hnone. unfold handleSendMessage. run_unfold. rewrite Hnone.
  reflexivity.
Qed.

(** X12.  With an active store a send makes exactly one call, the search of
    that store for the text as typed, and touches nothing of the session but
    the history, the in-flight flag and, on failure, the error and the
    status: the active store, the library and the staging set stay. *)
Theorem handleSendMessage_one_search (text : string) (w : World R) :
  truthy (activeRagStoreName (app w)) = true ->
  let o := handleSendMessage text w in
  emitted o =
    [EvCall (FileSearch (activeRagStoreName (app w)) text)
            (outcomeOf (fst (fileSearch (activeRagStoreName (app w)) text
                                        (backend w))))] /\
  backend (world o) =
    snd (fileSearch (activeRagStoreName (app w)) text (backend w)) /\
  screen (world o) = screen w /\
  activeRagStoreName (app (world o)) = activeRagStoreName (app w) /\
  existingStores (app (world o)) = existingStores (app w) /\
  files (app (world o)) = files (app w) /\
  exampleQuestions (app (world o)) = exampleQuestions (app w) /\
  isApiKeySelected (app (world o)) = isApiKeySelected (app w).
Proof.
  intros Hactive. unfold handleSendMessage, handleError. run_unfold.
  rewrite Hactive. cbn.
  destruct (fileSearch (activeRagStoreName (app w)) text (backend w))
    as [[result|e|] b1]; cbn; auto 10.
Qed.

(** X13.  A selection whose question fetch returns enters [Chatting] on the
    selected store with the fetched questions, an empty history and the
    progress cleared, having shown the loading progress once. *)
Theorem handleSelectExistingStore_enters_chat
    (s : RagStore) (w : World R) (questions : list string) (b' : Backend R) :
  generateExampleQuestions (store_name s) (backend w) = (Ok questions, b') ->
  let o := handleSelectExistingStore s w in
  res o = Ok tt /\
  status (app (world o)) = Chatting /\
  activeRagStoreName (app (world o)) = store_name s /\
  documentName (app (world o)) = store_displayName s /\
  exampleQuestions (app (world o)) = questions /\
  chatHistory (app (world o)) = [] /\
  uploadProgress (app (world o)) = None /\
  apiKeyError (app (world o)) = None /\
  emitted o =
    [EvProgress (Some {| current := 1; total := Some 1;
                         message := Some "Loading existing session...";
                         fileName := None |});
     EvCall (GenerateExampleQuestions (store_name s)) Returned;
     EvProgress None] /\
  existingStores (app (world o)) = existingStores (app w) /\
  files (app (world o)) = files (app w).
Proof.
  intros Hq. unfold handleSelectExistingStore. run_unfold. rewrite Hq.
  cbn. auto 12.
Qed.

(** X17.  A refresh makes exactly one listing call, and besides the cache,
    the library error and the status it changes only the loading flag,
    which is off once the refresh has settled and on while it has not. *)
Theorem loadExistingStores_frame (captured : AppStatus) (w : World R) :
  let o := loadExistingStores captured w in
  emitted o = [EvCall ListRagStores (outcomeOf (fst (listRagStores (backend w))))] /\
  screen (world o) = screen w /\
  isLoadingStores (app (world o)) =
    match res o with Diverge => true | _ => false end /\
  app (world o) =
    with_status (status (app (world o)))
      (with_existingStores (existingStores (app (world o)))
         (with_libraryError (libraryError (app (world o)))
            (with_isLoadingStores (isLoadingStores (app (world o))) (app w)))).
Proof.
  unfold loadExistingStores. run_unfold.
  destruct (listRagStores (backend w)) as [[stores|e|] b1]; cbn;
    destruct (AppStatus_eqb captured Initializing); cbn;
    destruct w as [[] ? ?]; cbn; auto.
Qed.

End ControllerMore.

Section CreateMore.
Context {R : Type} {host : Host R}.

(** The calls of the upload loop are the uploads of a prefix of its files,
    in order; the prefix is all of them when the loop returns, and a loop
    that has not settled has a progress object showing. *)
Lemma uploadEach_calls (fuel : nat) (name : string) (n : nat) (rest : list File) :
  forall (i : nat) (w : World R),
    let o := uploadEach fuel name n rest i w in
    (exists k,
        k <= length rest /\
        (rest <> [] -> 1 <= k) /\
        gatewayCalls (emitted o) =
          map (UploadToRagStore (JsStr name)) (firstn k rest) /\
        (res o = Ok tt -> k = length rest)) /\
    (res o = Diverge -> uploadProgress (app (world o)) <> None).
Proof.
  unfold gatewayCalls.
  induction rest as [|f rest IH]; intros i w.
  - cbn. split; [|discriminate]. exists 0. cbn. repeat split; auto.
    intros Hne. now contradiction Hne.
  - unfold uploadEach; fold uploadEach. run_unfold.
    destruct (uploadToRagStore fuel (JsStr name) f (backend w))
      as [[[]|e|] b1]; cbn.
    + match goal with
      | |- context [uploadEach fuel name n rest (S i) ?w1] =>
          specialize (IH (S i) w1); set (o1 := uploadEach fuel name n rest (S i) w1) in *
      end.
      rewrite !res_after, !world_after, !emitted_after.
      cbn in IH |- *. destruct IH as ((k & Hle & _ & Hcalls & Hall) & Hpending).
      split; [|assumption].
      exists (S k). cbn. rewrite Hcalls. repeat split; auto; lia.
    + split; [|discriminate]. exists 1. cbn. repeat split; auto; try lia.
      discriminate.
    + split; [|discriminate]. exists 1. cbn. repeat split; auto; try lia.
      discriminate.
Qed.

(** The progress objects of an upload loop that returns: one per file, in
    order, each carrying the file's position and name in its label and the
    total that was showing when the loop started. *)
Lemma uploadEach_labels (fuel : nat) (name : string) (n : nat) (rest : list File) :
  forall (i : nat) (w : World R) (shown : option nat),
    match uploadProgress (app w) with Some p => total p | None => None end = shown ->
    let o := uploadEach fuel name n rest i w in
    res o = Ok tt ->
    progressUpdates (emitted o) =
      map (fun p =>
             Some {| current := fst p; total := shown;
                     message := Some "Generating embeddings...";
                     fileName := Some (uploadLabel n p) |})
          (combine (seq (i + 1) (length rest)) rest).
Proof.
  unfold progressUpdates.
  induction rest as [|f rest IH]; intros i w shown Hshown.
  - reflexivity.
  - unfold uploadEach; fold uploadEach. run_unfold.
    destruct (uploadToRagStore fuel (JsStr name) f (backend w))
      as [[[]|e|] b1]; cbn; try discriminate.
    match goal with
    | |- context [uploadEach fuel name n rest (S i) ?w1] =>
        specialize (IH (S i) w1 shown); set (o1 := uploadEach fuel name n rest (S i) w1) in *
    end.
    rewrite !res_after, !emitted_after. cbn in IH |- *.
    intros Hres. rewrite (IH Hshown Hres), Hshown.
    replace (S i + 1) with (S (i + 1)) by lia. reflexivity.
Qed.

(** X14.  Once the store exists, the adapter calls of a create run, with
    their outcomes, are the creation, which returned, then the uploads of
    the staged files into the new store, in staging order.  When the run
    returns these are the uploads of all the files, and each returned.
    When it rejects, the uploads of the files before some file returned,
    the upload of that file was rejected, with the error of the run, and
    no later file was tried; when it is pending, likewise with the upload
    of that file pending. *)
Theorem create_uploads_in_staging_order
    (fuel : nat) (w : World R) (id : string) (b1 : Backend R) :
  isApiKeySelected (app w) = true ->
  files (app w) <> [] ->
  let friendlyName := friendlyNameOf (sessionLabel (backend w)) (files (app w)) in
  createRagStore friendlyName (backend w) = (Ok id, b1) ->
  let o := handleUploadAndStartChat fuel w in
  exists (done : list File) (final : list (GatewayCall * CallOutcome)),
    gatewayOutcomes (emitted o) =
      (CreateRagStore friendlyName, Returned)
      :: (map (fun f => (UploadToRagStore (JsStr id) f, Returned)) done
          ++ final)%list /\
    match res o with
    | Ok _ => done = files (app w) /\ final = []
    | Throw e =>
        exists f later,
          files (app w) = (done ++ f :: later)%list /\
          final = [(UploadToRagStore (JsStr id) f, Rejected e)]
    | Diverge =>
        exists f later,
          files (app w) = (done ++ f :: later)%list /\
          final = [(UploadToRagStore (JsStr id) f, Pending)]
    end.
Proof.
  intros Hkey Hfiles friendlyName Hcreate o.
  destruct (create_trace fuel w Hkey Hfiles Hcreate)
    as (done & stopped & Htrace & Hend).
  fold friendlyName o in Htrace, Hend.
  exists done, (gatewayOutcomes stopped). split.
  - rewrite Htrace.
    change (EvProgress ?p :: EvCall ?c ?r :: EvProgress ?q :: ?t)
      with ([EvProgress p; EvCall c r; EvProgress q] ++ t)%list.
    rewrite !gatewayOutcomes_app, gatewayOutcomes_uploadSteps.
    cbn [gatewayOutcomes flat_map Datatypes.app]. do 2 f_equal.
    rewrite <- (map_map snd (fun f => (UploadToRagStore (JsStr id) f, Returned))).
    rewrite map_snd_combine; [reflexivity|apply length_seq].
  - destruct (res o) as [[]|e|].
    + destruct Hend as [-> ->]. auto.
    + destruct Hend as (f & later & Hsplit & ->). exists f, later. auto.
    + destruct Hend as (f & later & Hsplit & ->). exists f, later. auto.
Qed.

(** X15.  The progress of a create run that returns, object by object: the
    creation, the embedding, then for the file at position [k] of [n] the
    label ["(k/n) "] followed by the file's name, the registration with an
    empty file name, and the clearing. *)
Theorem create_progress_labels (fuel : nat) (w : World R) :
  isApiKeySelected (app w) = true ->
  files (app w) <> [] ->
  let n := length (files (app w)) in
  let o := handleUploadAndStartChat fuel w in
  res o = Ok tt ->
  progressUpdates (emitted o) =
    (Some {| current := 0; total := Some (n + 2);
             message := Some "Creating document index..."; fileName := None |}
     :: Some {| current := 1; total := Some (n + 2);
                message := Some "Generating embeddings..."; fileName := None |}
     :: map (fun p =>
               Some {| current := fst p; total := Some (n + 2);
                       message := Some "Generating embeddings...";
                       fileName := Some (uploadLabel n p) |})
            (combine (seq 1 n) (files (app w)))
     ++ [Some {| current := n + 1; total := Some (n + 2);
                 message := Some "Registered! updating library...";
                 fileName := Some "" |};
         None])%list.
Proof.
  intros Hkey Hfiles n o Hok.
  pose proof (create_run fuel w Hkey Hfiles) as [_ Hrun].
  destruct (createRagStore _ (backend w)) as [[id|e|] b1] eqn:Hcreate.
  - clear Hrun.
    destruct (create_loop fuel w Hkey Hfiles Hcreate) as (Hres & Hemitted & _).
    fold o n in Hres, Hemitted. rewrite Hemitted.
    rewrite Hok in Hres. symmetry in Hres.
    match type of Hres with
    | res (uploadEach ?fu ?nm ?m ?rest ?i ?w1) = _ =>
        pose proof (uploadEach_labels fu nm m rest i w1 eq_refl Hres) as Hlabels;
        set (o1 := uploadEach fu nm m rest i w1) in *
    end.
    rewrite Hres.
    change (?a :: ?b :: ?c :: ?l) with ([a; b; c] ++ l)%list.
    rewrite !progressUpdates_app, Hlabels. reflexivity.
  - destruct Hrun as [Hres _]. fold o in Hres. congruence.
  - destruct Hrun as [Hres _]. fold o in Hres. congruence.
Qed.

(** On a message in ASCII the classification of the catch clause is the
    one computed letter by letter. *)
Lemma isCredentialError_ascii (m : string) :
  isAsciiText m = true ->
  isCredentialError (ErrorObj m) =
    includes (asciiLowerCase m) "api key not valid"
    || includes (asciiLowerCase m) "requested entity was not found".
Proof.
  intros Hascii. unfold isCredentialError.
  rewrite (toLowerCase_ascii m Hascii). reflexivity.
Qed.

(** X16.  When the creation of the store is rejected no upload is tried:
    the run rejects with the same error, having called the adapter once,
    keeps the staging set and the library, and clears the progress.  When
    the message of the error, lowered by the runtime's [toLowerCase],
    includes "api key not valid" or "requested entity was not found", the
    key is deselected and the session returns to [Welcome] with a key
    error; otherwise it goes to [Error] with the error text. *)
Theorem create_rejected_uploads_nothing
    (fuel : nat) (w : World R) (e : JsError) (b1 : Backend R) :
  isApiKeySelected (app w) = true ->
  files (app w) <> [] ->
  let friendlyName := friendlyNameOf (sessionLabel (backend w)) (files (app w)) in
  createRagStore friendlyName (backend w) = (Throw e, b1) ->
  let o := handleUploadAndStartChat fuel w in
  let errorMessage :=
    match e with
    | ErrorObj m => toLowerCase m
    | Thrown _ s => toLowerCase s
    end in
  res o = Throw e /\
  gatewayOutcomes (emitted o) = [(CreateRagStore friendlyName, Rejected e)] /\
  files (app (world o)) = files (app w) /\
  existingStores (app (world o)) = existingStores (app w) /\
  uploadProgress (app (world o)) = None /\
  if includes errorMessage "api key not valid"
     || includes errorMessage "requested entity was not found"
  then status (app (world o)) = Welcome /\
       isApiKeySelected (app (world o)) = false /\
       apiKeyError (app (world o)) =
         Some "The selected API key is invalid. Please select a different one and try again." /\
       error (app (world o)) = error (app w)
  else status (app (world o)) = Error /\
       isApiKeySelected (app (world o)) = true /\
       apiKeyError (app (world o)) = None /\
       error (app (world o)) =
         Some ("Failed to upload files"
               ++ match e with
                  | ErrorObj m => ": " ++ m
                  | Thrown true s => ": " ++ s
                  | Thrown false _ => ""
                  end).
Proof.
  intros Hkey Hfiles friendlyName Hcreate o errorMessage.
  pose proof (create_run fuel w Hkey Hfiles) as [_ Hrun].
  fold friendlyName o in Hrun. rewrite Hcreate in Hrun.
  destruct Hrun as (Hres & Hemitted & Happ).
  rewrite Hres, Hemitted, Happ. unfold afterFailedCreate.
  change (includes errorMessage "api key not valid"
          || includes errorMessage "requested entity was not found")
    with (isCredentialError e).
  destruct (isCredentialError e); cbn; rewrite ?Hkey; auto 10.
Qed.

(** X18.  The uploading screen is transient: a create run past its guard
    that settles has left [Uploading] and cleared the progress, and one that
    has not settled is in [Uploading] with a progress object showing. *)
Theorem create_leaves_uploading_when_settled (fuel : nat) (w : World R) :
  isApiKeySelected (app w) = true ->
  files (app w) <> [] ->
  let o := handleUploadAndStartChat fuel w in
  match res o with
  | Diverge =>
      status (app (world o)) = Uploading /\
      uploadProgress (app (world o)) <> None
  | _ =>
      status (app (world o)) <> Uploading /\
      uploadProgress (app (world o)) = None
  end.
Proof.
  intros Hkey Hfiles o.
  pose proof (create_run fuel w Hkey Hfiles) as [_ Hrun].
  destruct (createRagStore _ (backend w)) as [[id|e|] b1] eqn:Hcreate.
  - destruct Hrun as (evs & _ & _ & _ & Hrun). fold o in Hrun.
    destruct (create_loop fuel w Hkey Hfiles Hcreate) as (Hres & _ & Hworld).
    fold o in Hres, Hworld.
    destruct (res o) as [[]|e|] eqn:Ho.
    + destruct Hrun as (_ & _ & ->). cbn. split; [discriminate|reflexivity].
    + destruct Hrun as (_ & ->). unfold afterFailedCreate.
      destruct (isCredentialError e); cbn; split; (discriminate || reflexivity).
    + symmetry in Hres. rewrite (Hworld Hres).
      match type of Hres with
      | res (uploadEach ?fu ?nm ?m ?rest ?i ?w1) = _ =>
          destruct (uploadEach_calls fu nm m rest i w1) as (_ & Hshown);
          destruct (uploadEach_run fu nm m rest i w1) as (_ & Happ & _)
      end.
      split; [|exact (Hshown Hres)].
      rewrite Happ. reflexivity.
  - destruct Hrun as (Hres & _ & Happ). fold o in Hres, Happ.
    rewrite Hres, Happ. unfold afterFailedCreate.
    destruct (isCredentialError e); cbn; split; (discriminate || reflexivity).
  - destruct Hrun as (Hres & _). fold o in Hres. rewrite Hres.
    subst o. clear Hres.
    unfold handleUploadAndStartChat. run_unfold. rewrite Hkey. cbn [negb].
    destruct (Nat.eqb_spec (length (files (app w))) 0) as [Hlen|_].
    { exfalso. apply Hfiles. apply length_zero_iff_nil. exact Hlen. }
    cbn [res world emitted app screen backend after].
    rewrite Hcreate. cbn. split; [reflexivity|discriminate].
Qed.

End CreateMore.

Section ScreenMore.
Context {R : Type} {host : Host R}.

(** X19.  Confirming the removal of a file closes the confirmation and
    calls the adapter once, for that file.  The file leaves the shown list
    at once; it is back, with the list exactly as it was, when the adapter
    rejects, and the handler itself never rejects.  The session state is
    not touched. *)
Theorem executeDelete_file_rolls_back (w : World R) (s : RagStore) :
  confirm_type (confirmState (screen w)) = file ->
  managingStore (screen w) = Some s ->
  let target := targetId (confirmState (screen w)) in
  let o := executeDelete w in
  isOpen (confirmState (screen (world o))) = false /\
  app (world o) = app w /\
  emitted o =
    [EvCall (DeleteFile target) (outcomeOf (fst (deleteFile target (backend w))))] /\
  (forall e, res o <> Throw e) /\
  storeDocuments (screen (world o)) =
    match fst (deleteFile target (backend w)) with
    | Throw _ => storeDocuments (screen w)
    | _ => filter (fun d => negb (strictEq (doc_name d) target))
                  (storeDocuments (screen w))
    end.
Proof.
  intros Htype Hstore target o. subst o target.
  unfold executeDelete, handleDeleteFile. run_unfold.
  rewrite Htype, Hstore. run_unfold.
  destruct (deleteFile (targetId (confirmState (screen w))) (backend w))
    as [[[]|e|] b1]; cbn; repeat split; auto; discriminate.
Qed.

(** X20.  Confirming a file removal while no store is being managed only
    closes the confirmation: nothing is called and no list changes. *)
Theorem executeDelete_file_without_store (w : World R) :
  confirm_type (confirmState (screen w)) = file ->
  managingStore (screen w) = None ->
  let o := executeDelete w in
  res o = Ok tt /\ emitted o = [] /\
  app (world o) = app w /\ backend (world o) = backend w /\
  storeDocuments (screen (world o)) = storeDocuments (screen w) /\
  isOpen (confirmState (screen (world o))) = false.
Proof.
  intros Htype Hstore. unfold executeDelete. run_unfold.
  rewrite Htype, Hstore. cbn. auto 10.
Qed.

(** X21.  Opening a store's files lists its documents with one call.  A
    listing that returns shows the store with those documents; one that is
    rejected closes the view again and keeps the documents that were shown;
    either way the handler returns and the loading flag is off.  While the
    listing is pending the view stays open and loading. *)
Theorem handleMenuAction_files (s : RagStore) (w : World R) :
  let o := handleMenuAction menuFiles s w in
  app (world o) = app w /\
  emitted o =
    [EvCall (ListDocuments (store_name s))
            (outcomeOf (fst (listDocuments (store_name s) (backend w))))] /\
  match fst (listDocuments (store_name s) (backend w)) with
  | Ok docs =>
      res o = Ok tt /\
      managingStore (screen (world o)) = Some s /\
      storeDocuments (screen (world o)) = docs /\
      isLoadingDocs (screen (world o)) = false
  | Throw _ =>
      res o = Ok tt /\
      managingStore (screen (world o)) = None /\
      storeDocuments (screen (world o)) = storeDocuments (screen w) /\
      isLoadingDocs (screen (world o)) = false
  | Diverge =>
      res o = Diverge /\
      managingStore (screen (world o)) = Some s /\
      storeDocuments (screen (world o)) = storeDocuments (screen w) /\
      isLoadingDocs (screen (world o)) = true
  end.
Proof.
  unfold handleMenuAction, handleGetDocuments. run_unfold.
  destruct (listDocuments (store_name s) (backend w)) as [[docs|e|] b1];
    cbn; auto 10.
Qed.

(** Filtering a numbered list on the index: nothing goes when the index is
    below the numbering. *)
Lemma remove_index_below (A : Type) (fs : list A) :
  forall start target,
    target < start ->
    map snd (filter (fun p => negb (Nat.eqb (fst p) target))
                    (combine (seq start (length fs)) fs)) = fs.
Proof.
  induction fs as [|f fs IH]; intros start target Hlt; [reflexivity|].
  cbn. destruct (Nat.eqb_spec start target) as [Heq|_]; [lia|].
  cbn. rewrite IH by lia. reflexivity.
Qed.

(** And the element at the index goes, the others staying in order. *)
Lemma remove_index_at (A : Type) (fs : list A) :
  forall start i,
    map snd (filter (fun p => negb (Nat.eqb (fst p) (start + i)))
                    (combine (seq start (length fs)) fs)) =
    (firstn i fs ++ skipn (S i) fs)%list.
Proof.
  induction fs as [|f fs IH]; intros start i.
  - now destruct i.
  - cbn [length seq combine filter fst].
    destruct i as [|i].
    + rewrite Nat.add_0_r, Nat.eqb_refl. cbn [negb firstn skipn app].
      apply remove_index_below. lia.
    + destruct (Nat.eqb_spec start (start + S i)) as [Heq|_]; [lia|].
      cbn [negb map snd firstn skipn app].
      replace (start + S i) with (S start + i) by lia.
      rewrite IH. reflexivity.
Qed.

(** X22.  Removing a staged file takes out the file at that position and
    keeps the others in order; a position past the end removes nothing.
    Only the staging set changes, and nothing is called. *)
Theorem handleRemoveFile_removes_position (index : nat) (w : World R) :
  let o := handleRemoveFile index w in
  res o = Ok tt /\ emitted o = [] /\
  files (app (world o)) =
    (firstn index (files (app w)) ++ skipn (S index) (files (app w)))%list /\
  (length (files (app w)) <= index -> files (app (world o)) = files (app w)) /\
  (index < length (files (app w)) ->
   length (files (app (world o))) = length (files (app w)) - 1) /\
  app (world o) = with_files (files (app (world o))) (app w) /\
  screen (world o) = screen w /\ backend (world o) = backend w.
Proof.
  unfold handleRemoveFile. run_unfold. cbn.
  pose proof (remove_index_at (files (app w)) 0 index) as Hremoved.
  cbn [Nat.add] in Hremoved. rewrite Hremoved.
  repeat split; auto.
  - intros Hpast. rewrite firstn_all2 by exact Hpast.
    rewrite skipn_all2 by lia. apply app_nil_r.
  - intros Hin. rewrite length_app, length_firstn, length_skipn. lia.
Qed.

(** X23.  The credential check never rejects, emits nothing, and changes
    nothing of the session but the credential flag.  Where the host offers
    no check it changes nothing at all; a check that is rejected counts as
    no credential. *)
Theorem checkApiKey_only_sets_the_flag (w : World R) :
  let o := checkApiKey w in
  (forall e, res o <> Throw e) /\
  emitted o = [] /\
  screen (world o) = screen w /\
  app (world o) = with_isApiKeySelected (isApiKeySelected (app (world o))) (app w) /\
  match aistudio_hasSelectedApiKey with
  | None => world o = w
  | Some hasSelectedApiKey =>
      match fst (hasSelectedApiKey (remote (backend w))) with
      | Ok hasKey => isApiKeySelected (app (world o)) = hasKey
      | Throw _ => isApiKeySelected (app (world o)) = false
      | Diverge => isApiKeySelected (app (world o)) = isApiKeySelected (app w)
      end
  end.
Proof.
  unfold checkApiKey, liftHost, liftG.
  destruct aistudio_hasSelectedApiKey as [hasSelectedApiKey|].
  - run_unfold.
    destruct (hasSelectedApiKey (remote (backend w))) as [[hasKey|e|] r1]; cbn;
      destruct w as [[] ? ?]; cbn; repeat split; auto; discriminate.
  - cbn. destruct w as [[] ? ?]; cbn; repeat split; auto; discriminate.
Qed.

(** X24.  Choosing a key never rejects and emits nothing but the alert.
    Where the host offers no picker it alerts and changes nothing.  Where
    it does, the picker is called; when the picker is rejected or pending
    the run ends there, with the session as it was and the host as the
    picker left it, so that no credential check has been made; when the
    picker returns, the rest of the run is the credential check, made on
    the host as the picker left it, and only the credential flag may have
    changed in the session. *)
Theorem handleSelectKey_never_rejects (w : World R) :
  let o := handleSelectKey w in
  (forall e, res o <> Throw e) /\
  screen (world o) = screen w /\
  match aistudio_openSelectKey with
  | None =>
      world o = w /\
      emitted o = [EvAlert "API key selection is not available in this environment."]
  | Some openSelectKey =>
      let picked :=
        {| app := app w; screen := screen w;
           backend := set_remote (snd (openSelectKey (remote (backend w))))
                                 (backend w) |} in
      emitted o = [] /\
      match fst (openSelectKey (remote (backend w))) with
      | Ok _ =>
          world o = world (checkApiKey picked) /\
          app (world o) =
            with_isApiKeySelected (isApiKeySelected (app (world o))) (app w)
      | Throw _ => res o = Ok tt /\ world o = picked
      | Diverge => res o = Diverge /\ world o = picked
      end
  end.
Proof.
  unfold handleSelectKey, liftHost, liftG.
  destruct aistudio_openSelectKey as [openSelectKey|].
  - run_unfold.
    destruct (openSelectKey (remote (backend w))) as [[[]|e|] r1];
      cbn [res world emitted app screen backend after fst snd].
    + unfold checkApiKey, liftHost, liftG.
      destruct aistudio_hasSelectedApiKey as [hasSelectedApiKey|].
      * run_unfold. cbn.
        destruct (hasSelectedApiKey r1) as [[hasKey|e|] r2]; cbn;
          destruct w as [[] ? ?]; cbn; repeat split; auto; discriminate.
      * cbn. destruct w as [[] ? ?]; cbn; repeat split; auto; discriminate.
    + cbn. repeat split; auto; discriminate.
    + cbn. repeat split; auto; discriminate.
  - cbn. repeat split; auto; discriminate.
Qed.

(** X25.  A selection that settles has left [Uploading] for [Chatting] or
    [Error] and cleared the progress, and the handler has returned; one
    whose question fetch is pending stays in [Uploading] with the loading
    progress showing. *)
Theorem handleSelectExistingStore_settles (s : RagStore) (w : World R) :
  let o := handleSelectExistingStore s w in
  (forall e, res o <> Throw e) /\
  match res o with
  | Diverge =>
      status (app (world o)) = Uploading /\
      uploadProgress (app (world o)) =
        Some {| current := 1; total := Some 1;
                message := Some "Loading existing session..."; fileName := None |}
  | _ =>
      (status (app (world o)) = Chatting \/ status (app (world o)) = Error) /\
      uploadProgress (app (world o)) = None
  end.
Proof.
  unfold handleSelectExistingStore, handleError. run_unfold.
  destruct (generateExampleQuestions (store_name s) (backend w))
    as [[questions|e|] b1]; cbn; repeat split; auto; discriminate.
Qed.

End ScreenMore.

Section PollingProperties.
Context {R : Type} {host : Host R}.

(** The polling loop returns only at an operation that reports done, after
    at most [fuel] polls, each of them on an operation that was not done;
    the client is kept. *)
Lemma pollUntilDone_returns (c : Client) (fuel : nat) :
  forall (op : Operation) (b b' : Backend R),
    ai b = Some c ->
    pollUntilDone fuel op b = (Ok tt, b') ->
    ai b' = Some c /\ API_KEY b' = API_KEY b /\
    exists (k : nat) (op' : Operation),
      k <= fuel /\ Polled c k op (remote b) op' (remote b') /\
      op_done op' = true.
Proof.
  induction fuel as [|fuel IH]; intros op b b' Hai.
  - cbn. destruct (op_done op) eqn:Hdone; [|discriminate].
    intros H. injection H as <-. repeat split; auto.
    exists 0, op. repeat split; auto. constructor.
  - cbn. destruct (op_done op) eqn:Hdone.
    + intros H. injection H as <-. repeat split; auto.
      exists 0, op. repeat split; auto; [lia|constructor].
    + unfold bindST, withClient. rewrite Hai.
      destruct (sdk_operations_get c op (remote b)) as [[op1| |] r1] eqn:Hget;
        try discriminate.
      intros Hrest.
      destruct (IH op1 (set_remote r1 b) b' Hai Hrest)
        as (Hai' & Hkey & k & op' & Hle & Hpolled & Hdone').
      repeat split; auto.
      exists (S k), op'. repeat split; auto; [lia|].
      econstructor; eassumption.
Qed.

(** X26.  An upload returns only once the remote has reported the
    operation done: the upload call returned an operation, the adapter
    polled it while it was not done, at most [fuel] times, and stopped at
    the first operation that was. *)
Theorem uploadToRagStore_returns_when_done
    (fuel : nat) (ragStoreName : JsValue) (f : File) (b b' : Backend R)
    (c : Client) :
  ai b = Some c ->
  uploadToRagStore fuel ragStoreName f b = (Ok tt, b') ->
  exists (op0 : Operation) (r0 : R) (k : nat) (op' : Operation),
    sdk_uploadToFileSearchStore c ragStoreName f (remote b) = (Ok op0, r0) /\
    k <= fuel /\
    Polled c k op0 r0 op' (remote b') /\
    op_done op' = true.
Proof.
  intros Hai. unfold uploadToRagStore. cbn [bind Monad_ST]. unfold bindST at 1.
  unfold ensureInitialized. rewrite Hai.
  unfold bindST, withClient, retST. rewrite Hai.
  destruct (sdk_uploadToFileSearchStore c ragStoreName f (remote b))
    as [[op0| |] r0] eqn:Hup; try discriminate.
  intros Hpoll.
  destruct (@pollUntilDone_returns c fuel op0 (set_remote r0 b) b' Hai Hpoll)
    as (_ & _ & k & op' & Hle & Hpolled & Hdone).
  exists op0, r0, k, op'. auto.
Qed.

End PollingProperties.

Section SessionMore.
Context {R : Type} {host : Host R}.

Lemma initialize_returns (b : Backend R) : fst (initialize b) = Ok tt.
Proof.
  unfold initialize. destruct (API_KEY b) as [key|];
    [destruct (negb (key =? ""))|]; reflexivity.
Qed.

(** X28.  The effect on the credential flag never rejects and never waits.
    Without a credential it goes to [Welcome] and calls nothing; with one it
    rebuilds the client and starts one listing, on the rebuilt client, and
    returns whatever becomes of the listing. *)
Theorem apiKeyEffect_lists_with_credential (w : World R) :
  let o := apiKeyEffect w in
  res o = Ok tt /\
  screen (world o) = screen w /\
  if isApiKeySelected (app w)
  then emitted o =
         [EvCall ListRagStores
            (outcomeOf (fst (listRagStores (snd (initialize (backend w))))))] /\
       backend (world o) = snd (listRagStores (snd (initialize (backend w))))
  else emitted o = [] /\
       world o = {| app := with_status Welcome (app w);
                    screen := screen w; backend := backend w |}.
Proof.
  unfold apiKeyEffect, liftG. run_unfold.
  destruct (isApiKeySelected (app w)); [|cbn; auto].
  pose proof (initialize_returns (backend w)) as Hinit.
  destruct (initialize (backend w)) as [r b1]. cbn [fst snd] in *. subst r.
  cbn [res world emitted app screen backend after].
  unfold loadExistingStores. run_unfold.
  destruct (listRagStores b1) as [[stores|e|] b2]; cbn;
    destruct (AppStatus_eqb (status (app w)) Initializing); cbn; auto.
Qed.

(** The credential check never rejects, emits nothing and changes the
    credential flag only. *)
Lemma checkApiKey_frame (w : World R) :
  (forall e, res (checkApiKey w) <> Throw e) /\
  emitted (checkApiKey w) = [] /\
  screen (world (checkApiKey w)) = screen w /\
  app (world (checkApiKey w)) =
    with_isApiKeySelected (isApiKeySelected (app (world (checkApiKey w)))) (app w) /\
  (res (checkApiKey w) = Diverge -> app (world (checkApiKey w)) = app w).
Proof.
  unfold checkApiKey, liftHost, liftG.
  destruct aistudio_hasSelectedApiKey as [hasSelectedApiKey|].
  - run_unfold.
    destruct (hasSelectedApiKey (remote (backend w))) as [[hasKey|e|] r1]; cbn;
      destruct w as [[] ? ?]; cbn; repeat split; auto; discriminate.
  - cbn. destruct w as [[] ? ?]; cbn; repeat split; auto; discriminate.
Qed.

(** X29.  Mounted without a credential selected, the session is at
    [Welcome] after the mount whatever the host answers, the mount does not
    reject, and the library is listed exactly when the check found a
    credential. *)
Theorem mount_reaches_welcome (w : World R) :
  isApiKeySelected (app w) = false ->
  let o := mount w in
  (forall e, res o <> Throw e) /\
  status (app (world o)) = Welcome /\
  gatewayCalls (emitted o) =
    (if isApiKeySelected (app (world o)) then [ListRagStores] else []).
Proof.
  intros Hflag. unfold mount, perform, apiKeyEffect, handlerOf, liftG.
  run_unfold. rewrite Hflag.
  cbn [res world emitted app screen backend after].
  match goal with
  | |- context [checkApiKey ?w1] =>
      pose proof (checkApiKey_frame w1) as (Hres & Hemitted & _ & Happ & Hpending);
      destruct (checkApiKey w1) as [[[]|e|] w2 evs]
  end; cbn [res world emitted app screen backend after] in *; subst evs.
  - assert (Hst : status (app w2) = Welcome) by (rewrite Happ; reflexivity).
    change (isApiKeySelected (with_status Welcome (app w)))
      with (isApiKeySelected (app w)).
    rewrite Hflag. clear Happ.
    destruct (isApiKeySelected (app w2)) eqn:Hnow;
      cbn [Bool.eqb res world emitted app screen backend after].
    + rewrite Hnow.
      pose proof (initialize_returns (backend w2)) as Hinit.
      destruct (initialize (backend w2)) as [r b1]. cbn [fst] in Hinit. subst r.
      cbn [res world emitted app screen backend after].
      unfold loadExistingStores. run_unfold. rewrite Hst.
      destruct (listRagStores b1) as [[stores|e|] b2]; cbn;
        rewrite ?Hnow, ?Hst; repeat split; auto; discriminate.
    + cbn. rewrite Hnow, Hst. repeat split; auto; discriminate.
  - exfalso. exact (Hres e eq_refl).
  - cbn. rewrite (Hpending eq_refl). cbn. rewrite Hflag.
    repeat split; auto; discriminate.
Qed.

End SessionMore.

Section StagingProperties.
Context {R : Type} {host : Host R}.

Lemma loadExistingStores_files (captured : AppStatus) (w : World R) :
  files (app (world (loadExistingStores captured w))) = files (app w).
Proof.
  unfold loadExistingStores. run_unfold.
  destruct (listRagStores (backend w)) as [[stores|e|] b1]; cbn;
    destruct (AppStatus_eqb captured Initializing); reflexivity.
Qed.

Lemma apiKeyEffect_files (w : World R) :
  files (app (world (apiKeyEffect w))) = files (app w).
Proof.
  unfold apiKeyEffect, liftG. run_unfold.
  destruct (isApiKeySelected (app w)); [|reflexivity].
  destruct (initialize (backend w)) as [[[]|e|] b1]; try reflexivity.
  cbn [res world emitted app screen backend after]. rewrite !world_after.
  unfold detached.
  match goal with
  | |- context [loadExistingStores ?st ?w1] =>
      pose proof (loadExistingStores_files st w1) as Hfiles;
      destruct (loadExistingStores st w1) as [r2 w2 evs2]
  end.
  exact Hfiles.
Qed.

Lemma handleDeleteStore_files (storeName : JsValue) (w : World R) :
  files (app (world (handleDeleteStore storeName w))) = files (app w).
Proof.
  unfold handleDeleteStore. run_unfold.
  destruct (deleteRagStore storeName (backend w)) as [[[]|e|] b1];
    try reflexivity.
  cbn [res world emitted app screen backend after]. rewrite !world_after.
  unfold detached.
  match goal with
  | |- context [loadExistingStores ?st ?w1] =>
      pose proof (loadExistingStores_files st w1) as Hfiles;
      destruct (loadExistingStores st w1) as [r2 w2 evs2]
  end.
  exact Hfiles.
Qed.

(** X30.  The staging set across the actions of the session: staging
    appends the picked files, a new chat empties the set, and every action
    other than these, a removal and a create run leaves it exactly as it
    was, whatever the remote answers and whether or not the action changes
    the credential flag. *)
Theorem staged_files_across_actions (act : Action) (w : World R) :
  let w' := world (perform act w) in
  match act with
  | DoStageFiles picked => files (app w') = (files (app w) ++ picked)%list
  | DoNewChat => files (app w') = []
  | DoRemoveFile _ | DoUpload _ => True
  | _ => files (app w') = files (app w)
  end.
Proof.
  cbv zeta. rewrite perform_world.
  assert (Hchain : forall expected,
             files (app (world (handlerOf act w))) = expected ->
             files (app match res (handlerOf act w) with
                        | Ok _ =>
                            if Bool.eqb (isApiKeySelected (app w))
                                 (isApiKeySelected (app (world (handlerOf act w))))
                            then world (handlerOf act w)
                            else world (apiKeyEffect (world (handlerOf act w)))
                        | _ => world (handlerOf act w)
                        end) = expected).
  { intros expected Hhandler.
    destruct (res (handlerOf act w)) as [[]|e|]; [|assumption..].
    destruct (Bool.eqb _ _); [assumption|].
    rewrite apiKeyEffect_files. assumption. }
  destruct act as [| |fuel|action s| | |picked|index|text| |];
    try exact I; apply Hchain; unfold handlerOf.
  - (* focus *)
    unfold checkApiKey, liftHost, liftG.
    destruct aistudio_hasSelectedApiKey as [hasSelectedApiKey|]; [|reflexivity].
    run_unfold.
    destruct (hasSelectedApiKey (remote (backend w))) as [[hasKey|e|] r1];
      reflexivity.
  - (* choosing a key *)
    unfold handleSelectKey, checkApiKey, liftHost, liftG.
    destruct aistudio_openSelectKey as [openSelectKey|]; [|reflexivity].
    run_unfold.
    destruct (openSelectKey (remote (backend w))) as [[[]|e|] r1];
      try reflexivity.
    cbn [res world emitted app screen backend after].
    destruct aistudio_hasSelectedApiKey as [hasSelectedApiKey|]; [|reflexivity].
    run_unfold. cbn.
    destruct (hasSelectedApiKey r1) as [[hasKey|e|] r2]; reflexivity.
  - (* a store's menu *)
    destruct action.
    + unfold handleMenuAction, handleSelectExistingStore, handleError.
      run_unfold.
      destruct (generateExampleQuestions (store_name s) (backend w))
        as [[questions|e|] b1]; reflexivity.
    + reflexivity.
    + unfold handleMenuAction, handleGetDocuments. run_unfold.
      destruct (listDocuments (store_name s) (backend w)) as [[docs|e|] b1];
        reflexivity.
  - (* a confirmed removal *)
    unfold executeDelete. run_unfold.
    destruct (confirm_type (confirmState (screen w))).
    + unfold detached.
      match goal with
      | |- context [handleDeleteStore ?n ?w1] =>
          pose proof (handleDeleteStore_files n w1) as Hfiles;
          destruct (handleDeleteStore n w1) as [r2 w2 evs2]
      end.
      exact Hfiles.
    + destruct (managingStore (screen w)); [|reflexivity].
      unfold handleDeleteFile. run_unfold.
      destruct (deleteFile (targetId (confirmState (screen w))) (backend w))
        as [[[]|e|] b1]; reflexivity.
  - (* a refresh *)
    run_unfold. rewrite world_after. apply loadExistingStores_files.
  - (* staging *)
    reflexivity.
  - (* a send *)
    unfold handleSendMessage, handleError. run_unfold.
    destruct (truthy (activeRagStoreName (app w))); [|reflexivity].
    cbn.
    destruct (fileSearch (activeRagStoreName (app w)) text (backend w))
      as [[result|e|] b1]; reflexivity.
  - (* a new chat *)
    unfold handleEndChat. run_unfold. unfold detached.
    match goal with
    | |- context [loadExistingStores ?st ?w1] =>
        pose proof (loadExistingStores_files st w1) as Hfiles;
        destruct (loadExistingStores st w1) as [r2 w2 evs2]
    end.
    exact Hfiles.
  - (* try again *)
    reflexivity.
Qed.

End StagingProperties.

Section ManageModalProperties.
Context {R : Type} {host : Host R}.

(** X27.  Adding a file to the store whose files are shown never rejects
    and leaves the session state alone.  It uploads the file into that
    store and, only when the upload returned, lists the store's documents;
    the shown list is replaced when the listing returned too, and is
    otherwise kept.  The metadata given with the file has no effect on the
    run. *)
Theorem handleModalUpload_refreshes_list
    (fuel : nat) (f : File) (metadata : list CustomMetadata)
    (w : World R) (s : RagStore) :
  managingStore (screen w) = Some s ->
  let o := handleModalUpload fuel f metadata w in
  (forall e, res o <> Throw e) /\
  app (world o) = app w /\
  handleModalUpload fuel f [] w = o /\
  match fst (uploadToRagStore fuel (store_name s) f (backend w)) with
  | Ok _ =>
      gatewayCalls (emitted o) =
        [UploadToRagStore (store_name s) f; ListDocuments (store_name s)] /\
      storeDocuments (screen (world o)) =
        match fst (listDocuments (store_name s)
                     (snd (uploadToRagStore fuel (store_name s) f (backend w)))) with
        | Ok docs => docs
        | _ => storeDocuments (screen w)
        end
  | _ =>
      gatewayCalls (emitted o) = [UploadToRagStore (store_name s) f] /\
      storeDocuments (screen (world o)) = storeDocuments (screen w)
  end.
Proof.
  intros Hstore.
  unfold handleModalUpload, handleAddFileToStore, handleGetDocuments.
  run_unfold. rewrite Hstore. run_unfold.
  destruct (uploadToRagStore fuel (store_name s) f (backend w))
    as [[[]|e|] b1]; cbn; [|repeat split; auto; discriminate..].
  destruct (listDocuments (store_name s) b1) as [[docs|e|] b2]; cbn;
    repeat split; auto; discriminate.
Qed.

End ManageModalProperties.

(* ===================================================================== *)
(** ** More concrete runs *)
(* ===================================================================== *)

(** The listing of the scripted remote, entry by entry. *)
Lemma listRagStores_entries_witness :
  exists (c : Client) (response : JsValue) (r' : Script),
    sdk_list c 100 (remote (readyBackend (happyScript 0))) = (Ok response, r') /\
    Forall2 (fun entry s =>
               store_name s = prop entry "name" /\
               truthy (store_displayName s) = true /\
               (truthy (prop entry "displayName") = true ->
                store_displayName s = prop entry "displayName"))
            (findArrayInResponse response) [washer].
Proof.
  apply (@listRagStores_entries Script ScriptHost
           (readyBackend (happyScript 0)) (readyBackend (happyScript 0)) [washer]).
  reflexivity.
Defined.

(** A listing whose second entry is [null]. *)
Lemma listRagStores_rejects_null_entry_witness :
  exists e,
    listRagStores (readyBackend nullEntryScript) =
      (Throw e, set_remote nullEntryScript (readyBackend nullEntryScript)).
Proof.
  apply (@listRagStores_rejects_null_entry Script ScriptHost
           (readyBackend nullEntryScript) {| apiKey := "k" |}
           (JsArr 9 [JsObj 3 [("name", JsStr "store/7")]; JsNull])
           nullEntryScript).
  - reflexivity.
  - reflexivity.
  - right. left. reflexivity.
Defined.

(** The store the scripted remote creates. *)
Lemma createRagStore_name_witness :
  "store/42" <> "" /\
  exists (c : Client) (r' : Script),
    sdk_create c "manual.pdf" (remote (readyBackend (happyScript 0))) =
      (Ok (Some "store/42"), r') /\
    ai (readyBackend (happyScript 0)) = Some c /\
    remote (readyBackend (happyScript 0)) = r'.
Proof.
  apply (@createRagStore_name Script ScriptHost "manual.pdf"
           (readyBackend (happyScript 0)) (readyBackend (happyScript 0))
           "store/42").
  reflexivity.
Defined.

(** The adapter where the environment holds no key. *)
Lemma adapter_rejects_without_client_witness :
  createRagStore "manual.pdf" (backend noKeyWorld) =
    (Throw (ErrorObj "Gemini AI client not initialized. Please wait for the API key to load."),
     backend noKeyWorld) /\
  fileSearch (JsStr "store/7") "Where is the filter?" (backend noKeyWorld) =
    (Throw (ErrorObj "Gemini AI client not initialized. Please wait for the API key to load."),
     backend noKeyWorld).
Proof.
  pose proof (@adapter_rejects_without_client Script ScriptHost
                (backend noKeyWorld) 3 (JsStr "store/7") "manual.pdf" manual
                eq_refl (or_introl eq_refl)) as Hcreate.
  pose proof (@adapter_rejects_without_client Script ScriptHost
                (backend noKeyWorld) 3 (JsStr "store/7") "Where is the filter?"
                manual eq_refl (or_introl eq_refl)) as Hsearch.
  split; [exact (proj1 Hcreate)|].
  exact (proj1 (proj2 (proj2 (proj2 (proj2 (proj2 Hsearch)))))).
Defined.

(** The client is built from the key [k] where there is none yet. *)
Lemma initialize_rebuilds_ensureInitialized_keeps_witness :
  initialize (backend oneFileWorld) =
    (Ok tt, readyBackend (happyScript 1)) /\
  ensureInitialized (backend oneFileWorld) =
    (Ok tt, readyBackend (happyScript 1)).
Proof.
  pose proof (@initialize_rebuilds_ensureInitialized_keeps Script
                (backend oneFileWorld) "k" eq_refl) as Hinit.
  assert (Hkey : "k" <> "") by discriminate.
  destruct (Hinit Hkey) as (Hbuilt & _ & Hensure).
  split; [exact Hbuilt|exact (Hensure eq_refl)].
Defined.

(** The answer of the scripted remote, which carries no grounding. *)
Lemma fileSearch_answer_witness :
  "It is on page 3." <> "" /\
  exists (c : Client) (response : GenResponse) (r' : Script),
    sdk_generateContent c
      {| req_model := "gemini-2.5-flash";
         req_contents := "Where is the filter?DO NOT ASK THE USER TO READ THE MANUAL, pinpoint the relevant sections in the response itself.";
         req_fileSearchStoreNames := [JsStr "store/7"];
         req_jsonSchema := false |} (happyScript 0) = (Ok response, r') /\
    happyScript 0 = r' /\
    (resp_groundingChunks response = None ->
     @nil JsValue = []) /\
    (forall t, resp_text response = Some t -> t <> "" -> "It is on page 3." = t).
Proof.
  exact (@fileSearch_answer Script ScriptHost (JsStr "store/7")
           "Where is the filter?" (readyBackend (happyScript 0))
           (readyBackend (happyScript 0))
           {| qr_text := "It is on page 3."; qr_groundingChunks := [] |}
           eq_refl).
Defined.

(** The scripted remote answers in prose, which does not parse. *)
Lemma generateExampleQuestions_best_effort_witness :
  exists questions,
    generateExampleQuestions (JsStr "store/7") (readyBackend (happyScript 0)) =
      (Ok questions, readyBackend (happyScript 0)) /\
    (JSON_parse "It is on page 3." = None -> questions = []).
Proof.
  exact (@generateExampleQuestions_best_effort Script ScriptHost
           (JsStr "store/7") (readyBackend (happyScript 0)) {| apiKey := "k" |}
           eq_refl).
Defined.

(** A send from the welcome screen, where no store is active. *)
Lemma handleSendMessage_without_store_witness :
  handleSendMessage "Where is the filter?" oneFileWorld =
    {| res := Ok tt; world := oneFileWorld; emitted := [] |}.
Proof.
  exact (@handleSendMessage_without_store Script ScriptHost
           "Where is the filter?" oneFileWorld eq_refl).
Defined.

(** A send in the chat against [store/7]. *)
Lemma handleSendMessage_one_search_witness :
  emitted (handleSendMessage "How do I reset it?" chatWorld) =
    [EvCall (FileSearch (JsStr "store/7") "How do I reset it?") Returned] /\
  activeRagStoreName (app (world (handleSendMessage "How do I reset it?" chatWorld))) =
    JsStr "store/7".
Proof.
  pose proof (@handleSendMessage_one_search Script ScriptHost
                "How do I reset it?" chatWorld eq_refl)
    as (Hemitted & _ & _ & Hactive & _).
  split; [exact Hemitted|exact Hactive].
Defined.

(** Selecting [store/7] from the library. *)
Lemma handleSelectExistingStore_enters_chat_witness :
  res (handleSelectExistingStore washer oneFileWorld) = Ok tt /\
  status (app (world (handleSelectExistingStore washer oneFileWorld))) = Chatting /\
  activeRagStoreName (app (world (handleSelectExistingStore washer oneFileWorld))) =
    JsStr "store/7" /\
  documentName (app (world (handleSelectExistingStore washer oneFileWorld))) =
    JsStr "Washer".
Proof.
  pose proof (@handleSelectExistingStore_enters_chat Script ScriptHost
                washer oneFileWorld []
                (snd (generateExampleQuestions (JsStr "store/7")
                        (backend oneFileWorld)))
                eq_refl)
    as (Hres & Hstatus & Hactive & Hname & _).
  repeat split; assumption.
Defined.

(** Two staged files, the second of which is rejected. *)
Lemma create_uploads_in_staging_order_witness :
  exists (done : list File) (final : list (GatewayCall * CallOutcome)),
    gatewayOutcomes (emitted (handleUploadAndStartChat 5 secondUploadFailsWorld)) =
      (CreateRagStore "manual.pdf + 1 others", Returned)
      :: (map (fun f => (UploadToRagStore (JsStr "store/42") f, Returned)) done
          ++ final)%list /\
    exists f later,
      [manual; guide] = (done ++ f :: later)%list /\
      final = [(UploadToRagStore (JsStr "store/42") f,
                Rejected (ErrorObj "quota exceeded"))].
Proof.
  assert (Hfiles : files (app secondUploadFailsWorld) <> []) by discriminate.
  exact (@create_uploads_in_staging_order Script ScriptHost 5
           secondUploadFailsWorld "store/42"
           (snd (createRagStore "manual.pdf + 1 others"
                   (backend secondUploadFailsWorld)))
           eq_refl Hfiles eq_refl).
Defined.

(** The progress of the run that uploads [manual.pdf] and [guide.txt]. *)
Lemma create_progress_labels_witness :
  progressUpdates (emitted (handleUploadAndStartChat 5 twoFilesWorld)) =
    [Some {| current := 0; total := Some 4;
             message := Some "Creating document index..."; fileName := None |};
     Some {| current := 1; total := Some 4;
             message := Some "Generating embeddings..."; fileName := None |};
     Some {| current := 1; total := Some 4;
             message := Some "Generating embeddings...";
             fileName := Some "(1/2) manual.pdf" |};
     Some {| current := 2; total := Some 4;
             message := Some "Generating embeddings...";
             fileName := Some "(2/2) guide.txt" |};
     Some {| current := 3; total := Some 4;
             message := Some "Registered! updating library...";
             fileName := Some "" |};
     None].
Proof.
  assert (Hfiles : files (app twoFilesWorld) <> []) by discriminate.
  exact (@create_progress_labels Script ScriptHost 5 twoFilesWorld
           eq_refl Hfiles eq_refl).
Defined.

(** The remote rejects the creation for the credential. *)
Lemma create_rejected_uploads_nothing_witness :
  res (handleUploadAndStartChat 5 createRejectedWorld) =
    Throw (ErrorObj "API key not valid. Please pass a valid API key.") /\
  gatewayOutcomes (emitted (handleUploadAndStartChat 5 createRejectedWorld)) =
    [(CreateRagStore "manual.pdf",
      Rejected (ErrorObj "API key not valid. Please pass a valid API key."))] /\
  files (app (world (handleUploadAndStartChat 5 createRejectedWorld))) = [manual] /\
  existingStores (app (world (handleUploadAndStartChat 5 createRejectedWorld))) =
    [washer] /\
  uploadProgress (app (world (handleUploadAndStartChat 5 createRejectedWorld))) =
    None /\
  status (app (world (handleUploadAndStartChat 5 createRejectedWorld))) = Welcome /\
  isApiKeySelected (app (world (handleUploadAndStartChat 5 createRejectedWorld))) =
    false /\
  apiKeyError (app (world (handleUploadAndStartChat 5 createRejectedWorld))) =
    Some "The selected API key is invalid. Please select a different one and try again." /\
  error (app (world (handleUploadAndStartChat 5 createRejectedWorld))) = None.
Proof.
  assert (Hfiles : files (app createRejectedWorld) <> []) by discriminate.
  exact (@create_rejected_uploads_nothing Script ScriptHost 5 createRejectedWorld
           (ErrorObj "API key not valid. Please pass a valid API key.")
           (snd (createRagStore "manual.pdf" (backend createRejectedWorld)))
           eq_refl Hfiles eq_refl).
Defined.

(** With no poll allowed, the upload of [manual.pdf] stays pending. *)
Lemma create_leaves_uploading_when_settled_witness :
  status (app (world (handleUploadAndStartChat 0 oneFileWorld))) = Uploading /\
  uploadProgress (app (world (handleUploadAndStartChat 0 oneFileWorld))) <> None.
Proof.
  assert (Hfiles : files (app oneFileWorld) <> []) by discriminate.
  exact (@create_leaves_uploading_when_settled Script ScriptHost 0 oneFileWorld
           eq_refl Hfiles).
Defined.

(** The remote rejects the removal of [files/a]: the list is as it was. *)
Lemma executeDelete_file_rolls_back_witness :
  isOpen (confirmState (screen (world (executeDelete fileDeleteFailsWorld)))) =
    false /\
  emitted (executeDelete fileDeleteFailsWorld) =
    [EvCall (DeleteFile (JsStr "files/a"))
            (Rejected (ErrorObj "permission denied"))] /\
  storeDocuments (screen (world (executeDelete fileDeleteFailsWorld))) =
    storeDocuments (screen fileDeleteFailsWorld).
Proof.
  pose proof (@executeDelete_file_rolls_back Script ScriptHost
                fileDeleteFailsWorld washer eq_refl eq_refl)
    as (Hclosed & _ & Hemitted & _ & Hdocs).
  repeat split; assumption.
Defined.

(** A confirmation for a file with no store open. *)
Lemma executeDelete_file_without_store_witness :
  res (executeDelete strayFileConfirmWorld) = Ok tt /\
  emitted (executeDelete strayFileConfirmWorld) = [] /\
  app (world (executeDelete strayFileConfirmWorld)) = app strayFileConfirmWorld /\
  backend (world (executeDelete strayFileConfirmWorld)) =
    backend strayFileConfirmWorld /\
  storeDocuments (screen (world (executeDelete strayFileConfirmWorld))) =
    storeDocuments (screen strayFileConfirmWorld) /\
  isOpen (confirmState (screen (world (executeDelete strayFileConfirmWorld)))) =
    false.
Proof.
  exact (@executeDelete_file_without_store Script ScriptHost
           strayFileConfirmWorld eq_refl eq_refl).
Defined.

(** The upload of [manual.pdf], done at its first poll. *)
Lemma uploadToRagStore_returns_when_done_witness :
  exists (op0 : Operation) (r0 : Script) (k : nat) (op' : Operation),
    sdk_uploadToFileSearchStore {| apiKey := "k" |} (JsStr "store/42") manual
      (remote (readyBackend (happyScript 1))) = (Ok op0, r0) /\
    k <= 5 /\
    Polled {| apiKey := "k" |} k op0 r0 op'
      (remote (snd (uploadToRagStore 5 (JsStr "store/42") manual
                      (readyBackend (happyScript 1))))) /\
    op_done op' = true.
Proof.
  exact (@uploadToRagStore_returns_when_done Script ScriptHost 5
           (JsStr "store/42") manual (readyBackend (happyScript 1))
           (snd (uploadToRagStore 5 (JsStr "store/42") manual
                   (readyBackend (happyScript 1))))
           {| apiKey := "k" |} eq_refl eq_refl).
Defined.

(** The mount where the host reports a credential. *)
Lemma mount_reaches_welcome_witness :
  (forall e, res (mount (mountWorld (happyScript 0))) <> Throw e) /\
  status (app (world (mount (mountWorld (happyScript 0))))) = Welcome /\
  gatewayCalls (emitted (mount (mountWorld (happyScript 0)))) = [ListRagStores].
Proof.
  exact (@mount_reaches_welcome Script ScriptHost (mountWorld (happyScript 0))
           eq_refl).
Defined.

(** One more file for [store/7], whose two files are shown. *)
Lemma handleModalUpload_refreshes_list_witness :
  gatewayCalls
    (emitted (handleModalUpload 5 guide [] (confirmingFileDelete (happyScript 1)))) =
    [UploadToRagStore (JsStr "store/7") guide; ListDocuments (JsStr "store/7")] /\
  app (world (handleModalUpload 5 guide [] (confirmingFileDelete (happyScript 1)))) =
    app (confirmingFileDelete (happyScript 1)).
Proof.
  pose proof (@handleModalUpload_refreshes_list Script ScriptHost 5 guide []
                (confirmingFileDelete (happyScript 1)) washer eq_refl)
    as (_ & Happ & _ & Hcalls & _).
  split; [exact Hcalls|exact Happ].
Defined.
